(** * LinkedIn career coach: the conversational routing core

    A shallow embedding of the Python sources
      routing.py, graph_utils.py, agents/*.py, scraper/linkedin_scraper.py
    and the properties of the specification proved (or refuted) on it.

    Python objects are dynamically typed: a turn state, a profile and a
    handler result are all [dict]s.  The embedding keeps that shape: one
    type [pyval] of values, dictionaries as insertion-ordered association
    lists, and an error monad [result] for the exceptions the code can
    raise and catch. *)

From Stdlib Require Import String Ascii List ZArith Bool Lia.
From Stdlib Require Import Numbers.DecimalString.
Import ListNotations.
Local Open Scope list_scope.
Local Open Scope string_scope.

(** ** Python values *)

Module Py.

(** Text is a sequence of characters with code points below 256; a float
    is the finite decimal [m * 10^-e] its literal denotes (the code only
    writes float literals and passes floats through, it never computes
    with them). *)
#[local] Set Warnings "-register-all".
Inductive pyval : Type :=
| PNone
| PBool (b : bool)
| PInt (z : Z)
| PFloat (m : Z) (e : nat)
| PStr (s : string)
| PList (l : list pyval)
| PDict (d : list (string * pyval)).

Definition dict : Type := list (string * pyval).

(** Exceptions (subclasses of [Exception]): the class name and [str(e)]. *)
Record exn : Type := mkExn { exn_class : string; exn_str : string }.

Inductive result (A : Type) : Type :=
| Ok (a : A)
| Raise (e : exn).
Arguments Ok {A} a.
Arguments Raise {A} e.

Definition bind {A B} (r : result A) (k : A -> result B) : result B :=
  match r with
  | Ok a => k a
  | Raise e => Raise e
  end.

Notation "x <- c ;; k" := (bind c (fun x => k))
  (at level 61, c at next level, right associativity).

(** [try: body  except Exception as e: handler e] *)
Definition try_except {A} (body : result A) (handler : exn -> result A) : result A :=
  match body with
  | Ok a => Ok a
  | Raise e => handler e
  end.

Definition AttributeError (what : string) : exn := mkExn "AttributeError" what.
Definition TypeError (what : string) : exn := mkExn "TypeError" what.

(** *** Dictionaries *)

(** [d.get(k)] as an option: [None] when the key is absent. *)
Fixpoint lookup (d : dict) (k : string) : option pyval :=
  match d with
  | [] => None
  | (k', v) :: r => if String.eqb k k' then Some v else lookup r k
  end.

(** [k in d] *)
Definition has_key (d : dict) (k : string) : bool :=
  match lookup d k with Some _ => true | None => false end.

(** [d.get(k, default)] *)
Definition get_or (d : dict) (k : string) (default : pyval) : pyval :=
  match lookup d k with Some v => v | None => default end.

(** [d.get(k)], which is [None] for an absent key. *)
Definition get (d : dict) (k : string) : pyval := get_or d k PNone.

(** [d[k] = v]: an existing key keeps its position, a new key goes last. *)
Fixpoint setitem (d : dict) (k : string) (v : pyval) : dict :=
  match d with
  | [] => [(k, v)]
  | (k', v') :: r =>
      if String.eqb k k' then (k', v) :: r else (k', v') :: setitem r k v
  end.

(** [d[k]] *)
Definition getitem (d : dict) (k : string) : result pyval :=
  match lookup d k with
  | Some v => Ok v
  | None => Raise (mkExn "KeyError" k)
  end.

Definition keys (d : dict) : list string := map fst d.

(** [v.get(k, default)] on an arbitrary object: only a dict has [get]. *)
Definition obj_get_or (v : pyval) (k : string) (default : pyval) : result pyval :=
  match v with
  | PDict d => Ok (get_or d k default)
  | _ => Raise (AttributeError "object has no attribute 'get'")
  end.

Definition obj_get (v : pyval) (k : string) : result pyval := obj_get_or v k PNone.

(** *** Truth value and equality *)

Definition truthy (v : pyval) : bool :=
  match v with
  | PNone => false
  | PBool b => b
  | PInt z => negb (Z.eqb z 0)
  | PFloat m _ => negb (Z.eqb m 0)
  | PStr s => negb (String.eqb s "")
  | PList l => match l with [] => false | _ => true end
  | PDict d => match d with [] => false | _ => true end
  end.

(** Numbers compare by value across bool, int and float. *)
Definition as_decimal (v : pyval) : option (Z * nat) :=
  match v with
  | PBool b => Some (if b then 1%Z else 0%Z, 0)
  | PInt z => Some (z, 0)
  | PFloat m e => Some (m, e)
  | _ => None
  end.

Definition decimal_eqb (a b : Z * nat) : bool :=
  Z.eqb (fst a * 10 ^ Z.of_nat (snd b)) (fst b * 10 ^ Z.of_nat (snd a)).

(** [a == b]: numbers by value, text by characters, lists element by
    element, dicts as mappings (the order of the keys does not count). *)
Fixpoint py_eq (a b : pyval) {struct a} : bool :=
  match a with
  | PNone => match b with PNone => true | _ => false end
  | PBool _ | PInt _ | PFloat _ _ =>
      match as_decimal a, as_decimal b with
      | Some x, Some y => decimal_eqb x y
      | _, _ => false
      end
  | PStr s => match b with PStr t => String.eqb s t | _ => false end
  | PList l =>
      match b with
      | PList l' =>
          (fix all2 (l l' : list pyval) {struct l} : bool :=
             match l, l' with
             | [], [] => true
             | x :: r, y :: r' => py_eq x y && all2 r r'
             | _, _ => false
             end) l l'
      | _ => false
      end
  | PDict d =>
      match b with
      | PDict d' =>
          Nat.eqb (List.length d) (List.length d') &&
          (fix all (d : list (string * pyval)) {struct d} : bool :=
             match d with
             | [] => true
             | (k, v) :: r =>
                 match lookup d' k with
                 | Some v' => py_eq v v'
                 | None => false
                 end && all r
             end) d
      | _ => false
      end
  end.

(** [v in l] for a list of candidates. *)
Definition py_in (v : pyval) (l : list pyval) : bool := existsb (py_eq v) l.

(** *** Text *)

Definition code (c : ascii) : nat := nat_of_ascii c.

(** [str.lower()] on code points below 256: A-Z and the accented capitals
    0xC0-0xDE (but the multiplication sign 0xD7) move up by 32. *)
Definition lower_char (c : ascii) : ascii :=
  let n := code c in
  if ((65 <=? n)%nat && (n <=? 90)%nat) ||
     ((192 <=? n)%nat && (n <=? 222)%nat && negb (n =? 215)%nat)
  then ascii_of_nat (n + 32) else c.

Fixpoint lower (s : string) : string :=
  match s with
  | EmptyString => EmptyString
  | String c r => String (lower_char c) (lower r)
  end.

(** [needle in hay] on text: substring search. *)
Fixpoint contains (hay needle : string) : bool :=
  prefix needle hay ||
  match hay with
  | EmptyString => false
  | String _ r => contains r needle
  end.

(** [s[:n]] *)
Fixpoint take (n : nat) (s : string) : string :=
  match n, s with
  | S n', String c r => String c (take n' r)
  | _, _ => EmptyString
  end.

(** [sep.join(parts)] *)
Definition join (sep : string) (parts : list string) : string :=
  String.concat sep parts.

(** Characters [str.strip()] removes: tab to carriage return, the four
    separators 0x1C-0x1F, space, next-line 0x85 and no-break space 0xA0. *)
Definition is_space (c : ascii) : bool :=
  let n := code c in
  ((9 <=? n)%nat && (n <=? 13)%nat) || ((28 <=? n)%nat && (n <=? 32)%nat) ||
  (n =? 133)%nat || (n =? 160)%nat.

Fixpoint lstrip (s : string) : string :=
  match s with
  | String c r => if is_space c then lstrip r else s
  | EmptyString => EmptyString
  end.

Fixpoint rstrip (s : string) : string :=
  match s with
  | EmptyString => EmptyString
  | String c r =>
      match rstrip r with
      | EmptyString => if is_space c then EmptyString else String c EmptyString
      | r' => String c r'
      end
  end.

Definition strip (s : string) : string := rstrip (lstrip s).

(** The characters of a text, as the one-character texts iteration yields. *)
Definition chars (s : string) : list pyval :=
  map (fun c => PStr (String c EmptyString)) (list_ascii_of_string s).

(** [l[:n]] and [l[-n:]] on lists. *)
Definition list_take {A} (n : nat) (l : list A) : list A := firstn n l.
Definition list_last {A} (n : nat) (l : list A) : list A :=
  skipn (List.length l - n) l.

(** *** [repr] and [str] *)

Definition dquote : string := String (ascii_of_nat 34) EmptyString.
Definition squote : string := "'".
Definition backslash : string := "\".

Definition hex_digit (n : nat) : ascii :=
  if (n <? 10)%nat then ascii_of_nat (48 + n) else ascii_of_nat (87 + n).

(** [str.isprintable] below 256: the visible ASCII range and 0xA1-0xFF
    without the soft hyphen 0xAD. *)
Definition is_printable (c : ascii) : bool :=
  let n := code c in
  ((32 <=? n)%nat && (n <=? 126)%nat) || ((161 <=? n)%nat && negb (n =? 173)%nat).

Definition escape_char (quote : string) (c : ascii) : string :=
  let one := String c EmptyString in
  let n := code c in
  if String.eqb one backslash then backslash ++ backslash
  else if String.eqb one quote then backslash ++ quote
  else if (n =? 9)%nat then backslash ++ "t"
  else if (n =? 10)%nat then backslash ++ "n"
  else if (n =? 13)%nat then backslash ++ "r"
  else if is_printable c then one
  else backslash ++ "x" ++
       String (hex_digit (n / 16)) (String (hex_digit (n mod 16)) EmptyString).

Fixpoint escape (quote : string) (s : string) : string :=
  match s with
  | EmptyString => EmptyString
  | String c r => escape_char quote c ++ escape quote r
  end.

(** [repr] of a text: single quotes, unless the text has a single quote
    and no double quote. *)
Definition repr_str (s : string) : string :=
  let quote :=
    if contains s squote && negb (contains s dquote) then dquote else squote in
  quote ++ escape quote s ++ quote.

Definition repr_int (z : Z) : string := NilZero.string_of_int (Z.to_int z).

Fixpoint strip_zeros (m : Z) (e : nat) : Z * nat :=
  match e with
  | O => (m, O)
  | S e' => if Z.eqb (m mod 10) 0 then strip_zeros (m / 10) e' else (m, e)
  end.

Fixpoint zeros (n : nat) : string :=
  match n with O => EmptyString | S n' => String "0" (zeros n') end.

(** A digit string without its trailing zeros. *)
Fixpoint drop_zeros (digits : string) : string :=
  match digits with
  | EmptyString => EmptyString
  | String c r =>
      match drop_zeros r with
      | EmptyString => if Ascii.eqb c "0" then EmptyString else String c EmptyString
      | r' => String c r'
      end
  end.

(** [repr] of a float written as a decimal, in Python's shortest form:
    the digits with a point and at least one digit after it, no trailing
    zeros; but when the first digit stands five places or more after the
    point, or more than sixteen digits stand before it, one digit, the
    others after a point, and an exponent with its sign and two digits
    at least. *)
Definition repr_float (m : Z) (e : nat) : string :=
  let '(m', e') := strip_zeros m e in
  let digits := NilZero.string_of_uint (N.to_uint (Z.abs_N m')) in
  let sign := if Z.ltb m' 0 then "-" else "" in
  let decpt := (Z.of_nat (String.length digits) - Z.of_nat e')%Z in
  if Z.eqb m' 0 then "0.0"
  else if (decpt <=? -4)%Z || (16 <? decpt)%Z then
    let significant := drop_zeros digits in
    let exponent := (decpt - 1)%Z in
    let shown := NilZero.string_of_uint (N.to_uint (Z.abs_N exponent)) in
    sign ++ substring 0 1 significant ++
    (if (String.length significant =? 1)%nat then ""
     else "." ++ substring 1 (String.length significant - 1) significant) ++
    "e" ++ (if Z.ltb exponent 0 then "-" else "+") ++
    (if (String.length shown <? 2)%nat then "0" else "") ++ shown
  else
    let padded := zeros (S e' - String.length digits) ++ digits in
    let cut := String.length padded - e' in
    sign ++ substring 0 cut padded ++ "." ++
    (if (e' =? 0)%nat then "0" else substring cut e' padded).

Fixpoint py_repr (v : pyval) : string :=
  match v with
  | PNone => "None"
  | PBool true => "True"
  | PBool false => "False"
  | PInt z => repr_int z
  | PFloat m e => repr_float m e
  | PStr s => repr_str s
  | PList l => "[" ++ join ", " (map py_repr l) ++ "]"
  | PDict d =>
      "{" ++ join ", " (map (fun '(k, x) => repr_str k ++ ": " ++ py_repr x) d) ++ "}"
  end.

(** [str(v)], which is also how an f-string renders [{v}]. *)
Definition py_str (v : pyval) : string :=
  match v with
  | PStr s => s
  | _ => py_repr v
  end.

(** *** Methods and operators on arbitrary objects *)

(** [v.lower()] and [v.strip()]: only text has them. *)
Definition obj_lower (v : pyval) : result string :=
  match v with
  | PStr s => Ok (lower s)
  | _ => Raise (AttributeError "object has no attribute 'lower'")
  end.

Definition obj_strip (v : pyval) : result string :=
  match v with
  | PStr s => Ok (strip s)
  | _ => Raise (AttributeError "object has no attribute 'strip'")
  end.

(** [v[:n]]: text and lists can be sliced. *)
Definition obj_take (n : nat) (v : pyval) : result pyval :=
  match v with
  | PStr s => Ok (PStr (take n s))
  | PList l => Ok (PList (list_take n l))
  | _ => Raise (TypeError "object is not subscriptable")
  end.

(** [for x in v]: the elements of a list, the characters of a text, the
    keys of a dict. *)
Definition obj_iter (v : pyval) : result (list pyval) :=
  match v with
  | PList l => Ok l
  | PStr s => Ok (chars s)
  | PDict d => Ok (map PStr (keys d))
  | _ => Raise (TypeError "object is not iterable")
  end.

(** [sep.join(v)]: every element must be text. *)
Fixpoint all_text (l : list pyval) : result (list string) :=
  match l with
  | [] => Ok []
  | PStr s :: r => rest <- all_text r ;; Ok (s :: rest)
  | _ :: _ => Raise (TypeError "sequence item: expected str instance")
  end.

Definition obj_join (sep : string) (v : pyval) : result string :=
  items <- obj_iter v ;;
  parts <- all_text items ;;
  Ok (join sep parts).

(** [isinstance(v, dict)] *)
Definition is_dict (v : pyval) : bool :=
  match v with PDict _ => true | _ => false end.

End Py.

(** ** routing.py *)

Module Routing.
Import Py.

(** [langgraph.graph.END]: the node name the graph library reserves for
    "stop here". *)
Definition END : pyval := PStr "__end__".

(** One disjunct of the "already answered" test:
    [k in state and state[k] and
     state[k].get("user_question") == state.get("user_question")]. *)
Definition slot_answers (state : dict) (k : string) : result bool :=
  match lookup state k with
  | None => Ok false
  | Some v =>
      if truthy v then
        asked <- obj_get v "user_question" ;;
        Ok (py_eq asked (get state "user_question"))
      else Ok false
  end.

(** [a or b], left to right, [b] evaluated only when [a] is false. *)
Definition or_else (a b : result bool) : result bool :=
  x <- a ;; if x then Ok true else b.

Definition answered (state : dict) : result bool :=
  or_else (slot_answers state "coaching")
    (or_else (slot_answers state "analysis")
       (or_else (slot_answers state "job_fit")
          (slot_answers state "enhanced_content"))).

(** The intent the classification names, when there is one that is true. *)
Definition classified_intent (state : dict) : result (option pyval) :=
  match lookup state "intent_classification" with
  | None => Ok None
  | Some c =>
      if truthy c then
        intent <- obj_get c "intent" ;;
        Ok (if truthy intent then Some intent else None)
      else Ok None
  end.

Definition router (state : dict) : result pyval :=
  if has_key state "error" || truthy (get state "force_end") then Ok END
  else
    done <- (if py_eq (get state "command") (PStr "chat")
             then answered state else Ok false) ;;
    if done then Ok END
    else
      intent <- classified_intent state ;;
      match intent with
      | Some i => Ok i
      | None => Ok (PStr "career_coach_agent")
      end.

End Routing.

(** ** agents/intent_classifier_agent.py *)

Module IntentClassifier.
Import Py.

Definition newline : string := String (ascii_of_nat 10) EmptyString.

(** [re.search(r'\{.*\}', content, re.DOTALL)]: the match starts at the
    first opening brace and, [.*] being greedy and matching newlines, runs
    to the last closing brace after it; there is no match when no closing
    brace follows an opening one. *)
Fixpoint from_first (c : ascii) (s : string) : option string :=
  match s with
  | EmptyString => None
  | String x r => if Ascii.eqb x c then Some s else from_first c r
  end.

Fixpoint upto_last (c : ascii) (s : string) : option string :=
  match s with
  | EmptyString => None
  | String x r =>
      match upto_last c r with
      | Some p => Some (String x p)
      | None => if Ascii.eqb x c then Some (String x EmptyString) else None
      end
  end.

Definition search_braces (content : string) : option string :=
  match from_first "{" content with
  | Some (String open rest) =>
      match upto_last "}" rest with
      | Some body => Some (String open body)
      | None => None
      end
  | _ => None
  end.

(** [re.search] wants text. *)
Definition re_search_braces (content : pyval) : result (option string) :=
  match content with
  | PStr s => Ok (search_braces s)
  | _ => Raise (TypeError "expected string or bytes-like object")
  end.

Definition valid_intents : list pyval :=
  [PStr "profile_analyzer_agent"; PStr "job_fit_agent";
   PStr "content_enhancer_agent"; PStr "career_coach_agent"].

Definition profile_keywords : list string :=
  ["analyze"; "strengths"; "weaknesses"; "profile analysis"; "what are my"].
Definition job_fit_keywords : list string :=
  ["job fit"; "match"; "requirements"; "score"; "how well"; "fit for"; "qualify"].
Definition content_keywords : list string :=
  ["rewrite"; "enhance"; "improve"; "about section"; "headline"; "experience";
   "make my"; "better"].

(** [any(word in question for word in words)] *)
Definition any_in (question : string) (words : list string) : bool :=
  existsb (contains question) words.

Definition classification (intent : string) (confidence : pyval)
    (reasoning : string) (session_id : pyval) : pyval :=
  PDict [("intent", PStr intent); ("confidence", confidence);
         ("reasoning", PStr reasoning); ("session_id", session_id);
         ("success", PBool true)].

Definition _fallback_classification (user_question session_id : pyval)
    : result pyval :=
  question <- obj_lower user_question ;;
  if any_in question profile_keywords then
    Ok (classification "profile_analyzer_agent" (PFloat 7 1)
          "Fallback: Contains profile analysis keywords" session_id)
  else if any_in question job_fit_keywords then
    Ok (classification "job_fit_agent" (PFloat 7 1)
          "Fallback: Contains job fit keywords" session_id)
  else if any_in question content_keywords then
    Ok (classification "content_enhancer_agent" (PFloat 7 1)
          "Fallback: Contains content enhancement keywords" session_id)
  else
    Ok (classification "career_coach_agent" (PFloat 5 1)
          "Fallback: Defaulted to career coach" session_id).

Definition system_prompt : string :=
  "You are an expert intent classifier for a LinkedIn Career Coach system. 

Your job is to analyze user questions and classify them into one of these categories:

1.  **profile_analyzer_agent** - Questions about analyzing profile strengths, weaknesses, or general profile assessment.
    -   Examples: " ++ dquote ++
"What are my profile's biggest strengths?" ++ dquote ++
", " ++ dquote ++
"Analyze my profile" ++ dquote ++
", " ++ dquote ++
"What are my weaknesses?" ++ dquote ++
"

2.  **job_fit_agent** - Questions about how well a user's profile matches a *specific, pre-defined target job*. This is for direct comparison against one role.
    -   Examples: " ++ dquote ++
"How well do I match the job requirements?" ++ dquote ++
", " ++ dquote ++
"What's my fit score for this role?" ++ dquote ++
", " ++ dquote ++
"Do I qualify for the job I entered?" ++ dquote ++
"

3.  **content_enhancer_agent** - Questions about rewriting, improving, or enhancing specific parts of a user's profile content.
    -   Examples: " ++ dquote ++
"Can you rewrite my about section?" ++ dquote ++
", " ++ dquote ++
"Improve my headline" ++ dquote ++
", " ++ dquote ++
"Make my experience descriptions better" ++ dquote ++
"

4.  **career_coach_agent** - Broad, exploratory questions about career paths, potential roles, skill development, and general career advice. This is for when the user is asking " ++ dquote ++
"what could I do?" ++ dquote ++
" or " ++ dquote ++
"how can I get better?" ++ dquote ++
".
    -   Examples: " ++ dquote ++
"What skills should I develop?" ++ dquote ++
", " ++ dquote ++
"What other roles can I aim for?" ++ dquote ++
", " ++ dquote ++
"Suggest some career paths for me." ++ dquote ++
", " ++ dquote ++
"Give me career advice." ++ dquote ++
"

Respond with ONLY a JSON object containing:
{
    " ++ dquote ++
"intent" ++ dquote ++
": " ++ dquote ++
"agent_name" ++ dquote ++
",
    " ++ dquote ++
"confidence" ++ dquote ++
": 0.95,
    " ++ dquote ++
"reasoning" ++ dquote ++
": " ++ dquote ++
"Brief explanation of why this agent was chosen" ++ dquote ++
"
}

Be precise. If the user is asking about their fit for the *target job*, use `job_fit_agent`. If they are asking about *other potential roles* or general guidance, use `career_coach_agent`."
.

Definition user_prompt (user_question : pyval) : string :=
  "Classify this user question: " ++ dquote ++ py_str user_question ++ dquote ++
  newline ++ newline ++ "Return only the JSON response.".

(** [except json.JSONDecodeError:] catches that class only. *)
Definition except_json_decode {A} (body : result A) (handler : result A)
    : result A :=
  match body with
  | Ok a => Ok a
  | Raise e => if String.eqb (exn_class e) "JSONDecodeError" then handler else Raise e
  end.

Section Agent.

(** [self.llm.invoke([system, human])] followed by the extraction of the
    response's content: what the completion service answers, or the
    exception it raises. *)
Variable llm : string -> string -> result pyval.

(** [json.loads]: the parsed value, or [JSONDecodeError]. *)
Variable json_loads : string -> result pyval.

(** The body of the inner [try]: parse, validate, build the answer. *)
Definition parse_and_validate (content session_id : pyval) : result pyval :=
  json_match <- re_search_braces content ;;
  parsed <- match json_match with
            | Some json_str => json_loads json_str
            | None => json_loads (py_str content)
            end ;;
  declared <- obj_get parsed "intent" ;;
  checked <- (if negb (py_in declared valid_intents) then
                match parsed with
                | PDict d =>
                    Ok (PDict
                      (setitem
                        (setitem
                          (setitem d "intent" (PStr "career_coach_agent"))
                          "confidence" (PFloat 5 1))
                        "reasoning"
                        (PStr "Defaulted to career coach due to unclear intent")))
                | _ => Raise (TypeError "object does not support item assignment")
                end
              else Ok parsed) ;;
  match checked with
  | PDict d =>
      intent <- getitem d "intent" ;;
      Ok (PDict [("intent", intent);
                 ("confidence", get_or d "confidence" (PFloat 8 1));
                 ("reasoning",
                  get_or d "reasoning" (PStr "Classified based on question content"));
                 ("session_id", session_id);
                 ("success", PBool true)])
  | _ => Raise (TypeError "object is not subscriptable")
  end.

Definition classify_intent (user_question session_id : pyval) : result pyval :=
  try_except
    (content <- llm system_prompt (user_prompt user_question) ;;
     except_json_decode
       (parse_and_validate content session_id)
       (_fallback_classification user_question session_id))
    (fun _ => _fallback_classification user_question session_id).

End Agent.

End IntentClassifier.

(** ** agents: what the four chat handlers share *)

Module Agents.
Import Py.

Definition beginning : string := "This is the beginning of our conversation.".

(** [a or b] *)
Definition py_or (a b : pyval) : pyval := if truthy a then a else b.

(** [s[-n:]] on text. *)
Definition take_last (n : nat) (s : string) : string :=
  string_of_list_ascii (list_last n (list_ascii_of_string s)).

(** [v[-n:]] *)
Definition obj_last (n : nat) (v : pyval) : result pyval :=
  match v with
  | PStr s => Ok (PStr (take_last n s))
  | PList l => Ok (PList (list_last n l))
  | _ => Raise (TypeError "object is not subscriptable")
  end.

(** The body of the loop of [_build_conversation_context]: what one
    message adds to [context_parts], if anything.  [assistant] is the
    label the agent gives the assistant's messages. *)
Definition context_part (assistant : string) (msg : pyval) : result (option string) :=
  match msg with
  | PDict d =>
      let role := get_or d "role" (PStr "unknown") in
      content <- obj_take 150 (get_or d "content" (PStr "")) ;;
      if py_eq role (PStr "user") then Ok (Some ("User: " ++ py_str content))
      else if py_eq role (PStr "assistant")
      then Ok (Some (assistant ++ ": " ++ py_str content))
      else Ok None
  | _ => Ok (Some ("Message: " ++ take 150 (py_str msg)))
  end.

Fixpoint context_parts (assistant : string) (msgs : list pyval)
    : result (list string) :=
  match msgs with
  | [] => Ok []
  | msg :: rest =>
      part <- context_part assistant msg ;;
      parts <- context_parts assistant rest ;;
      Ok (match part with Some p => p :: parts | None => parts end)
  end.

(** [_build_conversation_context], the same in the four agents but for the
    assistant's label. *)
Definition build_conversation_context (assistant : string) (chat_history : pyval)
    : result string :=
  if negb (truthy chat_history) then Ok beginning
  else
    recent_messages <- obj_last 6 chat_history ;;
    msgs <- obj_iter recent_messages ;;
    parts <- context_parts assistant msgs ;;
    Ok (match parts with [] => beginning | _ => join " | " parts end).

(** The answer of a chat handler whose completion call went through. *)
Definition chat_success (message : string) (type : string)
    (session_id user_question : pyval) : pyval :=
  PDict [("message", PStr message); ("type", PStr type);
         ("session_id", session_id); ("user_question", user_question);
         ("success", PBool true)].

(** The answer of a chat handler whose completion call raised [e]. *)
Definition chat_failure (apology : string) (e : exn) (session_id : pyval) : pyval :=
  PDict [("message", PStr apology); ("error", PStr (exn_str e));
         ("type", PStr "error"); ("session_id", session_id);
         ("success", PBool false)].

End Agents.

(** ** agents/job_fit_agent.py *)

Module JobFitAgent.
Import Py Agents.

Definition system_prompt : string :=
  "You are an expert job fit analyst. When users ask about their job fit, provide detailed analysis with specific insights about their match with the target role. 

Key Requirements:
- Always provide a match score (0-100) at the beginning
- Use clear markdown formatting with headers and bullet points
- Be specific about strengths and areas for improvement
- Include actionable recommendations
- Be encouraging but honest about gaps
- Consider the conversation history when providing analysis

Response Format:
1. Start with a clear match score and overall assessment
2. List specific strengths that match the role
3. Identify key gaps or areas for improvement
4. Provide actionable recommendations
5. End with a summary of fit potential"
.

Definition user_prompt (name about experience skills job_description : pyval)
    (context : string) (user_question : pyval) : string :=
  "**User Profile:**
- Name: " ++ py_str name ++ "
- About: " ++ py_str about ++ "
- Experience: " ++ py_str experience ++ "
- Skills: " ++ py_str skills ++ "

**Target Job:** " ++ py_str job_description ++ "

**Conversation History:** " ++ context ++ "

**User Question:** " ++ py_str user_question ++ "

Please provide a detailed job fit analysis following the specified format. Include a clear match score and be specific about how well they match the role requirements."
.

Definition apology : string :=
  "I apologize, but I encountered an issue analyzing your job fit. Please try rephrasing your question.".

Definition _build_conversation_context : pyval -> result string :=
  build_conversation_context "Assistant".

Section Agent.

(** [self.llm.invoke([system, human])] and the extraction of the answer's
    content: the content, or the exception raised. *)
Variable llm : string -> string -> result pyval.

(** The batch analysis [analyze] runs when no question is given. *)
Variable standard_analysis : pyval -> pyval -> pyval -> result pyval.

(** The payload of the chat handler: the human message it sends. *)
Definition chat_payload (profile job_description user_question chat_history : pyval)
    : result string :=
  about <- obj_get_or profile "about" (PStr "") ;;
  experience <- obj_get_or profile "experience" (PList []) ;;
  skills <- obj_get_or profile "skills" (PList []) ;;
  name <- obj_get_or profile "name" (PStr "User") ;;
  context <- _build_conversation_context (py_or chat_history (PList [])) ;;
  Ok (user_prompt name about experience skills job_description context user_question).

Definition _handle_chat_job_fit
    (profile job_description user_question session_id chat_history : pyval)
    : result pyval :=
  payload <- chat_payload profile job_description user_question chat_history ;;
  try_except
    (content <- llm system_prompt payload ;;
     message <- obj_strip content ;;
     Ok (chat_success message "job_fit_analysis" session_id user_question))
    (fun e => Ok (chat_failure apology e session_id)).

Definition analyze
    (profile job_description session_id user_question chat_history : pyval)
    : result pyval :=
  _ <- obj_get_or profile "about" (PStr "") ;;
  _ <- obj_get_or profile "experience" (PList []) ;;
  _ <- obj_get_or profile "skills" (PList []) ;;
  _ <- obj_get_or profile "name" (PStr "User") ;;
  if truthy user_question then
    _handle_chat_job_fit profile job_description user_question session_id chat_history
  else standard_analysis profile job_description session_id.

End Agent.

End JobFitAgent.

(** ** agents/profile_analyzer_agent.py *)

Module ProfileAnalyzerAgent.
Import Py Agents.

Definition system_prompt : string :=
  "You are an expert LinkedIn profile analyst. When users ask about their profile, provide detailed, actionable insights in a conversational tone. Use markdown formatting and be specific about their profile data. Consider the conversation history when providing analysis."
.

Definition user_prompt (name about experience skills : pyval)
    (context : string) (user_question : pyval) : string :=
  "**User Profile:**
- Name: " ++ py_str name ++ "
- About: " ++ py_str about ++ "
- Experience: " ++ py_str experience ++ "
- Skills: " ++ py_str skills ++ "

**Conversation History:** " ++ context ++ "

**User Question:** " ++ py_str user_question ++ "

Please provide a detailed, helpful response that directly addresses their question about their profile. Be specific and actionable. Consider what was discussed previously in the conversation."
.

Definition apology : string :=
  "I apologize, but I encountered an issue analyzing your profile. Please try rephrasing your question.".

Definition _build_conversation_context : pyval -> result string :=
  build_conversation_context "Assistant".

Section Agent.

(** [self.llm.invoke([system, human])] and the extraction of the answer's
    content: the content, or the exception raised. *)
Variable llm : string -> string -> result pyval.

(** The batch run of [analyze] when no question is given. *)
Variable standard_analysis : pyval -> pyval -> result pyval.

(** The payload of the chat handler: the human message it sends. *)
Definition chat_payload (profile user_question chat_history : pyval)
    : result string :=
  about <- obj_get_or profile "about" (PStr "") ;;
  experience <- obj_get_or profile "experience" (PList []) ;;
  skills <- obj_get_or profile "skills" (PList []) ;;
  name <- obj_get_or profile "name" (PStr "User") ;;
  context <- _build_conversation_context (py_or chat_history (PList [])) ;;
  Ok (user_prompt name about experience skills context user_question).

Definition _handle_chat_analysis
    (profile user_question session_id chat_history : pyval) : result pyval :=
  payload <- chat_payload profile user_question chat_history ;;
  try_except
    (content <- llm system_prompt payload ;;
     message <- obj_strip content ;;
     Ok (chat_success message "profile_analysis" session_id user_question))
    (fun e => Ok (chat_failure apology e session_id)).

Definition analyze
    (profile session_id user_question chat_history : pyval) : result pyval :=
  _ <- obj_get_or profile "about" (PStr "") ;;
  _ <- obj_get_or profile "experience" (PList []) ;;
  _ <- obj_get_or profile "skills" (PList []) ;;
  _ <- obj_get_or profile "name" (PStr "User") ;;
  if truthy user_question then
    _handle_chat_analysis profile user_question session_id chat_history
  else standard_analysis profile session_id.

End Agent.

End ProfileAnalyzerAgent.

(** ** agents/content_enhancer_agent.py *)

Module ContentEnhancerAgent.
Import Py Agents.

Definition system_prompt : string :=
  "You are an expert LinkedIn content enhancer specializing in profile optimization and ATS (Applicant Tracking System) compatibility.

Key Requirements:
- Provide specific, actionable content improvements
- Include relevant keywords for the target role
- Use clear markdown formatting with headers and bullet points
- Explain why each change improves the content
- Focus on ATS optimization and readability
- Be specific about the requested content section

Response Format:
1. **Current Content Analysis** - Brief assessment of existing content
2. **Enhanced Version** - Improved content with keywords
3. **Key Improvements** - Specific changes made and why
4. **ATS Optimization Tips** - Additional suggestions for better visibility
5. **Keywords Added** - List of relevant keywords incorporated

When rewriting about sections, focus on:
- Professional summary with key achievements
- Relevant keywords for the target role
- Clear value proposition
- Call-to-action elements
- Professional tone and readability"
.

Definition user_prompt (name about experience skills : pyval)
    (context : string) (user_question : pyval) : string :=
  "**User Profile:**
- Name: " ++ py_str name ++ "
- About: " ++ py_str about ++ "
- Experience: " ++ py_str experience ++ "
- Skills: " ++ py_str skills ++ "

**Conversation History:** " ++ context ++ "

**User Question:** " ++ py_str user_question ++ "

Please provide specific content improvements that directly address their request. Focus on the about section rewrite with relevant keywords for their target role. Include enhanced versions and explain why the changes are better."
.

Definition apology : string :=
  "I apologize, but I encountered an issue enhancing your content. Please try rephrasing your question.".

Definition _build_conversation_context : pyval -> result string :=
  build_conversation_context "Assistant".

Section Agent.

(** [self.llm.invoke([system, human])] and the extraction of the answer's
    content: the content, or the exception raised. *)
Variable llm : string -> string -> result pyval.

(** The batch run of [enhance] when no question is given. *)
Variable standard_enhancement : pyval -> pyval -> result pyval.

(** The payload of the chat handler: the human message it sends. *)
Definition chat_payload (profile user_question chat_history : pyval)
    : result string :=
  about <- obj_get_or profile "about" (PStr "") ;;
  experience <- obj_get_or profile "experience" (PList []) ;;
  skills <- obj_get_or profile "skills" (PList []) ;;
  name <- obj_get_or profile "name" (PStr "User") ;;
  context <- _build_conversation_context (py_or chat_history (PList [])) ;;
  Ok (user_prompt name about experience skills context user_question).

Definition _handle_chat_enhancement
    (profile user_question session_id chat_history : pyval) : result pyval :=
  payload <- chat_payload profile user_question chat_history ;;
  try_except
    (content <- llm system_prompt payload ;;
     message <- obj_strip content ;;
     Ok (chat_success message "content_enhancement" session_id user_question))
    (fun e => Ok (chat_failure apology e session_id)).

Definition enhance
    (profile session_id user_question chat_history : pyval) : result pyval :=
  _ <- obj_get_or profile "about" (PStr "") ;;
  _ <- obj_get_or profile "experience" (PList []) ;;
  _ <- obj_get_or profile "skills" (PList []) ;;
  _ <- obj_get_or profile "name" (PStr "User") ;;
  if truthy user_question then
    _handle_chat_enhancement profile user_question session_id chat_history
  else standard_enhancement profile session_id.

End Agent.

End ContentEnhancerAgent.

(** ** agents/career_coach_agent.py *)

Module CareerCoachAgent.
Import Py Agents.

Definition system_prompt : string :=
  "You are an expert LinkedIn Career Coach and Personal Branding specialist. You have deep expertise in:

- LinkedIn profile optimization and ATS compatibility
- Career development and transition strategies  
- Industry trends and job market analysis
- Skill gap identification and learning paths
- Professional networking and personal branding
- Interview preparation and job search tactics

Key Guidelines:
- Always reference the user's actual profile data when giving advice
- Provide specific, actionable recommendations with clear next steps
- Be encouraging but honest about areas needing improvement
- Suggest concrete resources (courses, certifications, tools) when relevant
- Use a conversational, supportive tone like a professional mentor
- If asked about profile sections, provide specific improvement examples
- For job fit questions, give detailed analysis with reasoning
- Remember context from previous messages in this conversation

Response Format:
- Use markdown formatting for better readability
- Include bullet points for actionable items
- Add relevant emojis to make responses more engaging
- Structure longer responses with clear headings"
.

Definition user_prompt (name about : pyval)
    (experience_line skills_line education_line : string)
    (job_description : pyval) (context : string) (user_question : pyval) : string :=
  "**User Profile Context:**
- Name: " ++ py_str name ++ "
- About: " ++ py_str about ++ "
- Experience: " ++ experience_line ++ "
- Skills: " ++ skills_line ++ "
- Education: " ++ education_line ++ "

**Target Job:** " ++ py_str job_description ++ "

**Conversation History:** " ++ context ++ "

**Current Question:** " ++ py_str user_question ++ "

Please provide a helpful, detailed response that directly addresses their question while leveraging their profile data and career context. Be specific and actionable."
.

Definition apology : string :=
  "I apologize, but I encountered a technical issue. Please try rephrasing your question or ask something else about your career development.".

Definition _build_conversation_context : pyval -> result string :=
  build_conversation_context "Coach".

(** What one entry of [experience[:3]] adds to [formatted]. *)
Definition experience_entry (exp : pyval) : string :=
  match exp with
  | PDict d =>
      py_str (get_or d "title" (PStr "Unknown Position")) ++ " at " ++
      py_str (get_or d "company" (PStr "Unknown Company"))
  | _ => py_str exp
  end.

Definition _format_experience (experience : pyval) : result string :=
  if negb (truthy experience) then Ok "No experience data provided"
  else
    recent <- obj_take 3 experience ;;
    entries <- obj_iter recent ;;
    Ok (join "; " (map experience_entry entries)).

(** What one entry of [education] adds to [formatted], if anything. *)
Definition education_entry (edu : pyval) : option string :=
  match edu with
  | PDict d =>
      let degree := get_or d "degree" (PStr "") in
      let school := get_or d "school" (PStr "") in
      if truthy degree || truthy school
      then Some (strip (py_str degree ++ " from " ++ py_str school))
      else None
  | _ => Some (py_str edu)
  end.

Fixpoint collect {A B} (f : A -> option B) (l : list A) : list B :=
  match l with
  | [] => []
  | x :: r => match f x with Some y => y :: collect f r | None => collect f r end
  end.

Definition _format_education (education : pyval) : result string :=
  if negb (truthy education) then Ok "No education data provided"
  else
    entries <- obj_iter education ;;
    Ok (join "; " (list_take 2 (collect education_entry entries))).

(** [', '.join(skills) if skills else 'Not specified'] *)
Definition skills_line (skills : pyval) : result string :=
  if truthy skills then obj_join ", " skills else Ok "Not specified".

Definition coach_success (message : string) (session_id user_question : pyval)
    : pyval :=
  PDict [("message", PStr message); ("answer", PStr message);
         ("type", PStr "chat_response"); ("session_id", session_id);
         ("user_question", user_question); ("success", PBool true)].

Definition coach_failure (e : exn) (session_id : pyval) : pyval :=
  PDict [("message", PStr apology); ("answer", PStr apology);
         ("error", PStr (exn_str e)); ("type", PStr "error");
         ("session_id", session_id); ("success", PBool false)].

Section Agent.

(** [self.llm.invoke([system, human])] and the extraction of the answer's
    content: the content, or the exception raised. *)
Variable llm : string -> string -> result pyval.

(** [_provide_standard_coaching], run when no question is given. *)
Variable _provide_standard_coaching : pyval -> pyval -> pyval -> pyval -> result pyval.

(** The payload of the chat handler: the human message it sends. *)
Definition chat_payload (profile job_description user_question chat_history : pyval)
    : result string :=
  about <- obj_get_or profile "about" (PStr "Not provided") ;;
  experience <- obj_get_or profile "experience" (PList []) ;;
  skills <- obj_get_or profile "skills" (PList []) ;;
  education <- obj_get_or profile "education" (PList []) ;;
  name <- obj_get_or profile "name" (PStr "User") ;;
  context <- _build_conversation_context chat_history ;;
  exp_line <- _format_experience experience ;;
  skl_line <- skills_line skills ;;
  edu_line <- _format_education education ;;
  Ok (user_prompt name about exp_line skl_line edu_line job_description context
        user_question).

Definition _handle_chat_interaction
    (profile job_description user_question chat_history session_id : pyval)
    : result pyval :=
  payload <- chat_payload profile job_description user_question chat_history ;;
  try_except
    (content <- llm system_prompt payload ;;
     message <- obj_strip content ;;
     Ok (coach_success message session_id user_question))
    (fun e => Ok (coach_failure e session_id)).

Definition coach
    (profile job_description session_id missing_skills user_question chat_history
       : pyval) : result pyval :=
  if truthy user_question then
    _handle_chat_interaction profile job_description user_question
      (py_or chat_history (PList [])) session_id
  else _provide_standard_coaching profile job_description missing_skills session_id.

End Agent.

End CareerCoachAgent.

(** ** graph_utils.py *)

Module Graph.
Import Py.

Definition llm_t : Type := string -> string -> result pyval.

(** [try: result = ...; return {slot: result}
     except Exception as e: return {"error": str(e)}] *)
Definition node_update (slot : string) (r : result pyval) : dict :=
  match r with
  | Ok v => [(slot, v)]
  | Raise e => [("error", PStr (exn_str e))]
  end.

Section Nodes.

(** The five agents, once [_initialize_agents] has built them: each has a
    completion client of its own; the classifier also parses JSON, and the
    handlers have a batch mode for a state without question. *)
Variables profile_llm job_fit_llm content_llm coach_llm classifier_llm : llm_t.
Variable json_loads : string -> result pyval.
Variable profile_batch : pyval -> pyval -> result pyval.
Variable job_fit_batch : pyval -> pyval -> pyval -> result pyval.
Variable content_batch : pyval -> pyval -> result pyval.
Variable coach_batch : pyval -> pyval -> pyval -> pyval -> result pyval.

Definition profile_analyzer_node (state : dict) : dict :=
  let profile := get_or state "profile" (PDict []) in
  let session_id := get_or state "session_id" (PStr "") in
  let user_question := get_or state "user_question" (PStr "") in
  let chat_history := get_or state "chat_history" (PList []) in
  node_update "analysis"
    (ProfileAnalyzerAgent.analyze profile_llm profile_batch
       profile session_id user_question chat_history).

Definition job_fit_node (state : dict) : dict :=
  let profile := get_or state "profile" (PDict []) in
  let job_desc := get_or state "job_description" (PStr "") in
  let session_id := get_or state "session_id" (PStr "") in
  let user_question := get_or state "user_question" (PStr "") in
  let chat_history := get_or state "chat_history" (PList []) in
  node_update "job_fit"
    (JobFitAgent.analyze job_fit_llm job_fit_batch
       profile job_desc session_id user_question chat_history).

Definition content_enhancer_node (state : dict) : dict :=
  let profile := get_or state "profile" (PDict []) in
  let session_id := get_or state "session_id" (PStr "") in
  let user_question := get_or state "user_question" (PStr "") in
  let chat_history := get_or state "chat_history" (PList []) in
  node_update "enhanced_content"
    (ContentEnhancerAgent.enhance content_llm content_batch
       profile session_id user_question chat_history).

Definition career_coach_node (state : dict) : dict :=
  let profile := get_or state "profile" (PDict []) in
  let job_desc := get_or state "job_description" (PStr "") in
  let session_id := get_or state "session_id" (PStr "") in
  let user_question := get_or state "user_question" (PStr "") in
  let chat_history := get_or state "chat_history" (PList []) in
  node_update "coaching"
    (CareerCoachAgent.coach coach_llm coach_batch
       profile job_desc session_id PNone user_question chat_history).

Definition intent_classifier_node (state : dict) : dict :=
  let user_question := get_or state "user_question" (PStr "") in
  let session_id := get_or state "session_id" (PStr "") in
  node_update "intent_classification"
    (IntentClassifier.classify_intent classifier_llm json_loads
       user_question session_id).

(** [build_graph]: the five nodes by name; every node is followed by the
    router, and the entry point is the classifier. *)
Definition nodes : list (string * (dict -> dict)) :=
  [("intent_classifier_agent", intent_classifier_node);
   ("profile_analyzer_agent", profile_analyzer_node);
   ("job_fit_agent", job_fit_node);
   ("content_enhancer_agent", content_enhancer_node);
   ("career_coach_agent", career_coach_node)].

Definition entry_point : pyval := PStr "intent_classifier_agent".

End Nodes.

End Graph.

(** ** The turn engine *)

Module Engine.
Import Py.

(** Modelled from the spec: how a turn ends, with the final state or with
    a fatal error (the engine's own past the cap, or an exception that
    escaped a component or the router). *)
Inductive outcome : Type :=
| Finished (state : dict)
| Fatal (e : exn).

Definition EngineLoopError : exn :=
  mkExn "EngineLoopError" "iteration cap exceeded".

(** Modelled from the spec: the merge of a component's partial fields into
    the turn state, done by the graph library and not under src/ ("later
    fields overwrite same-named earlier fields; unrelated fields are
    additive"). *)
Definition merge (state update : dict) : dict :=
  fold_left (fun s kv => setitem s (fst kv) (snd kv)) update state.

Section Engine.

(** The iteration cap, the router and the dispatch of a component by name. *)
Variable cap : nat.
Variable route : dict -> result pyval.
Variable component : pyval -> dict -> result dict.

(** Modelled from the spec: the engine's loop ([invoke] on the compiled
    graph, in the graph library and not under src/): invoke the named
    component, merge what it returns, ask the router; stop on TERMINATE, go
    on with the handler it names otherwise; past the cap the turn is
    fatal.  [budget] is what is left of the cap, [invoked] the components
    invoked so far. *)
Fixpoint run (budget : nat) (next : pyval) (state : dict) (invoked : list pyval)
    : outcome * list pyval :=
  match budget with
  | O => (Fatal EngineLoopError, invoked)
  | S budget' =>
      let invoked' := (invoked ++ [next])%list in
      match component next state with
      | Raise e => (Fatal e, invoked')
      | Ok update =>
          let merged := merge state update in
          match route merged with
          | Raise e => (Fatal e, invoked')
          | Ok target =>
              if py_eq target Routing.END then (Finished merged, invoked')
              else run budget' target merged invoked'
          end
      end
  end.

Definition run_turn (entry : pyval) (initial : dict) : outcome * list pyval :=
  run cap entry initial [].

End Engine.

(** Modelled from the spec: the engine's dispatch of a component by the
    name the router returned, over the table of nodes [build_graph]
    registers; an unknown name is an error. *)
Fixpoint find_node (table : list (string * (dict -> dict))) (name : string)
    : option (dict -> dict) :=
  match table with
  | [] => None
  | (n, f) :: r => if String.eqb name n then Some f else find_node r name
  end.

Definition dispatch (table : list (string * (dict -> dict))) (name : pyval)
    (state : dict) : result dict :=
  match name with
  | PStr n =>
      match find_node table n with
      | Some f => Ok (f state)
      | None => Raise (mkExn "ValueError" "unknown node")
      end
  | _ => Raise (mkExn "ValueError" "unknown node")
  end.

End Engine.

(** ** scraper/linkedin_scraper.py *)

Module Scraper.
Import Py.

Definition field_mappings : list (string * list string) :=
  [("name", ["fullName"; "firstName"; "lastName"; "name"]);
   ("headline", ["headline"; "title"]);
   ("about", ["about"; "summary"; "description"]);
   ("experience", ["experience"; "positions"; "workExperience"]);
   ("education", ["education"; "schools"]);
   ("skills", ["skills"; "skillsAndEndorsements"]);
   ("certifications", ["certifications"; "certificates"]);
   ("languages", ["languages"; "spokenLanguages"]);
   ("location", ["location"; "locationName"]);
   ("profileUrl", ["profileUrl"; "url"; "linkedinUrl"])].

Definition list_fields : list string :=
  ["experience"; "education"; "skills"; "certifications"; "languages"].

(** The inner loop: the value of the first key that is in the profile with
    a true value, [None] when there is none. *)
Fixpoint first_truthy (profile : dict) (possible_keys : list string)
    : option pyval :=
  match possible_keys with
  | [] => None
  | key :: rest =>
      if has_key profile key && truthy (get profile key)
      then Some (get profile key)
      else first_truthy profile rest
  end.

(** What the outer loop stores under [target_key]. *)
Definition sanitized_value (profile : dict) (target_key : string)
    (possible_keys : list string) : pyval :=
  match first_truthy profile possible_keys with
  | None =>
      if existsb (String.eqb target_key) list_fields then PList [] else PStr ""
  | Some value => value
  end.

Definition sanitize_fields (profile : dict) : dict :=
  fold_left
    (fun sanitized entry =>
       setitem sanitized (fst entry) (sanitized_value profile (fst entry) (snd entry)))
    field_mappings [].

Definition combined_name (profile : dict) : string :=
  let first_name := get_or profile "firstName" (PStr "") in
  let last_name := get_or profile "lastName" (PStr "") in
  strip (py_str first_name ++ " " ++ py_str last_name).

Definition sanitize_profile (profile : dict) : result dict :=
  let sanitized := sanitize_fields profile in
  name <- getitem sanitized "name" ;;
  if negb (truthy name) && has_key profile "firstName"
  then Ok (setitem sanitized "name" (PStr (combined_name profile)))
  else Ok sanitized.

End Scraper.

(** ** Regular expressions, as far as the URL patterns need them *)

Module Regex.
Import Py.

(** The patterns of [validate_linkedin_url] are built from literal text,
    a character class, [?], [+], [.*] and a final [$]. *)
Inductive regex : Type :=
| Void
| Eps
| Chr (c : ascii)
| Class (f : ascii -> bool)
| Seq (r1 r2 : regex)
| Alt (r1 r2 : regex)
| Star (r : regex).

Fixpoint nullable (r : regex) : bool :=
  match r with
  | Void => false
  | Eps => true
  | Chr _ => false
  | Class _ => false
  | Seq r1 r2 => nullable r1 && nullable r2
  | Alt r1 r2 => nullable r1 || nullable r2
  | Star _ => true
  end.

(** What is left of [r] once it has read [c]. *)
Fixpoint deriv (c : ascii) (r : regex) : regex :=
  match r with
  | Void => Void
  | Eps => Void
  | Chr c' => if Ascii.eqb c c' then Eps else Void
  | Class f => if f c then Eps else Void
  | Seq r1 r2 =>
      if nullable r1
      then Alt (Seq (deriv c r1) r2) (deriv c r2)
      else Seq (deriv c r1) r2
  | Alt r1 r2 => Alt (deriv c r1) (deriv c r2)
  | Star r1 => Seq (deriv c r1) (Star r1)
  end.

(** [r] matches the whole of [s]. *)
Fixpoint matches (r : regex) (s : string) : bool :=
  match s with
  | EmptyString => nullable r
  | String c rest => matches (deriv c r) rest
  end.

Fixpoint literal (s : string) : regex :=
  match s with
  | EmptyString => Eps
  | String c rest => Seq (Chr c) (literal rest)
  end.

(** [r?] and [r+] *)
Definition opt (r : regex) : regex := Alt r Eps.
Definition plus (r : regex) : regex := Seq r (Star r).

Definition newline_char : ascii := ascii_of_nat 10.

(** [.]: any character but a newline. *)
Definition any_char : regex := Class (fun c => negb (Ascii.eqb c newline_char)).

(** [$] at the end of a pattern: the end of the text, or the newline the
    text ends with. *)
Definition end_of_text : regex := opt (Chr newline_char).

(** [re.match(pattern, s)] for a pattern [^ body $]: the match starts at
    the first character and [$] sends it to the end. *)
Definition re_match (body : regex) (s : string) : bool :=
  matches (Seq body end_of_text) s.

End Regex.

(** ** scraper/linkedin_scraper.py: the profile URL *)

Module ProfileUrl.
Import Py Regex.

(** [[A-Za-z0-9\-_%]] *)
Definition id_char (c : ascii) : bool :=
  let n := code c in
  ((65 <=? n)%nat && (n <=? 90)%nat) || ((97 <=? n)%nat && (n <=? 122)%nat) ||
  ((48 <=? n)%nat && (n <=? 57)%nat) ||
  (n =? 45)%nat || (n =? 95)%nat || (n =? 37)%nat.

(** [^https://(www\.)?linkedin\.com/in/[A-Za-z0-9\-_%]+/?$] *)
Definition pattern_profile : regex :=
  Seq (literal "https://")
    (Seq (opt (literal "www."))
       (Seq (literal "linkedin.com/in/")
          (Seq (plus (Class id_char)) (opt (Chr "/"))))).

(** [^https://(www\.)?linkedin\.com/in/[A-Za-z0-9\-_%]+/.*$] *)
Definition pattern_profile_path : regex :=
  Seq (literal "https://")
    (Seq (opt (literal "www."))
       (Seq (literal "linkedin.com/in/")
          (Seq (plus (Class id_char)) (Seq (Chr "/") (Star any_char))))).

(** [^https://linkedin\.com/in/[A-Za-z0-9\-_%]+/?$] *)
Definition pattern_bare : regex :=
  Seq (literal "https://linkedin.com/in/")
    (Seq (plus (Class id_char)) (opt (Chr "/"))).

Definition patterns : list regex :=
  [pattern_profile; pattern_profile_path; pattern_bare].

Definition validate_linkedin_url (url : pyval) : result bool :=
  url' <- obj_strip url ;;
  Ok (existsb (fun pattern => re_match pattern url') patterns).

(** [s.split(sep)] for a separator that is not empty: the pieces between
    the occurrences of [sep], read left to right without overlap.
    [skip] counts the characters of an occurrence still to pass; the head
    of the result is the piece being read. *)
Fixpoint split_from (sep s : string) (skip : nat) : list string :=
  match s with
  | EmptyString => [EmptyString]
  | String c rest =>
      match skip with
      | S k => split_from sep rest k
      | O =>
          if prefix sep s
          then EmptyString :: split_from sep rest (String.length sep - 1)
          else match split_from sep rest 0 with
               | piece :: pieces => String c piece :: pieces
               | [] => [String c EmptyString]
               end
      end
  end.

Definition split (sep s : string) : list string := split_from sep s 0.

(** [l[i]] *)
Definition item (l : list string) (i : nat) : result string :=
  match nth_error l i with
  | Some x => Ok x
  | None => Raise (mkExn "IndexError" "list index out of range")
  end.

(** [s.endswith(suffix)] *)
Fixpoint ends_with (s suffix : string) : bool :=
  String.eqb s suffix ||
  match s with
  | EmptyString => false
  | String _ rest => ends_with rest suffix
  end.

Definition clean_linkedin_url (url : pyval) : result string :=
  url' <- obj_strip url ;;
  if contains url' "/in/" then
    before <- item (split "/in/" url') 0 ;;
    after <- item (split "/in/" url') 1 ;;
    profile_id <- item (split "/" after) 0 ;;
    let base_part := before ++ "/in/" ++ profile_id in
    Ok (if negb (ends_with base_part "/") then base_part ++ "/" else base_part)
  else Ok url'.

End ProfileUrl.

(** ** state.py and app.py: the chat history *)

Module History.
Import Py.

(** An element of a chat history: a dict, or another object (a message
    object of the graph library, say), known by its attributes and by the
    text [str] gives for it. *)
Inductive entry : Type :=
| Message (d : dict)
| Object (attrs : dict) (text : string).

(** The dict both functions turn an element into: a dict stays, an object
    with a [content] becomes a user message when its [type] is 'human' and
    an assistant message otherwise, anything else an assistant message
    with its text. *)
Definition as_dict (msg : entry) : dict :=
  match msg with
  | Message d => d
  | Object attrs text =>
      if has_key attrs "content" then
        let role :=
          if has_key attrs "type" && py_eq (get attrs "type") (PStr "human")
          then "user" else "assistant" in
        [("role", PStr role); ("content", get attrs "content")]
      else [("role", PStr "assistant"); ("content", PStr text)]
  end.

(** app.py *)
Definition normalize_chat_history (history : list entry) : list dict :=
  map as_dict history.

(** state.py *)
Definition chat_history_reducer (old_history new_history : list entry)
    : list entry :=
  match old_history with
  | [] => new_history
  | _ =>
      match new_history with
      | [] => old_history
      | _ => (old_history ++ map (fun msg => Message (as_dict msg)) new_history)%list
      end
  end.

End History.

(** ** app.py: the response shown for a turn *)

Module App.
Import Py.

Definition agent_output_map : list (string * string) :=
  [("profile_analyzer_agent", "analysis"); ("job_fit_agent", "job_fit");
   ("content_enhancer_agent", "enhanced_content");
   ("career_coach_agent", "coaching")].

Fixpoint assoc (m : list (string * string)) (k : string) : option string :=
  match m with
  | [] => None
  | (k', v) :: r => if String.eqb k k' then Some v else assoc r k
  end.

(** [agent_output_map.get(intent)]: a key must be hashable; a key that is
    not a text is none of the map's. *)
Definition output_key_of (intent : pyval) : result (option string) :=
  match intent with
  | PStr s => Ok (assoc agent_output_map s)
  | PList _ | PDict _ => Raise (TypeError "unhashable type")
  | _ => Ok None
  end.

(** [result.get(slot, {}).get(field)] *)
Definition field_of (result : dict) (slot field : string) : Py.result pyval :=
  obj_get (get_or result slot (PDict [])) field.

(** [a or b]: [b] is evaluated only when [a] is false. *)
Definition or_else (a b : result pyval) : result pyval :=
  v <- a ;; if truthy v then Ok v else b.

(** The first lookup: the output of the agent the classification names,
    when it answers the prompt being processed; [None] otherwise. *)
Definition classified_response (result : dict) (prompt_to_process : pyval)
    : Py.result pyval :=
  intent <- field_of result "intent_classification" "intent" ;;
  output_key <- output_key_of intent ;;
  match output_key with
  | Some key =>
      if truthy (PStr key) && has_key result key then
        asked <- field_of result key "user_question" ;;
        if py_eq asked prompt_to_process
        then or_else (field_of result key "message") (field_of result key "answer")
        else Ok PNone
      else Ok PNone
  | None => Ok PNone
  end.

Definition canned_response : string := "I understand. Let me provide some insights.".

(** The fallback "in case the primary extraction fails". *)
Definition fallback_response (result : dict) : Py.result pyval :=
  or_else (field_of result "coaching" "message")
    (or_else (field_of result "coaching" "answer")
       (or_else (field_of result "analysis" "message")
          (or_else (field_of result "job_fit" "message")
             (or_else (field_of result "enhanced_content" "message")
                (Ok (PStr canned_response)))))).

(** The response extracted from the final state of a turn that has no
    [error] key (the [else] branch of "STAGE 2, STEP 3"). *)
Definition response_for (result : dict) (prompt_to_process : pyval)
    : Py.result pyval :=
  response <- classified_response result prompt_to_process ;;
  if negb (truthy response) then fallback_response result else Ok response.

(** The state the application sends to the graph for a prompt ("STAGE 2,
    STEP 2"). *)
Definition chat_state (prompt_to_process session_id : pyval)
    (chat_history : list History.entry) (job_desc profile : pyval) : dict :=
  [("command", PStr "chat");
   ("user_question", prompt_to_process);
   ("session_id", session_id);
   ("chat_history", PList (map PDict (History.normalize_chat_history chat_history)));
   ("job_description", job_desc);
   ("profile", profile)].

End App.

(** ** scraper/linkedin_scraper.py: the scraping run *)

Module ScraperRun.
Import Py.

(** A response of the [requests] library, as far as the code reads it:
    the status code, the body (only asked whether it is empty), what
    [json()] returns and what [raise_for_status()] does. *)
Record response : Type := mkResponse {
  status_code : Z;
  content : string;
  json : result pyval;
  raise_for_status : result unit
}.

(** What the functions do to the outside: sleep, and send requests. *)
Inductive event : Type :=
| Slept (seconds : Z)
| Got (url : string)
| Posted (url : string) (payload : pyval).

(** The module's global [_APIFY_API_TOKEN], and what has happened so far,
    the latest event first. *)
Record world : Type := mkWorld {
  _APIFY_API_TOKEN : pyval;
  events : list event
}.

(** A computation that reads and changes the world and may raise; what it
    did before raising stays done. *)
Definition io (A : Type) : Type := world -> result A * world.

Definition ret {A} (a : A) : io A := fun w => (Ok a, w).
Definition raise {A} (e : exn) : io A := fun w => (Raise e, w).
Definition lift {A} (r : result A) : io A := fun w => (r, w).

Definition io_bind {A B} (c : io A) (k : A -> io B) : io B :=
  fun w =>
    match c w with
    | (Ok a, w') => k a w'
    | (Raise e, w') => (Raise e, w')
    end.

Notation "x <~ c ;; k" := (io_bind c (fun x => k))
  (at level 61, c at next level, right associativity).

(** [try: body  except Exception as e: handler e] *)
Definition io_try {A} (body : io A) (handler : exn -> io A) : io A :=
  fun w =>
    match body w with
    | (Ok a, w') => (Ok a, w')
    | (Raise e, w') => handler e w'
    end.

Definition ValueError (what : string) : exn := mkExn "ValueError" what.
Definition LinkedInScraperError (what : string) : exn :=
  mkExn "LinkedInScraperError" what.

Definition is_none (v : pyval) : bool :=
  match v with PNone => true | _ => false end.

(** [key in v] and [v[key]] for a text key, on any value. *)
Definition obj_contains (key : string) (v : pyval) : result bool :=
  match v with
  | PDict d => Ok (has_key d key)
  | PStr s => Ok (contains s key)
  | PList l => Ok (py_in (PStr key) l)
  | _ => Raise (TypeError "argument is not iterable")
  end.

Definition obj_getitem (v : pyval) (key : string) : result pyval :=
  match v with
  | PDict d => getitem d key
  | PStr _ | PList _ => Raise (TypeError "indices must be integers")
  | _ => Raise (TypeError "object is not subscriptable")
  end.

(** [list(v.keys())] *)
Definition obj_keys (v : pyval) : result (list string) :=
  match v with
  | PDict d => Ok (keys d)
  | _ => Raise (AttributeError "object has no attribute 'keys'")
  end.

Definition POSSIBLE_ACTOR_IDS : list string :=
  ["2SyF0bVxmgGr8IVCZ"; "VhxlqQXRwhW8H5hNV"].

Definition newline : string := String (ascii_of_nat 10) EmptyString.

Definition no_working_actor : string :=
  "No working actor found. This could be due to:" ++ newline ++
  "1. Invalid API token" ++ newline ++
  "2. No available LinkedIn scraper actors" ++ newline ++
  "3. All actors require authentication/cookies" ++ newline ++
  "4. API quota exceeded".

(** [sanitize_profile] on whatever the dataset holds: the same loops,
    with [in], the subscript and [.get] as Python has them on any value. *)
Fixpoint first_truthy (profile : pyval) (possible_keys : list string)
    : result (option pyval) :=
  match possible_keys with
  | [] => Ok None
  | key :: rest =>
      present <- obj_contains key profile ;;
      if present then
        value <- obj_getitem profile key ;;
        if truthy value then Ok (Some value) else first_truthy profile rest
      else first_truthy profile rest
  end.

Fixpoint sanitize_fields (profile : pyval) (mappings : list (string * list string))
    (sanitized : dict) : result dict :=
  match mappings with
  | [] => Ok sanitized
  | (target_key, possible_keys) :: rest =>
      value <- first_truthy profile possible_keys ;;
      sanitize_fields profile rest
        (setitem sanitized target_key
           match value with
           | None =>
               if existsb (String.eqb target_key) Scraper.list_fields
               then PList [] else PStr ""
           | Some v => v
           end)
  end.

Definition sanitize_profile (profile : pyval) : result dict :=
  sanitized <- sanitize_fields profile Scraper.field_mappings [] ;;
  name <- getitem sanitized "name" ;;
  has_first <- (if negb (truthy name) then obj_contains "firstName" profile
                else Ok false) ;;
  if has_first then
    first_name <- obj_get_or profile "firstName" (PStr "") ;;
    last_name <- obj_get_or profile "lastName" (PStr "") ;;
    Ok (setitem sanitized "name"
          (PStr (strip (py_str first_name ++ " " ++ py_str last_name))))
  else Ok sanitized.

Section Environment.

(** What [st.secrets["APIFY_API_TOKEN"]] gives or raises, what
    [os.getenv("APIFY_API_TOKEN")] returns, and how the network answers a
    request after the events so far. *)
Variable secret : result pyval.
Variable getenv : pyval.
Variable network : list event -> event -> result response.

Definition _get_apify_token : io pyval :=
  fun w =>
    if is_none (_APIFY_API_TOKEN w) then
      let token := match secret with Ok v => v | Raise _ => getenv end in
      let w' := mkWorld token (events w) in
      if negb (truthy token)
      then (Raise (ValueError
                     "APIFY_API_TOKEN not found in secrets or environment variables"),
            w')
      else (Ok token, w')
    else (Ok (_APIFY_API_TOKEN w), w).

Definition request (e : event) : io response :=
  fun w => (network (events w) e, mkWorld (_APIFY_API_TOKEN w) (e :: events w)).

Definition requests_get (url : string) : io response := request (Got url).
Definition requests_post (url : string) (payload : pyval) : io response :=
  request (Posted url payload).

Definition sleep (seconds : Z) : io unit :=
  fun w => (Ok tt, mkWorld (_APIFY_API_TOKEN w) (Slept seconds :: events w)).

Definition actor_url (actor_id : string) : io string :=
  token <~ _get_apify_token ;;
  ret ("https://api.apify.com/v2/acts/" ++ actor_id ++ "?token=" ++ py_str token).

Definition get_actor_input_schema (actor_id : string) : io pyval :=
  io_try
    (url <~ actor_url actor_id ;;
     response <~ requests_get url ;;
     if (status_code response =? 200)%Z then
       actor_data <~ lift (json response) ;;
       data <~ lift (obj_get_or actor_data "data" (PDict [])) ;;
       options <~ lift (obj_get_or data "defaultRunOptions" (PDict [])) ;;
       input_schema <~ lift (obj_get_or options "inputSchema" (PDict [])) ;;
       ret input_schema
     else ret (PDict []))
    (fun _ => ret (PDict [])).

(** The log line of [create_actor_payload] lists [properties.keys()], so
    [properties] must be a dict for the function to go on. *)
Definition create_actor_payload (actor_id linkedin_url : string) : io pyval :=
  schema <~ get_actor_input_schema actor_id ;;
  properties <~ lift (obj_get_or schema "properties" (PDict [])) ;;
  _ <~ lift (obj_keys properties) ;;
  in_profileUrls <~ lift (obj_contains "profileUrls" properties) ;;
  if in_profileUrls then
    ret (PDict [("profileUrls", PList [PStr linkedin_url])])
  else
    in_urls <~ lift (obj_contains "urls" properties) ;;
    if in_urls then ret (PDict [("urls", PList [PStr linkedin_url])])
    else
      in_startUrls <~ lift (obj_contains "startUrls" properties) ;;
      if in_startUrls then
        ret (PDict [("startUrls", PList [PDict [("url", PStr linkedin_url)]])])
      else
        in_profileUrl <~ lift (obj_contains "profileUrl" properties) ;;
        if in_profileUrl then ret (PDict [("profileUrl", PStr linkedin_url)])
        else ret (PDict [("profileUrls", PList [PStr linkedin_url])]).

Definition runs_url (actor_id : string) : io string :=
  token <~ _get_apify_token ;;
  ret ("https://api.apify.com/v2/acts/" ++ actor_id ++ "/runs?token=" ++ py_str token).

Definition test_actor_with_payload (actor_id : string) (payload : pyval) : io pyval :=
  io_try
    (test_url <~ runs_url actor_id ;;
     response <~ requests_post test_url payload ;;
     if (status_code response =? 201)%Z then
       run_data <~ lift (json response) ;;
       data <~ lift (obj_get_or run_data "data" (PDict [])) ;;
       run_id <~ lift (obj_get data "id") ;;
       ret (PDict [("success", PBool true); ("actor_id", PStr actor_id);
                   ("run_id", run_id); ("payload", payload)])
     else
       error_data <~ (if negb (String.eqb (content response) "")
                      then lift (json response) else ret (PDict [])) ;;
       ret (PDict [("success", PBool false); ("actor_id", PStr actor_id);
                   ("status_code", PInt (status_code response));
                   ("error", error_data)]))
    (fun e =>
       ret (PDict [("success", PBool false); ("actor_id", PStr actor_id);
                   ("error", PStr (exn_str e))])).

(** The loop of [find_working_actor_and_payload] over the actors. *)
Fixpoint try_actors (actor_ids : list string) (linkedin_url : string) : io pyval :=
  match actor_ids with
  | [] => raise (LinkedInScraperError no_working_actor)
  | actor_id :: rest =>
      accessible <~ io_try
                      (url <~ actor_url actor_id ;;
                       response <~ requests_get url ;;
                       ret (status_code response =? 200)%Z)
                      (fun _ => ret false) ;;
      if accessible then
        payload <~ create_actor_payload actor_id linkedin_url ;;
        result <~ test_actor_with_payload actor_id payload ;;
        success <~ lift (obj_get result "success") ;;
        if truthy success then ret result else try_actors rest linkedin_url
      else try_actors rest linkedin_url
  end.

Definition find_working_actor_and_payload (linkedin_url : string) : io pyval :=
  token <~ _get_apify_token ;;
  if negb (truthy token)
  then raise (LinkedInScraperError "APIFY_API_TOKEN not set in environment")
  else try_actors POSSIBLE_ACTOR_IDS linkedin_url.

Definition run_url (actor_id run_id : pyval) : io string :=
  token <~ _get_apify_token ;;
  ret ("https://api.apify.com/v2/acts/" ++ py_str actor_id ++ "/runs/"
       ++ py_str run_id ++ "?token=" ++ py_str token).

Definition get_run_dataset_id (actor_id run_id : pyval) : io pyval :=
  io_try
    (url <~ run_url actor_id run_id ;;
     response <~ requests_get url ;;
     _ <~ lift (raise_for_status response) ;;
     run_data <~ lift (json response) ;;
     data <~ lift (obj_get_or run_data "data" (PDict [])) ;;
     lift (obj_get data "defaultDatasetId"))
    (fun _ => ret PNone).

Definition could_not_fetch : pyval :=
  PDict [("success", PBool false);
         ("error", PStr "Could not fetch results from any dataset URL")].

(** The loop over the dataset URLs: the first that answers 200 with a
    non-empty list gives the result. *)
Fixpoint fetch_results (dataset_urls : list string) : io pyval :=
  match dataset_urls with
  | [] => ret could_not_fetch
  | dataset_url :: rest =>
      found <~ io_try
                 (results_response <~ requests_get dataset_url ;;
                  if (status_code results_response =? 200)%Z then
                    data <~ lift (json results_response) ;;
                    match data with
                    | PList (first :: _) =>
                        ret (Some (PDict [("success", PBool true); ("data", first)]))
                    | _ => ret None
                    end
                  else ret None)
                 (fun _ => ret None) ;;
      match found with
      | Some result => ret result
      | None => fetch_results rest
      end
  end.

(** The body of the [try] of one round of polling: [Some] is what it
    returns from the function, [None] means go on waiting. *)
Definition poll (actor_id run_id : pyval) : io (option pyval) :=
  url <~ run_url actor_id run_id ;;
  status_response <~ requests_get url ;;
  _ <~ lift (raise_for_status status_response) ;;
  status_data <~ lift (json status_response) ;;
  data <~ lift (obj_get_or status_data "data" (PDict [])) ;;
  run_status <~ lift (obj_get data "status") ;;
  if py_eq run_status (PStr "SUCCEEDED") then
    dataset_id <~ lift (obj_get data "defaultDatasetId") ;;
    if negb (truthy dataset_id) then
      ret (Some (PDict [("success", PBool false);
                        ("error", PStr "No dataset ID found")]))
    else
      token1 <~ _get_apify_token ;;
      token2 <~ _get_apify_token ;;
      result <~ fetch_results
                  ["https://api.apify.com/v2/datasets/" ++ py_str dataset_id
                   ++ "/items?token=" ++ py_str token1;
                   "https://api.apify.com/v2/acts/" ++ py_str actor_id ++ "/runs/"
                   ++ py_str run_id ++ "/dataset/items?token=" ++ py_str token2] ;;
      ret (Some result)
  else if py_in run_status [PStr "FAILED"; PStr "ABORTED"; PStr "TIMED-OUT"] then
    ret (Some (PDict [("success", PBool false);
                      ("error", PStr ("Run failed with status: " ++ py_str run_status));
                      ("details", data)]))
  else ret None.

Definition poll_interval : Z := 10.

Definition timed_out (max_wait : Z) : pyval :=
  PDict [("success", PBool false);
         ("error", PStr ("Run timed out after " ++ py_str (PInt max_wait) ++ " seconds"))].

(** The [while] loop, with fuel: [None] when the fuel runs out. *)
Fixpoint wait_loop (fuel : nat) (actor_id run_id : pyval) (max_wait wait_time : Z)
    : io (option pyval) :=
  match fuel with
  | O => ret None
  | S fuel' =>
      if (wait_time <? max_wait)%Z then
        _ <~ sleep poll_interval ;;
        let wait_time := (wait_time + poll_interval)%Z in
        outcome <~ io_try (poll actor_id run_id) (fun _ => ret None) ;;
        match outcome with
        | Some result => ret (Some result)
        | None => wait_loop fuel' actor_id run_id max_wait wait_time
        end
      else ret (Some (timed_out max_wait))
  end.

Definition wait_for_run_completion (fuel : nat) (actor_id run_id : pyval)
    (max_wait : Z) : io (option pyval) :=
  wait_loop fuel actor_id run_id max_wait 0.

Definition fetch_linkedin_profile (fuel : nat) (linkedin_url : pyval)
    : io (option dict) :=
  valid <~ lift (ProfileUrl.validate_linkedin_url linkedin_url) ;;
  if negb valid then raise (LinkedInScraperError "Invalid LinkedIn profile URL")
  else
    cleaned_url <~ lift (ProfileUrl.clean_linkedin_url linkedin_url) ;;
    actor_config <~ find_working_actor_and_payload cleaned_url ;;
    actor_id <~ lift (obj_getitem actor_config "actor_id") ;;
    run_id <~ lift (obj_getitem actor_config "run_id") ;;
    waited <~ wait_for_run_completion fuel actor_id run_id 180 ;;
    match waited with
    | None => ret None
    | Some result =>
        success <~ lift (obj_get result "success") ;;
        if truthy success then
          profile_data <~ lift (obj_getitem result "data") ;;
          sanitized <~ lift (sanitize_profile profile_data) ;;
          ret (Some sanitized)
        else
          error_msg <~ lift (obj_get_or result "error" (PStr "Unknown error")) ;;
          raise (LinkedInScraperError ("Scraping failed: " ++ py_str error_msg))
    end.

End Environment.

End ScraperRun.

(** * The statements: their vocabulary and the sample inputs *)

(** ** Stand-ins for the completion service *)

Module Stubs.
Import Py.

(** A completion service that is down, and one that answers [content]. *)
Definition llm_down : string -> string -> result pyval :=
  fun _ _ => Raise (mkExn "ConnectionError" "service unavailable").

Definition llm_answers (content : string) : string -> string -> result pyval :=
  fun _ _ => Ok (PStr content).

End Stubs.

(** ** The router *)

Module RouterSpec.
Import Py Routing.

(** The four keys a handler's result is stored under. *)
Definition result_slots : list string :=
  ["coaching"; "analysis"; "job_fit"; "enhanced_content"].

(** The slot [k] of the state holds a non-empty result whose
    [user_question] equals (Python's [==]) the state's [user_question]. *)
Definition holds_answer (state : dict) (k : string) : Prop :=
  exists r, lookup state k = Some (PDict r) /\ r <> [] /\
            py_eq (get r "user_question") (get state "user_question") = true.

(** The slot is typed as [State] declares it, [Optional[Dict[str, Any]]]:
    absent, [None] (or another false value), or a dict. *)
Definition slot_typed (state : dict) (k : string) : bool :=
  match lookup state k with
  | None => true
  | Some v => negb (truthy v) || is_dict v
  end.

Definition results_typed (state : dict) : bool :=
  forallb (slot_typed state) result_slots.

(** The classification, when the state has one, is a dict (or a false
    value) and the intent it names is not the reserved name [END]. *)
Definition classification_typed (state : dict) : bool :=
  match lookup state "intent_classification" with
  | None => true
  | Some (PDict c) => negb (py_eq (get c "intent") END)
  | Some v => negb (truthy v)
  end.

(** A chat turn after the classifier ran, with a result left over from an
    earlier question in the job-fit slot. *)
Definition stale_state : dict :=
  [("command", PStr "chat");
   ("user_question", PStr "How well do I match?");
   ("session_id", PStr "s1");
   ("intent_classification",
    PDict [("intent", PStr "job_fit_agent"); ("confidence", PFloat 7 1);
           ("success", PBool true)]);
   ("job_fit",
    PDict [("message", PStr "old answer"); ("type", PStr "job_fit_analysis");
           ("user_question", PStr "Analyze my profile");
           ("success", PBool true)])].

(** The same turn with an error recorded, next to a classification and a
    result that answers the current question. *)
Definition errored_state : dict :=
  [("command", PStr "chat");
   ("user_question", PStr "How well do I match?");
   ("intent_classification", PDict [("intent", PStr "job_fit_agent")]);
   ("job_fit", PDict [("user_question", PStr "How well do I match?")]);
   ("coaching", PDict [("user_question", PStr "something else")]);
   ("error", PStr "boom")].

End RouterSpec.

(** ** The intent classifier *)

Module ClassifierSpec.
Import Py IntentClassifier.

(** The fallback's ordered keyword groups, each with the intent it stands for. *)
Definition keyword_groups : list (string * list string) :=
  [("profile_analyzer_agent", profile_keywords);
   ("job_fit_agent", job_fit_keywords);
   ("content_enhancer_agent", content_keywords)].

(** The specification of the fallback, in the spec's words: lower-case the
    question, take the first group one of whose keywords it contains. *)
Definition first_group (question : string) : option string :=
  option_map fst
    (find (fun g => any_in (lower question) (snd g)) keyword_groups).

Definition expected_intent (question : string) : string :=
  match first_group question with
  | Some intent => intent
  | None => "career_coach_agent"
  end.

Definition expected_confidence (question : string) : pyval :=
  match first_group question with
  | Some _ => PFloat 7 1
  | None => PFloat 5 1
  end.

(** The claim's side of the fallback, in its own terms.  A question
    mentions a keyword when some stretch of it spells the keyword, letter
    by letter, a capital letter A-Z counting as its small letter. *)
Definition capital_of (c k : ascii) : bool :=
  (65 <=? nat_of_ascii c)%nat && (nat_of_ascii c <=? 90)%nat &&
  (nat_of_ascii k =? nat_of_ascii c + 32)%nat.

Fixpoint spells (stretch keyword : string) : bool :=
  match stretch, keyword with
  | EmptyString, EmptyString => true
  | String c stretch', String k keyword' =>
      (Ascii.eqb c k || capital_of c k) && spells stretch' keyword'
  | _, _ => false
  end.

Definition mentions (question keyword : string) : Prop :=
  exists before stretch after,
    question = before ++ stretch ++ after /\ spells stretch keyword = true.

(** The three ordered groups of terms. *)
Definition profile_terms : list string :=
  ["analyze"; "strengths"; "weaknesses"; "profile analysis"; "what are my"].
Definition job_fit_terms : list string :=
  ["job fit"; "match"; "requirements"; "score"; "how well"; "fit for"; "qualify"].
Definition content_terms : list string :=
  ["rewrite"; "enhance"; "improve"; "about section"; "headline"; "experience";
   "make my"; "better"].

Definition has_term (question : string) (terms : list string) : Prop :=
  exists keyword, In keyword terms /\ mentions question keyword.

(** A term written without capitals and in ASCII, as all of the above are. *)
Definition plain (k : ascii) : bool :=
  (nat_of_ascii k <? 65)%nat ||
  ((90 <? nat_of_ascii k)%nat && (nat_of_ascii k <? 128)%nat).

Fixpoint plain_text (keyword : string) : bool :=
  match keyword with
  | EmptyString => true
  | String k rest => plain k && plain_text rest
  end.

(** What [classify_intent] parses: the braces the response has, or the
    whole response. *)
Definition parsed (json_loads : string -> result pyval) (content : string)
    : result pyval :=
  match search_braces content with
  | Some json_str => json_loads json_str
  | None => json_loads content
  end.

(** The classification an undeclared or unknown intent is replaced by. *)
Definition defaulted (session_id : pyval) : pyval :=
  classification "career_coach_agent" (PFloat 5 1)
    "Defaulted to career coach due to unclear intent" session_id.

(** The response used below: an object that names an agent the system
    does not have. *)
Definition unknown_agent_response : string :=
  "{" ++ dquote ++ "intent" ++ dquote ++ ": " ++ dquote ++ "resume_agent" ++ dquote ++ "}".

(** [json.loads] on the one text used below; anything else counts as
    unparsable. *)
Definition json_loads_sample (s : string) : result pyval :=
  if String.eqb s unknown_agent_response
  then Ok (PDict [("intent", PStr "resume_agent")])
  else Raise (mkExn "JSONDecodeError" "Expecting value").

(** A response that is an object, but declares no intent; and a
    [json.loads] that also reads it. *)
Definition empty_object_response : string := "{}".

Definition json_loads_objects (s : string) : result pyval :=
  if String.eqb s empty_object_response then Ok (PDict [])
  else json_loads_sample s.

End ClassifierSpec.

(** ** The chat handlers *)

Module HandlerSpec.
Import Py Agents.

(** The four handlers, with the category each tags its answers with. *)
Inductive handler : Type :=
| ProfileAnalyzer
| JobFit
| ContentEnhancer
| CareerCoach.

Definition category (h : handler) : string :=
  match h with
  | ProfileAnalyzer => "profile_analysis"
  | JobFit => "job_fit_analysis"
  | ContentEnhancer => "content_enhancement"
  | CareerCoach => "chat_response"
  end.

Definition system_prompt_of (h : handler) : string :=
  match h with
  | ProfileAnalyzer => ProfileAnalyzerAgent.system_prompt
  | JobFit => JobFitAgent.system_prompt
  | ContentEnhancer => ContentEnhancerAgent.system_prompt
  | CareerCoach => CareerCoachAgent.system_prompt
  end.

Definition apology_of (h : handler) : string :=
  match h with
  | ProfileAnalyzer => ProfileAnalyzerAgent.apology
  | JobFit => JobFitAgent.apology
  | ContentEnhancer => ContentEnhancerAgent.apology
  | CareerCoach => CareerCoachAgent.apology
  end.

(** The user-role payload of a chat-mode invocation. *)
Definition payload_of (h : handler)
    (profile job_description user_question chat_history : pyval) : result string :=
  match h with
  | ProfileAnalyzer =>
      ProfileAnalyzerAgent.chat_payload profile user_question chat_history
  | JobFit =>
      JobFitAgent.chat_payload profile job_description user_question chat_history
  | ContentEnhancer =>
      ContentEnhancerAgent.chat_payload profile user_question chat_history
  | CareerCoach =>
      CareerCoachAgent.chat_payload profile job_description user_question chat_history
  end.

(** The chat-mode handler of each agent. *)
Definition handle_chat (h : handler) (llm : string -> string -> result pyval)
    (profile job_description user_question session_id chat_history : pyval)
    : result pyval :=
  match h with
  | ProfileAnalyzer =>
      ProfileAnalyzerAgent._handle_chat_analysis llm
        profile user_question session_id chat_history
  | JobFit =>
      JobFitAgent._handle_chat_job_fit llm
        profile job_description user_question session_id chat_history
  | ContentEnhancer =>
      ContentEnhancerAgent._handle_chat_enhancement llm
        profile user_question session_id chat_history
  | CareerCoach =>
      CareerCoachAgent._handle_chat_interaction llm
        profile job_description user_question chat_history session_id
  end.

(** A chat message as the session keeps it, and a history of them given
    as (role, content) pairs. *)
Definition chat_message (m : string * string) : pyval :=
  PDict [("role", PStr (fst m)); ("content", PStr (snd m))].

Definition messages (history : list (string * string)) : pyval :=
  PList (map chat_message history).

(** The last six messages, each content cut at 150 characters. *)
Definition digest_window (history : list (string * string))
    : list (string * string) :=
  map (fun m => (fst m, take 150 (snd m))) (list_last 6 history).

(** A profile's experience entry. *)
Definition position (title company : string) : pyval :=
  PDict [("title", PStr title); ("company", PStr company)].

(** The claim C8 makes of a handler's payload, in two parts: it reads the
    history through the last six messages cut at 150 characters, and the
    experience through its first three entries. *)
Definition history_window (h : handler) : Prop :=
  forall (profile jd q : pyval) (history : list (string * string)),
    payload_of h profile jd q (messages (digest_window history))
    = payload_of h profile jd q (messages history).

Definition experience_window (h : handler) : Prop :=
  forall (profile : dict) (exps : list pyval) (jd q hist : pyval),
    payload_of h (PDict (setitem profile "experience" (PList (list_take 3 exps))))
      jd q hist
    = payload_of h (PDict (setitem profile "experience" (PList exps))) jd q hist.

(** The claim's side of C8, in its own terms.  The digest of a history:
    of its last six messages, who spoke and the first 150 characters of
    what was said, the lines joined by " | "; a message that is neither
    the user's nor the assistant's gives no line, and without lines the
    digest is a fixed sentence. *)
Definition assistant_label (h : handler) : string :=
  match h with
  | CareerCoach => "Coach"
  | _ => "Assistant"
  end.

Definition digest_line (h : handler) (m : string * string) : list string :=
  if String.eqb (fst m) "user" then ["User: " ++ substring 0 150 (snd m)]
  else if String.eqb (fst m) "assistant"
  then [assistant_label h ++ ": " ++ substring 0 150 (snd m)]
  else [].

Definition digest (h : handler) (history : list (string * string)) : string :=
  match flat_map (digest_line h) (skipn (List.length history - 6) history) with
  | [] => "This is the beginning of our conversation."
  | lines => String.concat " | " lines
  end.

(** The experience line of the career coach: the first three positions
    as "title at company". *)
Definition experience_line (positions : list (string * string)) : string :=
  match positions with
  | [] => "No experience data provided"
  | _ =>
      String.concat "; "
        (map (fun p => fst p ++ " at " ++ snd p) (firstn 3 positions))
  end.

(** A profile's education entry, and the education line of the career
    coach: the first two of the entries that have a degree or a school,
    as "degree from school". *)
Definition school_entry (e : string * string) : pyval :=
  PDict [("degree", PStr (fst e)); ("school", PStr (snd e))].

Definition education_line (entries : list (string * string)) : string :=
  match entries with
  | [] => "No education data provided"
  | _ =>
      String.concat "; "
        (firstn 2
           (flat_map
              (fun e =>
                 if String.eqb (fst e) "" && String.eqb (snd e) "" then []
                 else [strip (fst e ++ " from " ++ snd e)])
              entries))
  end.

(** Whatever [a] is, the payload is one and the same text around
    [text a], or one and the same failure. *)
Definition shows {A} (payload : A -> result string) (text : A -> string) : Prop :=
  (exists e, forall a, payload a = Raise e) \/
  (exists before after, forall a, payload a = Ok (before ++ text a ++ after)).

(** A text with one gap, filled by [x]. *)
Definition around (g : string -> string) : Prop :=
  exists before after, forall x, g x = before ++ x ++ after.

(** A profile with four positions and three schools. *)
Definition sample_positions : list pyval :=
  [position "Engineer" "Acme"; position "Developer" "Initech";
   position "Analyst" "Globex"; position "Intern" "Hooli"].

Definition sample_profile_fields : dict :=
  [("name", PStr "Ada");
   ("about", PStr "Backend engineer");
   ("skills", PList [PStr "Python"; PStr "SQL"]);
   ("education",
    PList [PDict [("degree", PStr "MSc"); ("school", PStr "MIT")];
           PDict [("degree", PStr "BSc"); ("school", PStr "ETH")];
           PDict [("degree", PStr "Diploma"); ("school", PStr "Lycee")]])].

Definition sample_profile : pyval :=
  PDict (setitem sample_profile_fields "experience" (PList sample_positions)).

Definition sample_job : pyval := PStr "Senior Backend Engineer: Kubernetes, Go".
Definition sample_question : pyval :=
  PStr "What's my fit score for Senior Backend Engineer?".

(** Ten earlier messages, the seventh of them 200 characters long. *)
Definition ten_messages : list (string * string) :=
  [("user", "m1"); ("assistant", "m2"); ("user", "m3"); ("assistant", "m4");
   ("user", "m5"); ("assistant", "m6");
   ("user", String.concat "" (repeat "0123456789" 20)); ("assistant", "m8");
   ("user", "m9"); ("assistant", "m10")].

End HandlerSpec.

(** ** The turn engine *)

Module EngineSpec.
Import Py.

(** A router stub that always names the career coach, and components that
    add nothing to the state. *)
Definition stubborn_router : dict -> result pyval :=
  fun _ => Ok (PStr "career_coach_agent").

Definition idle_component : pyval -> dict -> result dict :=
  fun _ _ => Ok [].

End EngineSpec.

(** ** A turn whose completion service is down *)

Module TurnSpec.
Import Py Agents Routing Graph Engine HandlerSpec Stubs.

Definition json_rejects : string -> result pyval :=
  fun _ => Raise (mkExn "JSONDecodeError" "Expecting value").

(** The state the application prepares for a chat turn. *)
Definition turn_start : dict :=
  [("command", PStr "chat");
   ("user_question", PStr "How well do I match the job requirements?");
   ("session_id", PStr "s1");
   ("chat_history",
    PList [chat_message ("user", "How well do I match the job requirements?")]);
   ("job_description", PStr "Senior Backend Engineer");
   ("profile", PDict [("name", PStr "Ada"); ("skills", PList [PStr "Python"])])].

(** The graph with every completion client down (no batch run is reached
    in a chat turn). *)
Definition classifier_node : dict -> dict :=
  intent_classifier_node llm_down json_rejects.

Definition failing_job_fit_node : dict -> dict :=
  job_fit_node llm_down (fun _ _ _ => Ok PNone).

Definition failing_nodes : list (string * (dict -> dict)) :=
  nodes llm_down llm_down llm_down llm_down llm_down json_rejects
    (fun _ _ => Ok PNone) (fun _ _ _ => Ok PNone)
    (fun _ _ => Ok PNone) (fun _ _ _ _ => Ok PNone).

Definition after_classifier : dict := merge turn_start (classifier_node turn_start).

Definition after_handler : dict :=
  merge after_classifier (failing_job_fit_node after_classifier).

End TurnSpec.

(** ** The profile sanitizer *)

Module ScraperSpec.
Import Py Scraper.

Definition sanitized_keys : list string :=
  ["name"; "headline"; "about"; "experience"; "education"; "skills";
   "certifications"; "languages"; "location"; "profileUrl"].

(** The five fields whose value is a list. *)
Definition list_keys : list string :=
  ["experience"; "education"; "skills"; "certifications"; "languages"].

(** The source keys of a target key, in the order they are tried. *)
Definition sources (target_key : string) : list string :=
  if String.eqb target_key "name" then ["fullName"; "firstName"; "lastName"; "name"]
  else if String.eqb target_key "headline" then ["headline"; "title"]
  else if String.eqb target_key "about" then ["about"; "summary"; "description"]
  else if String.eqb target_key "experience"
  then ["experience"; "positions"; "workExperience"]
  else if String.eqb target_key "education" then ["education"; "schools"]
  else if String.eqb target_key "skills" then ["skills"; "skillsAndEndorsements"]
  else if String.eqb target_key "certifications"
  then ["certifications"; "certificates"]
  else if String.eqb target_key "languages" then ["languages"; "spokenLanguages"]
  else if String.eqb target_key "location" then ["location"; "locationName"]
  else if String.eqb target_key "profileUrl" then ["profileUrl"; "url"; "linkedinUrl"]
  else [].

(** None of the source keys holds a true value in the profile. *)
Definition unmatched (profile : dict) (target_key : string) : Prop :=
  forall key, In key (sources target_key) ->
    has_key profile key && truthy (get profile key) = false.

(** What Python's [str] gives for a false value: None, False, 0, 0.0,
    the empty text, the empty list, the empty dict. *)
Definition shown_false (v : pyval) : string :=
  match v with
  | PNone => "None"
  | PBool _ => "False"
  | PInt _ => "0"
  | PFloat _ _ => "0.0"
  | PStr _ => ""
  | PList _ => "[]"
  | PDict _ => "{}"
  end.

(** Two texts without blanks, as the recombined name has them: one space
    between them, none before or after. *)
Definition spaced (first last : string) : string :=
  match first, last with
  | EmptyString, _ => last
  | _, EmptyString => first
  | _, _ => first ++ " " ++ last
  end.

(** Scraped records whose names are there but false. *)
Definition zero_profile : dict :=
  [("firstName", PInt 0); ("lastName", PNone); ("skills", PList []);
   ("title", PStr "Engineer")].

Definition blank_profile : dict :=
  [("lastName", PList []); ("firstName", PStr "")].

End ScraperSpec.

(** ** The profile URL *)

Module UrlSpec.
Import Py Regex ProfileUrl.

(** The texts a regular expression stands for. *)
Inductive lang : regex -> string -> Prop :=
| lang_eps : lang Eps EmptyString
| lang_chr (c : ascii) : lang (Chr c) (String c EmptyString)
| lang_class (f : ascii -> bool) (c : ascii) :
    f c = true -> lang (Class f) (String c EmptyString)
| lang_seq (r1 r2 : regex) (s1 s2 : string) :
    lang r1 s1 -> lang r2 s2 -> lang (Seq r1 r2) (s1 ++ s2)
| lang_alt_l (r1 r2 : regex) (s : string) : lang r1 s -> lang (Alt r1 r2) s
| lang_alt_r (r1 r2 : regex) (s : string) : lang r2 s -> lang (Alt r1 r2) s
| lang_star_nil (r : regex) : lang (Star r) EmptyString
| lang_star_app (r : regex) (s1 s2 : string) :
    lang r s1 -> lang (Star r) s2 -> lang (Star r) (s1 ++ s2).

(** Every character of [s] passes [f]. *)
Fixpoint all_chars (f : ascii -> bool) (s : string) : bool :=
  match s with
  | EmptyString => true
  | String c rest => f c && all_chars f rest
  end.

(** The shape of an accepted URL: https, the host with or without [www.],
    [/in/], a profile id, and then nothing, or a slash and one line of
    anything. *)
Definition profile_url_shape (s : string) : Prop :=
  exists www id rest,
    s = "https://" ++ www ++ "linkedin.com/in/" ++ id ++ rest /\
    (www = "" \/ www = "www.") /\
    id <> "" /\ all_chars id_char id = true /\
    (rest = "" \/
     exists path, rest = "/" ++ path /\
                  all_chars (fun c => negb (Ascii.eqb c newline_char)) path = true).

End UrlSpec.

(** ** Routing after the classifier and after a handler *)

Module FlowSpec.
Import Py Routing IntentClassifier HandlerSpec.

(** The names of the four handler nodes. *)
Definition handler_names : list pyval := valid_intents.

(** The node of a handler and the key its result is stored under. *)
Definition node_name (h : handler) : string :=
  match h with
  | ProfileAnalyzer => "profile_analyzer_agent"
  | JobFit => "job_fit_agent"
  | ContentEnhancer => "content_enhancer_agent"
  | CareerCoach => "career_coach_agent"
  end.

Definition slot_of (h : handler) : string :=
  match h with
  | ProfileAnalyzer => "analysis"
  | JobFit => "job_fit"
  | ContentEnhancer => "enhanced_content"
  | CareerCoach => "coaching"
  end.

Section Nodes.

Variables profile_llm job_fit_llm content_llm coach_llm : Graph.llm_t.
Variable profile_batch : pyval -> pyval -> result pyval.
Variable job_fit_batch : pyval -> pyval -> pyval -> result pyval.
Variable content_batch : pyval -> pyval -> result pyval.
Variable coach_batch : pyval -> pyval -> pyval -> pyval -> result pyval.

(** The node function of a handler. *)
Definition node_of (h : handler) : dict -> dict :=
  match h with
  | ProfileAnalyzer => Graph.profile_analyzer_node profile_llm profile_batch
  | JobFit => Graph.job_fit_node job_fit_llm job_fit_batch
  | ContentEnhancer => Graph.content_enhancer_node content_llm content_batch
  | CareerCoach => Graph.career_coach_node coach_llm coach_batch
  end.

(** The completion client of a handler. *)
Definition llm_of (h : handler) : Graph.llm_t :=
  match h with
  | ProfileAnalyzer => profile_llm
  | JobFit => job_fit_llm
  | ContentEnhancer => content_llm
  | CareerCoach => coach_llm
  end.

End Nodes.

(** The node a table of nodes has under a name. *)
Definition node_named (table : list (string * (dict -> dict))) (name : string)
    : option (dict -> dict) :=
  option_map snd (find (fun entry => String.eqb name (fst entry)) table).

(** The chat history as a handler reads it: the career coach replaces a
    false one by the empty list. *)
Definition history_read (h : handler) (chat_history : pyval) : pyval :=
  match h with
  | CareerCoach => Agents.py_or chat_history (PList [])
  | _ => chat_history
  end.

(** The classification of the state, when there is one with a true
    intent, names one of the four handlers. *)
Definition classification_valid (state : dict) : bool :=
  match lookup state "intent_classification" with
  | None => true
  | Some (PDict c) =>
      negb (truthy (get c "intent")) || py_in (get c "intent") valid_intents
  | Some v => negb (truthy v)
  end.


(** A chat state as the application prepares it. *)
Definition fresh_chat_state : dict :=
  [("command", PStr "chat");
   ("user_question", PStr "What skills should I develop?");
   ("session_id", PStr "s1");
   ("chat_history", PList []);
   ("job_description", PStr "Data engineer");
   ("profile", PDict [("name", PStr "Ada")])].

End FlowSpec.

(** ** The chat history *)

Module HistorySpec.
Import Py History.

Definition is_message (msg : entry) : Prop :=
  match msg with Message _ => True | Object _ _ => False end.

(** A message object of the graph library, as the functions read it. *)
Definition human_message (content : string) : entry :=
  Object [("type", PStr "human"); ("content", PStr content)] content.

End HistorySpec.

(** ** The scraped profile, once more *)

Module SanitizeSpec.
Import Py Scraper.

(** A value [sanitize_profile] stores is true or the default of its key. *)
Definition settled (target_key : string) (v : pyval) : Prop :=
  truthy v = true \/
  v = (if existsb (String.eqb target_key) list_fields then PList [] else PStr "").

(** A scraped record with a name, a last name and a first name, stored
    in that order, and an empty full name. *)
Definition ada : dict :=
  [("name", PStr "Countess"); ("lastName", PStr "Lovelace");
   ("firstName", PStr "Ada"); ("fullName", PStr "")].

End SanitizeSpec.

(** ** The scraping run *)

Module RunSpec.
Import Py ScraperRun.

(** The seconds slept, and the requests sent, in a list of events. *)
Fixpoint slept (l : list event) : Z :=
  match l with
  | [] => 0
  | Slept seconds :: rest => seconds + slept rest
  | _ :: rest => slept rest
  end.

Fixpoint requests (l : list event) : nat :=
  match l with
  | [] => 0
  | Slept _ :: rest => requests rest
  | _ :: rest => S (requests rest)
  end.

(** The payload is one of the four formats, around this URL. *)
Definition carries (payload : pyval) (url : string) : Prop :=
  payload = PDict [("profileUrls", PList [PStr url])] \/
  payload = PDict [("urls", PList [PStr url])] \/
  payload = PDict [("startUrls", PList [PDict [("url", PStr url)]])] \/
  payload = PDict [("profileUrl", PStr url)].

(** Whatever the world, the computation only adds events, and each one it
    adds passes [P]. *)
Definition emits {A} (P : event -> Prop) (c : io A) : Prop :=
  forall w, exists new,
    events (snd (c w)) = (new ++ events w)%list /\ Forall P new.

Definition is_get (e : event) : Prop :=
  match e with Got _ => True | _ => False end.

(** A request is a GET, or a POST of a payload around [url]. *)
Definition sends (url : string) (e : event) : Prop :=
  match e with
  | Slept _ => False
  | Got _ => True
  | Posted _ payload => carries payload url
  end.

(** A POST carries the cleaned form of [u]. *)
Definition posts_cleaned (u : string) (e : event) : Prop :=
  match e with
  | Posted _ payload =>
      exists cleaned,
        ProfileUrl.clean_linkedin_url (PStr u) = Ok cleaned /\ carries payload cleaned
  | _ => True
  end.

(** An event of waiting: a sleep of the polling interval, or a GET. *)
Definition waits (e : event) : Prop :=
  e = Slept poll_interval \/ is_get e.

(** What [wait_for_run_completion] returns: the first record of a dataset
    that [network] served with status 200, or a failure with its text. *)
Definition dataset_item (network : list event -> event -> result response)
    (result : pyval) : Prop :=
  exists first rest url past response,
    result = PDict [("success", PBool true); ("data", first)] /\
    network past (Got url) = Ok response /\
    status_code response = 200%Z /\
    json response = Ok (PList (first :: rest)).

Definition failure (result : pyval) : Prop :=
  exists text others,
    result = PDict (("success", PBool false) :: ("error", PStr text) :: others).

(** A value some run of the computation returns. *)
Definition returned {A} (c : io A) (a : A) : Prop :=
  exists w w', c w = (Ok a, w').

(** A world in which nothing has happened yet. *)
Definition fresh : world := mkWorld PNone [].

(** A scraping service that works: the actor is there and its schema asks
    for [startUrls], the run is accepted and has succeeded by the first
    poll, and the dataset holds one record. *)
Definition ok (body : pyval) (code : Z) : result response :=
  Ok (mkResponse code "body" (Ok body) (Ok tt)).

Definition scraped_record : pyval :=
  PDict [("firstName", PStr "Ada"); ("lastName", PStr "Lovelace");
         ("title", PStr "Engineer")].

Definition working_service (past : list event) (e : event) : result response :=
  match e with
  | Posted _ _ => ok (PDict [("data", PDict [("id", PStr "run1")])]) 201
  | Got url =>
      if contains url "/items" then ok (PList [scraped_record]) 200
      else if contains url "/runs/" then
        ok (PDict [("data", PDict [("status", PStr "SUCCEEDED");
                                   ("defaultDatasetId", PStr "ds1")])]) 200
      else
        ok (PDict [("data",
                    PDict [("defaultRunOptions",
                            PDict [("inputSchema",
                                    PDict [("properties",
                                            PDict [("startUrls", PDict [])])])])])])
          200
  | Slept _ => Raise (mkExn "ConnectionError" "no request")
  end.

(** A network that is down. *)
Definition network_down (past : list event) (e : event) : result response :=
  Raise (mkExn "ConnectionError" "network is unreachable").

End RunSpec.

(** * Properties *)

(** ** Python values *)

Module PyFacts.
Import Py.

Lemma lookup_setitem_same (d : dict) (k : string) (v : pyval) :
  lookup (setitem d k v) k = Some v.
Proof.
  induction d as [|[k' v'] r IH]; simpl.
  - rewrite String.eqb_refl. reflexivity.
  - destruct (String.eqb k k') eqn:E; simpl; rewrite E; auto.
Qed.

Lemma lookup_setitem_other (d : dict) (k k' : string) (v : pyval) :
  String.eqb k' k = false -> lookup (setitem d k v) k' = lookup d k'.
Proof.
  intros Hne. induction d as [|[k0 v0] r IH]; simpl.
  - rewrite Hne. reflexivity.
  - destruct (String.eqb k k0) eqn:E; simpl.
    + apply String.eqb_eq in E. subst k0. rewrite Hne. reflexivity.
    + destruct (String.eqb k' k0); auto.
Qed.

Lemma take_take (n : nat) (s : string) : take n (take n s) = take n s.
Proof.
  revert s. induction n as [|n IH]; intros [|c r]; simpl; try reflexivity.
  rewrite IH. reflexivity.
Qed.

Lemma take_length (n : nat) (s : string) : String.length (take n s) <= n.
Proof.
  revert s. induction n as [|n IH]; intros [|c r]; simpl; try lia.
  specialize (IH r). lia.
Qed.

Lemma list_last_short {A} (n : nat) (l : list A) :
  List.length l <= n -> list_last n l = l.
Proof.
  intros H. unfold list_last.
  replace (List.length l - n) with 0 by lia. reflexivity.
Qed.

Lemma list_last_length {A} (n : nat) (l : list A) :
  List.length (list_last n l) <= n.
Proof. unfold list_last. rewrite length_skipn. lia. Qed.

Lemma list_last_map {A B} (f : A -> B) (n : nat) (l : list A) :
  list_last n (map f l) = map f (list_last n l).
Proof. unfold list_last. rewrite length_map, skipn_map. reflexivity. Qed.

(** [repr] as Python prints it: nested containers, a text with a single
    quote, a control character, floats and an int. *)
Example repr_nested :
  py_repr (PList [PDict [("title", PStr "it's"); ("n", PInt (-3))]; PFloat 70 2;
                  PFloat 5 0; PFloat (-125) 4; PNone; PBool true;
                  PStr (String (ascii_of_nat 10) "x")])
  = "[{'title': " ++ dquote ++ "it's" ++ dquote ++
    ", 'n': -3}, 0.7, 5.0, -0.0125, None, True, '\nx']".
Proof. reflexivity. Qed.

(** Floats at the two ends of the positional form, and beyond them. *)
Example repr_exponents :
  map py_repr [PFloat 1 4; PFloat 1 5; PFloat (-15) 8;
               PFloat 1000000000000000 0; PFloat 10000000000000000 0;
               PFloat 12500000000000000000000 0; PFloat 0 3]
  = ["0.0001"; "1e-05"; "-1.5e-07"; "1000000000000000.0"; "1e+16"; "1.25e+22";
     "0.0"].
Proof. reflexivity. Qed.

Example lower_strip_contains :
  lower "  What Are MY Strengths? " = "  what are my strengths? " /\
  strip "  What Are MY Strengths? " = "What Are MY Strengths?" /\
  contains "what are my strengths?" "what are my" = true /\
  contains "what are my strengths?" "match" = false.
Proof. repeat split; reflexivity. Qed.

End PyFacts.

(** ** The router *)

Module RouterFacts.
Import Py Routing RouterSpec.

Lemma slot_answers_spec (state : dict) (k : string) :
  slot_typed state k = true ->
  exists b, slot_answers state k = Ok b /\ (b = true <-> holds_answer state k).
Proof.
  unfold slot_typed, slot_answers, holds_answer.
  destruct (lookup state k) as [v|] eqn:Hk.
  - destruct (truthy v) eqn:Ht; simpl; intros Hd.
    + destruct v; try discriminate. simpl.
      eexists; split; [reflexivity|]. split.
      * intros Hb. exists d. repeat split; auto.
        intros ->. discriminate.
      * intros (r & Hr & _ & Heq). inversion Hr; subst. exact Heq.
    + exists false. split; [reflexivity|]. split; [discriminate|].
      intros (r & Hr & Hne & _). inversion Hr; subst.
      destruct r; [contradiction | discriminate].
  - intros _. exists false. split; [reflexivity|]. split; [discriminate|].
    intros (r & Hr & _). discriminate.
Qed.

Lemma answered_spec (state : dict) :
  results_typed state = true ->
  exists b, answered state = Ok b /\
            (b = true <-> exists k, In k result_slots /\ holds_answer state k).
Proof.
  unfold results_typed, result_slots. simpl.
  rewrite !andb_true_iff. intros (H1 & H2 & H3 & H4 & _).
  destruct (slot_answers_spec state _ H1) as (b1 & E1 & S1).
  destruct (slot_answers_spec state _ H2) as (b2 & E2 & S2).
  destruct (slot_answers_spec state _ H3) as (b3 & E3 & S3).
  destruct (slot_answers_spec state _ H4) as (b4 & E4 & S4).
  unfold answered, or_else. rewrite E1, E2, E3, E4. simpl.
  exists (b1 || (b2 || (b3 || b4))). split.
  - destruct b1, b2, b3, b4; reflexivity.
  - rewrite !orb_true_iff. rewrite S1, S2, S3, S4. split.
    + intros [H | [H | [H | H]]]; eexists; (split; [|exact H]); simpl; auto.
    + intros (k & Hin & H). simpl in Hin.
      destruct Hin as [<- | [<- | [<- | [<- | []]]]]; auto.
Qed.

Lemma classified_intent_spec (state : dict) :
  classification_typed state = true ->
  exists o, classified_intent state = Ok o /\ o <> Some END /\
    (forall c, lookup state "intent_classification" = Some (PDict c) ->
               truthy (get c "intent") = true -> o = Some (get c "intent")).
Proof.
  unfold classification_typed, classified_intent.
  destruct (lookup state "intent_classification") as [v|] eqn:Hc.
  - destruct v; simpl; intros H;
      try (apply negb_true_iff in H; rewrite H);
      try (exists None; repeat split; [discriminate | intros c' Hc'; discriminate]).
    destruct d as [|p d'].
    + simpl. exists None. repeat split; [discriminate|].
      intros c' Hc'. inversion Hc'; subst. discriminate.
    + simpl. fold (get (p :: d') "intent").
      destruct (truthy (get (p :: d') "intent")) eqn:Ht.
      * eexists; split; [reflexivity|]. split.
        -- intros Heq. inversion Heq as [Heq']. rewrite Heq' in H. discriminate.
        -- intros c' Hc' _. inversion Hc'; subst. reflexivity.
      * exists None. repeat split; [discriminate|].
        intros c' Hc' Ht'. inversion Hc'; subst. congruence.
  - intros _. exists None. repeat split; [discriminate|]. intros c' Hc'; discriminate.
Qed.

End RouterFacts.

Module RouterClaims.
Import Py Routing RouterSpec RouterFacts.

(** C1. In a chat turn with neither [error] nor [force_end] set, the router
    returns END exactly when one of the four result slots holds a non-empty
    result whose [user_question] equals the state's; and when no slot does
    (only stale results are there) while a classification with an intent is
    present, the router returns that intent, which is not END. *)
Theorem router_terminates_iff_answered (state : dict) :
  has_key state "error" = false ->
  truthy (get state "force_end") = false ->
  get state "command" = PStr "chat" ->
  results_typed state = true ->
  classification_typed state = true ->
  (router state = Ok END <->
   exists k, In k result_slots /\ holds_answer state k) /\
  (forall c,
     ~ (exists k, In k result_slots /\ holds_answer state k) ->
     lookup state "intent_classification" = Some (PDict c) ->
     truthy (get c "intent") = true ->
     router state = Ok (get c "intent") /\ get c "intent" <> END).
Proof.
  intros Herr Hforce Hcmd Hres Hcls.
  destruct (answered_spec state Hres) as (b & Hans & Hb).
  destruct (classified_intent_spec state Hcls) as (o & Hint & Hend & Ho).
  assert (Hrouter : router state =
            if b then Ok END
            else match o with Some i => Ok i | None => Ok (PStr "career_coach_agent") end).
  { unfold router. rewrite Herr, Hforce, Hcmd. simpl. rewrite Hans. simpl.
    destruct b; [reflexivity|]. rewrite Hint. reflexivity. }
  split.
  - rewrite Hrouter, <- Hb. destruct b.
    + split; reflexivity.
    + split; [|discriminate]. intros H. exfalso.
      destruct o as [i|]; [|discriminate H].
      inversion H; subst. apply Hend. reflexivity.
  - intros c Hno Hc Ht. rewrite Hrouter.
    destruct b; [exfalso; apply Hno, Hb; reflexivity|].
    rewrite (Ho c Hc Ht). split; [reflexivity|].
    intros Heq. apply Hend. rewrite (Ho c Hc Ht), Heq. reflexivity.
Qed.

Lemma stale_state_not_answered :
  ~ (exists k, In k result_slots /\ holds_answer stale_state k).
Proof.
  intros (k & Hin & r & Hr & _ & Heq). simpl in Hin.
  destruct Hin as [<- | [<- | [<- | [<- | []]]]];
    vm_compute in Hr; inversion Hr; subst; vm_compute in Heq; discriminate.
Qed.

(** The stale job-fit result does not end the turn: the router sends it to
    the classified handler. *)
Lemma router_terminates_iff_answered_witness :
  router stale_state = Ok (PStr "job_fit_agent").
Proof.
  exact (proj1 (proj2 (router_terminates_iff_answered stale_state
                         eq_refl eq_refl eq_refl eq_refl eq_refl)
                  _ stale_state_not_answered eq_refl eq_refl)).
Defined.

(** C4. When the state has an [error] key, or a true [force_end], the
    router returns END whatever else the state holds. *)
Theorem router_terminates_on_error (state : dict) :
  has_key state "error" = true \/ truthy (get state "force_end") = true ->
  router state = Ok END.
Proof.
  intros H. unfold router.
  destruct H as [-> | ->]; [reflexivity|].
  rewrite orb_true_r. reflexivity.
Qed.

Lemma router_terminates_on_error_witness :
  has_key errored_state "error" = true /\ router errored_state = Ok END.
Proof.
  split; [reflexivity|].
  apply router_terminates_on_error. left. reflexivity.
Defined.

End RouterClaims.

(** ** The intent classifier *)

Module ClassifierFacts.
Import Py IntentClassifier ClassifierSpec PyFacts.

Lemma fallback_total (q : string) (sid : pyval) :
  exists reasoning,
    _fallback_classification (PStr q) sid =
    Ok (classification (expected_intent q) (expected_confidence q) reasoning sid).
Proof.
  unfold _fallback_classification, expected_intent, expected_confidence, first_group,
    keyword_groups.
  cbn [find snd fst option_map obj_lower bind].
  destruct (any_in (lower q) profile_keywords); [eexists; reflexivity|].
  destruct (any_in (lower q) job_fit_keywords); [eexists; reflexivity|].
  destruct (any_in (lower q) content_keywords); eexists; reflexivity.
Qed.

(** *** Lower-casing and substring search, against the claim's terms *)

Lemma prefix_cut (needle hay : string) :
  prefix needle hay = true <-> exists rest, hay = needle ++ rest.
Proof.
  revert hay. induction needle as [|c needle IH]; intros hay.
  - split; [intros _; exists hay; reflexivity | intros _; destruct hay; reflexivity].
  - destruct hay as [|x hay]; cbn [prefix].
    + split; [discriminate | intros (rest & H); discriminate H].
    + destruct (ascii_dec c x) as [->|Hne].
      * rewrite IH. split; intros (rest & H); exists rest.
        -- rewrite H. reflexivity.
        -- cbn [append] in H. injection H as H. exact H.
      * split; [discriminate|]. intros (rest & H). cbn [append] in H.
        injection H as H _. congruence.
Qed.

Lemma contains_cut (hay needle : string) :
  contains hay needle = true <-> exists before after, hay = before ++ needle ++ after.
Proof.
  induction hay as [|x hay IH]; cbn [contains].
  - rewrite orb_false_r, prefix_cut. split.
    + intros (rest & H). exists "", rest. exact H.
    + intros (before & after & H). destruct before; [|discriminate H].
      exists after. exact H.
  - rewrite orb_true_iff, prefix_cut, IH. split.
    + intros [(rest & H) | (before & after & H)].
      * exists "", rest. exact H.
      * exists (String x before), after. rewrite H. reflexivity.
    + intros (before & after & H). destruct before as [|b before].
      * left. exists after. exact H.
      * right. cbn [append] in H. injection H as _ H. exists before, after. exact H.
Qed.

Lemma lower_app (a b : string) : lower (a ++ b) = lower a ++ lower b.
Proof. induction a as [|c a IH]; [reflexivity|]. cbn [append lower]. rewrite IH. reflexivity. Qed.

Lemma lower_split (q x y : string) :
  lower q = x ++ y -> exists q1 q2, q = q1 ++ q2 /\ lower q1 = x /\ lower q2 = y.
Proof.
  revert q. induction x as [|c x IH]; intros q H.
  - exists "", q. repeat split. exact H.
  - destruct q as [|a q]; [discriminate H|]. cbn [lower append] in H.
    injection H as Hc H. destruct (IH q H) as (q1 & q2 & -> & H1 & H2).
    exists (String a q1), q2. repeat split; [|exact H2].
    cbn [lower]. rewrite Hc, H1. reflexivity.
Qed.

(** On a plain letter, lower-casing sends to it the letter itself and
    its capital, and nothing else. *)
Lemma lower_char_is (c k : ascii) :
  plain k = true ->
  (lower_char c = k <-> Ascii.eqb c k || capital_of c k = true).
Proof.
  unfold plain, lower_char, capital_of, code. intros Hk.
  pose proof (nat_ascii_bounded c) as Hc.
  assert (Hplain : nat_of_ascii k < 65 \/ 90 < nat_of_ascii k < 128).
  { apply orb_true_iff in Hk. destruct Hk as [Hk | Hk].
    - left. apply Nat.ltb_lt. exact Hk.
    - right. apply andb_true_iff in Hk. destruct Hk as (H1 & H2).
      apply Nat.ltb_lt in H1. apply Nat.ltb_lt in H2. lia. }
  clear Hk.
  rewrite orb_true_iff, Ascii.eqb_eq, !andb_true_iff, !Nat.leb_le, Nat.eqb_eq.
  destruct (((65 <=? nat_of_ascii c) && (nat_of_ascii c <=? 90)
             || (192 <=? nat_of_ascii c) && (nat_of_ascii c <=? 222)
                && negb (nat_of_ascii c =? 215))%nat) eqn:Hcond.
  - apply orb_true_iff in Hcond. rewrite !andb_true_iff, !Nat.leb_le in Hcond.
    split.
    + intros H. apply (f_equal nat_of_ascii) in H.
      rewrite nat_ascii_embedding in H by lia. right. lia.
    + intros [-> | ((H1 & H2) & H3)]; [lia|].
      rewrite <- H3. apply ascii_nat_embedding.
  - apply orb_false_iff in Hcond. destruct Hcond as (Hcap & _).
    split; [intros ->; left; reflexivity|].
    intros [-> | ((H1 & H2) & _)]; [reflexivity|].
    apply andb_false_iff in Hcap. rewrite !Nat.leb_gt in Hcap. lia.
Qed.

Lemma spells_lower (keyword : string) :
  plain_text keyword = true ->
  forall stretch, lower stretch = keyword <-> spells stretch keyword = true.
Proof.
  induction keyword as [|k keyword IH]; intros Hk stretch.
  - destruct stretch; cbn [lower spells]; split;
      (reflexivity || discriminate).
  - cbn [plain_text] in Hk. apply andb_true_iff in Hk. destruct Hk as (Hk & Hrest).
    destruct stretch as [|c stretch]; cbn [lower spells]; [split; discriminate|].
    rewrite andb_true_iff, <- (lower_char_is c k Hk), <- (IH Hrest stretch).
    split; [intros H; injection H as H1 H2; split; assumption|].
    intros (-> & ->). reflexivity.
Qed.

(** The embedding's search on the lower-cased question finds a term
    exactly when the question mentions it. *)
Lemma any_in_terms (q : string) (terms : list string) :
  forallb plain_text terms = true ->
  (any_in (lower q) terms = true <-> has_term q terms).
Proof.
  intros Hplain. unfold any_in, has_term, mentions.
  rewrite existsb_exists. rewrite forallb_forall in Hplain.
  split.
  - intros (keyword & Hin & Hc). exists keyword. split; [exact Hin|].
    apply contains_cut in Hc. destruct Hc as (x & y & Hc).
    destruct (lower_split _ _ _ Hc) as (before & rest & -> & _ & Hrest).
    destruct (lower_split _ _ _ Hrest) as (stretch & after & -> & Hs & _).
    exists before, stretch, after. split; [reflexivity|].
    apply (spells_lower keyword (Hplain keyword Hin)). exact Hs.
  - intros (keyword & Hin & before & stretch & after & -> & Hs).
    exists keyword. split; [exact Hin|].
    apply contains_cut. exists (lower before), (lower after).
    rewrite !lower_app.
    apply (spells_lower keyword (Hplain keyword Hin)) in Hs. rewrite Hs. reflexivity.
Qed.

Section Agent.

Variable llm : string -> string -> result pyval.
Variable json_loads : string -> result pyval.

(** Whatever the inner [try] returns is a classification marked as a success. *)
Lemma parse_and_validate_shape (content sid v : pyval) :
  parse_and_validate json_loads content sid = Ok v ->
  exists i c r,
    v = PDict [("intent", i); ("confidence", c); ("reasoning", r);
               ("session_id", sid); ("success", PBool true)].
Proof.
  unfold parse_and_validate.
  destruct (re_search_braces content) as [m|e]; cbn [bind]; [|discriminate].
  destruct (match m with Some s => json_loads s | None => json_loads (py_str content) end)
    as [p|e]; cbn [bind]; [|discriminate].
  destruct (obj_get p "intent") as [i|e]; cbn [bind]; [|discriminate].
  destruct (negb (py_in i valid_intents)); destruct p; cbn [bind]; try discriminate.
  - match goal with
    | |- context [getitem ?x "intent"] => destruct (getitem x "intent") as [x'|e]
    end; cbn [bind]; [|discriminate].
    intros H; inversion H; subst. eauto.
  - destruct (getitem d "intent") as [x|e]; cbn [bind]; [|discriminate].
    intros H; inversion H; subst. eauto.
Qed.

(** A parsed value that is not an object makes the inner [try] raise
    something other than [JSONDecodeError]. *)
Lemma parse_and_validate_not_object (content : string) (sid p : pyval) :
  parsed json_loads content = Ok p -> is_dict p = false ->
  exists e, parse_and_validate json_loads (PStr content) sid = Raise e /\
            exn_class e = "AttributeError".
Proof.
  unfold parsed, parse_and_validate. simpl. intros Hp Hd.
  destruct (search_braces content); rewrite Hp; simpl;
    destruct p; try discriminate; simpl; eexists; split; reflexivity.
Qed.

Lemma parse_and_validate_invalid_intent (content : string) (sid : pyval) (d : dict) :
  parsed json_loads content = Ok (PDict d) ->
  py_in (get d "intent") valid_intents = false ->
  parse_and_validate json_loads (PStr content) sid = Ok (defaulted sid).
Proof.
  unfold parsed, parse_and_validate. simpl. intros Hp Hv.
  destruct (search_braces content); rewrite Hp; simpl;
    unfold get in Hv; rewrite Hv; simpl;
    unfold getitem, get_or;
    rewrite ?lookup_setitem_same;
    rewrite !(lookup_setitem_other _ "reasoning") by reflexivity;
    rewrite ?lookup_setitem_same;
    rewrite !(lookup_setitem_other _ "confidence") by reflexivity;
    rewrite ?lookup_setitem_same; reflexivity.
Qed.

Lemma parse_and_validate_valid_intent (content : string) (sid : pyval) (d : dict) :
  parsed json_loads content = Ok (PDict d) ->
  py_in (get d "intent") valid_intents = true ->
  parse_and_validate json_loads (PStr content) sid
  = Ok (PDict [("intent", get d "intent");
               ("confidence", get_or d "confidence" (PFloat 8 1));
               ("reasoning",
                get_or d "reasoning" (PStr "Classified based on question content"));
               ("session_id", sid); ("success", PBool true)]).
Proof.
  unfold parsed, parse_and_validate. cbn [re_search_braces bind py_str].
  intros Hp Hv.
  assert (Hkey : exists i, lookup d "intent" = Some i).
  { unfold get, get_or in Hv. destruct (lookup d "intent") as [i|]; [eauto|].
    discriminate Hv. }
  destruct Hkey as (i & Hi).
  destruct (search_braces content); rewrite Hp; cbn [obj_get obj_get_or bind];
    unfold get in Hv |- *; rewrite Hv; cbn [negb bind];
    unfold getitem, get_or; rewrite Hi; reflexivity.
Qed.

End Agent.

End ClassifierFacts.

Module ClassifierClaims.
Import Py IntentClassifier ClassifierSpec ClassifierFacts Stubs.

(** C3. For every question text the keyword fallback answers; it
    lower-cases the question, so a term counts however it is capitalised;
    the intent is that of the first group, profile analysis, then job
    fit, then content enhancement, one of whose terms the question
    mentions, at confidence 0.7, and career_coach_agent at 0.5 when it
    mentions none.  So a question with a profile-analysis term is
    classified profile_analyzer_agent at 0.7 whatever terms of later
    groups it has. *)
Theorem fallback_takes_first_group (q : string) (sid : pyval) :
  exists d,
    _fallback_classification (PStr q) sid = Ok (PDict d) /\
    (has_term q profile_terms ->
     lookup d "intent" = Some (PStr "profile_analyzer_agent") /\
     lookup d "confidence" = Some (PFloat 7 1)) /\
    (~ has_term q profile_terms -> has_term q job_fit_terms ->
     lookup d "intent" = Some (PStr "job_fit_agent") /\
     lookup d "confidence" = Some (PFloat 7 1)) /\
    (~ has_term q profile_terms -> ~ has_term q job_fit_terms ->
     has_term q content_terms ->
     lookup d "intent" = Some (PStr "content_enhancer_agent") /\
     lookup d "confidence" = Some (PFloat 7 1)) /\
    (~ has_term q profile_terms -> ~ has_term q job_fit_terms ->
     ~ has_term q content_terms ->
     lookup d "intent" = Some (PStr "career_coach_agent") /\
     lookup d "confidence" = Some (PFloat 5 1)).
Proof.
  pose proof (any_in_terms q profile_terms eq_refl) as Hprofile.
  pose proof (any_in_terms q job_fit_terms eq_refl) as Hjob.
  pose proof (any_in_terms q content_terms eq_refl) as Hcontent.
  unfold _fallback_classification. cbn [obj_lower bind].
  change profile_keywords with profile_terms.
  change job_fit_keywords with job_fit_terms.
  change content_keywords with content_terms.
  destruct (any_in (lower q) profile_terms).
  { eexists. split; [reflexivity|]. split; [intros _; split; reflexivity|].
    assert (Hp : has_term q profile_terms) by (apply Hprofile; reflexivity).
    repeat split; intros; contradiction. }
  assert (Hnp : ~ has_term q profile_terms)
    by (intros H; apply Hprofile in H; discriminate H).
  destruct (any_in (lower q) job_fit_terms).
  { eexists. split; [reflexivity|]. split; [intros H; contradiction|].
    split; [intros _ _; split; reflexivity|].
    assert (Hj : has_term q job_fit_terms) by (apply Hjob; reflexivity).
    split; intros; contradiction. }
  assert (Hnj : ~ has_term q job_fit_terms)
    by (intros H; apply Hjob in H; discriminate H).
  destruct (any_in (lower q) content_terms).
  { eexists. split; [reflexivity|]. split; [intros H; contradiction|].
    split; [intros _ H; contradiction|].
    split; [intros _ _ _; split; reflexivity|].
    assert (Hc : has_term q content_terms) by (apply Hcontent; reflexivity).
    intros; contradiction. }
  assert (Hnc : ~ has_term q content_terms)
    by (intros H; apply Hcontent in H; discriminate H).
  eexists. split; [reflexivity|]. split; [intros H; contradiction|].
  split; [intros _ H; contradiction|].
  split; [intros _ _ H; contradiction|].
  intros _ _ _. split; reflexivity.
Qed.

(** A question in capitals: "ANALYZE" is found only once the question is
    lower-cased, and wins over the job-fit and content terms after it. *)
Lemma fallback_takes_first_group_witness :
  exists d,
    _fallback_classification
      (PStr "ANALYZE my Headline to MATCH the job") (PStr "s1") = Ok (PDict d) /\
    lookup d "intent" = Some (PStr "profile_analyzer_agent") /\
    lookup d "confidence" = Some (PFloat 7 1).
Proof.
  destruct (fallback_takes_first_group "ANALYZE my Headline to MATCH the job"
              (PStr "s1")) as (d & Hd & Hp & _).
  exists d. split; [exact Hd|]. apply Hp.
  exists "analyze". split; [simpl; auto|].
  exists "", "ANALYZE", " my Headline to MATCH the job". split; reflexivity.
Defined.

(** C6, as stated, fails: for "analyze my strengths" and a response whose
    object names an unknown agent, [classify_intent] answers
    career_coach_agent, while the keyword fallback answers
    profile_analyzer_agent. *)
Lemma invalid_intent_is_not_keyword_fallback :
  parsed json_loads_sample unknown_agent_response
    = Ok (PDict [("intent", PStr "resume_agent")]) /\
  py_in (PStr "resume_agent") valid_intents = false /\
  classify_intent (llm_answers unknown_agent_response) json_loads_sample
    (PStr "analyze my strengths") (PStr "s1")
    = Ok (classification "career_coach_agent" (PFloat 5 1)
            "Defaulted to career coach due to unclear intent" (PStr "s1")) /\
  _fallback_classification (PStr "analyze my strengths") (PStr "s1")
    = Ok (classification "profile_analyzer_agent" (PFloat 7 1)
            "Fallback: Contains profile analysis keywords" (PStr "s1")) /\
  classify_intent (llm_answers unknown_agent_response) json_loads_sample
    (PStr "analyze my strengths") (PStr "s1")
  <> _fallback_classification (PStr "analyze my strengths") (PStr "s1").
Proof.
  repeat split; try reflexivity.
  vm_compute. discriminate.
Qed.

(** C9, as stated, fails: a malformed parsed object does not degrade to
    the keyword fallback.  For "analyze my strengths" and the response
    "{}", an object without intent, [classify_intent] answers
    career_coach_agent at 0.5, while the keyword fallback answers
    profile_analyzer_agent at 0.7. *)
Lemma malformed_object_is_not_keyword_fallback :
  parsed json_loads_objects empty_object_response = Ok (PDict []) /\
  classify_intent (llm_answers empty_object_response) json_loads_objects
    (PStr "analyze my strengths") (PStr "s1")
    = Ok (PDict [("intent", PStr "career_coach_agent");
                 ("confidence", PFloat 5 1);
                 ("reasoning",
                  PStr "Defaulted to career coach due to unclear intent");
                 ("session_id", PStr "s1"); ("success", PBool true)]) /\
  _fallback_classification (PStr "analyze my strengths") (PStr "s1")
    = Ok (PDict [("intent", PStr "profile_analyzer_agent");
                 ("confidence", PFloat 7 1);
                 ("reasoning",
                  PStr "Fallback: Contains profile analysis keywords");
                 ("session_id", PStr "s1"); ("success", PBool true)]) /\
  classify_intent (llm_answers empty_object_response) json_loads_objects
    (PStr "analyze my strengths") (PStr "s1")
  <> _fallback_classification (PStr "analyze my strengths") (PStr "s1").
Proof.
  repeat split; try reflexivity.
  vm_compute. discriminate.
Qed.

Section Agent.

Variable llm : string -> string -> result pyval.
Variable json_loads : string -> result pyval.

(** C6, amended. When the response parses to an object whose declared
    intent is not one of the four handler names, [classify_intent] does not
    run the keyword fallback: it answers career_coach_agent at confidence
    0.5 with the reasoning "Defaulted to career coach due to unclear
    intent", whatever the question says. *)
Theorem invalid_intent_defaults_to_career_coach
    (q sid : pyval) (content : string) (d : dict) :
  llm system_prompt (user_prompt q) = Ok (PStr content) ->
  parsed json_loads content = Ok (PDict d) ->
  py_in (get d "intent") valid_intents = false ->
  classify_intent llm json_loads q sid
  = Ok (classification "career_coach_agent" (PFloat 5 1)
          "Defaulted to career coach due to unclear intent" sid).
Proof.
  intros Hllm Hp Hv. unfold classify_intent. rewrite Hllm. cbn [bind].
  rewrite (parse_and_validate_invalid_intent json_loads content sid d Hp Hv).
  reflexivity.
Qed.

(** C9, amended. For every question text and session id
    [classify_intent] returns (it does not raise) a classification whose
    [success] flag is set.  A completion call that raises, a response
    that does not parse, and a parsed value that is not an object each
    give the keyword fallback's classification.  A parsed object does
    not: when the intent it declares is missing or not one of the four
    handler names, the answer is career_coach_agent at 0.5 with the
    reasoning "Defaulted to career coach due to unclear intent"; when it
    is one of the four, the answer keeps it, with the object's confidence
    and reasoning or 0.8 and "Classified based on question content". *)
Theorem classify_intent_never_raises (q : string) (sid : pyval) :
  (exists d, classify_intent llm json_loads (PStr q) sid = Ok (PDict d) /\
             lookup d "success" = Some (PBool true)) /\
  (forall e, llm system_prompt (user_prompt (PStr q)) = Raise e ->
     classify_intent llm json_loads (PStr q) sid
     = _fallback_classification (PStr q) sid) /\
  (forall content e,
     llm system_prompt (user_prompt (PStr q)) = Ok (PStr content) ->
     parsed json_loads content = Raise e ->
     classify_intent llm json_loads (PStr q) sid
     = _fallback_classification (PStr q) sid) /\
  (forall content p,
     llm system_prompt (user_prompt (PStr q)) = Ok (PStr content) ->
     parsed json_loads content = Ok p -> is_dict p = false ->
     classify_intent llm json_loads (PStr q) sid
     = _fallback_classification (PStr q) sid) /\
  (forall content d,
     llm system_prompt (user_prompt (PStr q)) = Ok (PStr content) ->
     parsed json_loads content = Ok (PDict d) ->
     py_in (get d "intent") valid_intents = false ->
     classify_intent llm json_loads (PStr q) sid
     = Ok (PDict [("intent", PStr "career_coach_agent");
                  ("confidence", PFloat 5 1);
                  ("reasoning",
                   PStr "Defaulted to career coach due to unclear intent");
                  ("session_id", sid); ("success", PBool true)])) /\
  (forall content d,
     llm system_prompt (user_prompt (PStr q)) = Ok (PStr content) ->
     parsed json_loads content = Ok (PDict d) ->
     py_in (get d "intent") valid_intents = true ->
     classify_intent llm json_loads (PStr q) sid
     = Ok (PDict [("intent", get d "intent");
                  ("confidence", get_or d "confidence" (PFloat 8 1));
                  ("reasoning",
                   get_or d "reasoning"
                     (PStr "Classified based on question content"));
                  ("session_id", sid); ("success", PBool true)])).
Proof.
  destruct (fallback_total q sid) as (r & Hf).
  split; [|split; [|split; [|split; [|split]]]].
  - unfold classify_intent.
    destruct (llm system_prompt (user_prompt (PStr q))) as [content|e]; cbn [bind try_except].
    + destruct (parse_and_validate json_loads content sid) as [v|e] eqn:Hpv;
        cbn [except_json_decode try_except].
      * destruct (parse_and_validate_shape json_loads _ _ _ Hpv) as (i & c & r' & ->).
        eexists; split; reflexivity.
      * destruct (String.eqb (exn_class e) "JSONDecodeError");
          rewrite Hf; cbn [try_except]; eexists; split; reflexivity.
    + rewrite Hf. eexists; split; reflexivity.
  - intros e He. unfold classify_intent. rewrite He. reflexivity.
  - intros content e Hllm Hp. unfold classify_intent. rewrite Hllm. cbn [bind].
    assert (Hpv : parse_and_validate json_loads (PStr content) sid = Raise e).
    { unfold parsed in Hp. unfold parse_and_validate. cbn [re_search_braces bind py_str].
      destruct (search_braces content); rewrite Hp; reflexivity. }
    rewrite Hpv. cbn [except_json_decode].
    destruct (String.eqb (exn_class e) "JSONDecodeError"); rewrite Hf; reflexivity.
  - intros content p Hllm Hp Hd. unfold classify_intent. rewrite Hllm. cbn [bind].
    destruct (parse_and_validate_not_object json_loads content sid p Hp Hd)
      as (e & -> & He).
    cbn [except_json_decode]. rewrite He. cbn [String.eqb Ascii.eqb Bool.eqb].
    rewrite Hf. reflexivity.
  - intros content d Hllm Hp Hv. unfold classify_intent. rewrite Hllm. cbn [bind].
    rewrite (parse_and_validate_invalid_intent json_loads content sid d Hp Hv).
    reflexivity.
  - intros content d Hllm Hp Hv. unfold classify_intent. rewrite Hllm. cbn [bind].
    rewrite (parse_and_validate_valid_intent json_loads content sid d Hp Hv).
    reflexivity.
Qed.

End Agent.

(** With the unknown-agent response the classifier defaults to the career
    coach, also for a question full of profile keywords. *)
Lemma invalid_intent_defaults_to_career_coach_witness :
  classify_intent (llm_answers unknown_agent_response) json_loads_sample
    (PStr "analyze my strengths") (PStr "s1")
  = Ok (classification "career_coach_agent" (PFloat 5 1)
          "Defaulted to career coach due to unclear intent" (PStr "s1")).
Proof.
  apply (invalid_intent_defaults_to_career_coach
           (llm_answers unknown_agent_response) json_loads_sample
           (PStr "analyze my strengths") (PStr "s1") unknown_agent_response
           [("intent", PStr "resume_agent")]); reflexivity.
Defined.

(** With the completion service down the classifier still answers, from
    the keywords; with the response "{}" it answers with the career
    coach. *)
Lemma classify_intent_never_raises_witness :
  classify_intent llm_down json_loads_objects (PStr "analyze my strengths") (PStr "s1")
  = _fallback_classification (PStr "analyze my strengths") (PStr "s1") /\
  classify_intent (llm_answers empty_object_response) json_loads_objects
    (PStr "analyze my strengths") (PStr "s1")
  = Ok (PDict [("intent", PStr "career_coach_agent");
               ("confidence", PFloat 5 1);
               ("reasoning", PStr "Defaulted to career coach due to unclear intent");
               ("session_id", PStr "s1"); ("success", PBool true)]).
Proof.
  split.
  - exact (proj1 (proj2 (classify_intent_never_raises llm_down json_loads_objects
                           "analyze my strengths" (PStr "s1")))
             (mkExn "ConnectionError" "service unavailable") eq_refl).
  - exact (proj1 (proj2 (proj2 (proj2 (proj2
             (classify_intent_never_raises (llm_answers empty_object_response)
                json_loads_objects "analyze my strengths" (PStr "s1"))))))
             empty_object_response [] eq_refl eq_refl eq_refl).
Defined.

End ClassifierClaims.

(** ** The chat handlers *)

Module HandlerFacts.
Import Py Agents HandlerSpec PyFacts.

Lemma handle_chat_unfold (h : handler) llm profile jd q sid hist :
  handle_chat h llm profile jd q sid hist =
  (payload <- payload_of h profile jd q hist ;;
   try_except
     (content <- llm (system_prompt_of h) payload ;;
      message <- obj_strip content ;;
      Ok (match h with
          | CareerCoach => CareerCoachAgent.coach_success message sid q
          | _ => chat_success message (category h) sid q
          end))
     (fun e => Ok (match h with
                   | CareerCoach => CareerCoachAgent.coach_failure e sid
                   | _ => chat_failure (apology_of h) e sid
                   end))).
Proof. destruct h; reflexivity. Qed.

Lemma py_or_list (l : list pyval) : py_or (PList l) (PList []) = PList l.
Proof. destruct l; reflexivity. Qed.

Lemma context_parts_window (assistant : string) (l : list (string * string)) :
  context_parts assistant
    (map chat_message (map (fun m => (fst m, take 150 (snd m))) l))
  = context_parts assistant (map chat_message l).
Proof.
  induction l as [|[r c] l IH]; [reflexivity|].
  cbn [map context_parts fst snd]. rewrite IH.
  unfold context_part, chat_message. cbn [fst snd].
  unfold get_or. cbn [lookup String.eqb Ascii.eqb Bool.eqb obj_take bind py_str].
  rewrite take_take. reflexivity.
Qed.

(** The digest only reads the last six messages, and of each content the
    first 150 characters. *)
Lemma build_conversation_context_window (assistant : string)
    (history : list (string * string)) :
  build_conversation_context assistant (messages (digest_window history))
  = build_conversation_context assistant (messages history).
Proof.
  unfold build_conversation_context, messages, digest_window.
  destruct history as [|m history]; [reflexivity|].
  assert (Hne : list_last 6 (m :: history) <> []).
  { unfold list_last. intros H.
    apply (f_equal (@List.length _)) in H. rewrite length_skipn in H.
    cbn [List.length] in H. lia. }
  destruct (list_last 6 (m :: history)) as [|m' w] eqn:Hw; [contradiction|].
  cbn [truthy map negb obj_last bind obj_iter].
  rewrite (list_last_short 6).
  2:{ change (List.length (map chat_message (map (fun m0 => (fst m0, take 150 (snd m0))) (m' :: w))) <= 6).
      rewrite !length_map, <- Hw. apply list_last_length. }
  change (chat_message (fst m', take 150 (snd m')) ::
          map chat_message (map (fun m0 => (fst m0, take 150 (snd m0))) w))
    with (map chat_message (map (fun m0 => (fst m0, take 150 (snd m0))) (m' :: w))).
  rewrite context_parts_window.
  change (chat_message m :: map chat_message history)
    with (map chat_message (m :: history)).
  rewrite list_last_map, Hw. reflexivity.
Qed.

(** The window has at most six messages, each of at most 150 characters. *)
Lemma digest_window_bounds (history : list (string * string)) :
  List.length (digest_window history) <= 6 /\
  Forall (fun m => String.length (snd m) <= 150) (digest_window history).
Proof.
  unfold digest_window. split.
  - rewrite length_map. apply list_last_length.
  - apply Forall_map. apply Forall_forall. intros m _. apply take_length.
Qed.

Section Entries.

Variable llm : string -> string -> result pyval.

(** With a question and a profile that is a dict, each agent's entry point
    runs its chat handler, whatever its batch mode is. *)
Lemma entries_run_chat_handler (profile : dict) (jd q sid hist : pyval)
    (batch2 : pyval -> pyval -> result pyval)
    (batch3 : pyval -> pyval -> pyval -> result pyval)
    (batch4 : pyval -> pyval -> pyval -> pyval -> result pyval) :
  truthy q = true ->
  ProfileAnalyzerAgent.analyze llm batch2 (PDict profile) sid q hist
  = handle_chat ProfileAnalyzer llm (PDict profile) jd q sid hist /\
  JobFitAgent.analyze llm batch3 (PDict profile) jd sid q hist
  = handle_chat JobFit llm (PDict profile) jd q sid hist /\
  ContentEnhancerAgent.enhance llm batch2 (PDict profile) sid q hist
  = handle_chat ContentEnhancer llm (PDict profile) jd q sid hist /\
  CareerCoachAgent.coach llm batch4 (PDict profile) jd sid PNone q hist
  = handle_chat CareerCoach llm (PDict profile) jd q sid (py_or hist (PList [])).
Proof.
  intros Hq.
  unfold ProfileAnalyzerAgent.analyze, JobFitAgent.analyze,
    ContentEnhancerAgent.enhance, CareerCoachAgent.coach.
  cbn [obj_get_or bind]. rewrite Hq. repeat split; reflexivity.
Qed.

End Entries.

Lemma history_window_all (h : handler) : history_window h.
Proof.
  intros profile jd q history.
  destruct h; cbn [payload_of];
    unfold ProfileAnalyzerAgent.chat_payload, JobFitAgent.chat_payload,
      ContentEnhancerAgent.chat_payload, CareerCoachAgent.chat_payload;
    (destruct profile; try reflexivity); cbn [obj_get_or bind];
    unfold messages; rewrite ?py_or_list;
    unfold ProfileAnalyzerAgent._build_conversation_context,
      JobFitAgent._build_conversation_context,
      ContentEnhancerAgent._build_conversation_context,
      CareerCoachAgent._build_conversation_context;
    fold (messages (digest_window history)); fold (messages history);
    rewrite build_conversation_context_window; reflexivity.
Qed.

Lemma format_experience_window (exps : list pyval) :
  CareerCoachAgent._format_experience (PList (list_take 3 exps))
  = CareerCoachAgent._format_experience (PList exps).
Proof.
  destruct exps as [|x [|y [|z r]]]; reflexivity.
Qed.

Lemma experience_window_coach : experience_window CareerCoach.
Proof.
  intros profile exps jd q hist. cbn [payload_of].
  unfold CareerCoachAgent.chat_payload. cbn [obj_get_or bind]. unfold get_or.
  rewrite !PyFacts.lookup_setitem_same.
  rewrite !(PyFacts.lookup_setitem_other _ "experience") by reflexivity.
  rewrite format_experience_window. reflexivity.
Qed.

(** Positions are shown as "title at company", the first three of them. *)
Lemma format_experience_positions (p : string * string) (ps : list (string * string)) :
  CareerCoachAgent._format_experience
    (PList (map (fun e => position (fst e) (snd e)) (p :: ps)))
  = Ok (join "; " (map (fun e => fst e ++ " at " ++ snd e) (list_take 3 (p :: ps)))).
Proof.
  unfold CareerCoachAgent._format_experience.
  assert (Ht : truthy (PList (map (fun e => position (fst e) (snd e)) (p :: ps))) = true)
    by reflexivity.
  rewrite Ht. cbn [negb obj_take bind obj_iter].
  unfold list_take. rewrite firstn_map, map_map. reflexivity.
Qed.

(** With ten earlier messages the digest has the last six, the long one
    cut at 150 characters. *)
Lemma digest_of_ten_messages :
  CareerCoachAgent._build_conversation_context (messages ten_messages)
  = Ok ("User: m5 | Coach: m6 | User: "
        ++ String.concat "" (repeat "0123456789" 15)
        ++ " | Coach: m8 | User: m9 | Coach: m10").
Proof. reflexivity. Qed.

(** The first half of C2: a completion call that raises is caught, and the
    handler returns a result marked as failed, with its apology as message
    and the error text apart. *)
Lemma chat_failure_is_caught (h : handler)
    (llm : string -> string -> result pyval)
    (profile jd q sid hist : pyval) (payload : string) (e : exn) :
  payload_of h profile jd q hist = Ok payload ->
  llm (system_prompt_of h) payload = Raise e ->
  exists r,
    handle_chat h llm profile jd q sid hist = Ok (PDict r) /\
    lookup r "success" = Some (PBool false) /\
    lookup r "message" = Some (PStr (apology_of h)) /\
    lookup r "error" = Some (PStr (exn_str e)) /\
    lookup r "user_question" = None.
Proof.
  intros Hp Hllm. rewrite handle_chat_unfold, Hp. cbn [bind].
  rewrite Hllm. cbn [bind try_except].
  destruct h; eexists; (split; [reflexivity|]); repeat split; reflexivity.
Qed.

(** *** The payload as a text around one of its parts *)

Lemma text_assoc (a b c : string) : (a ++ b) ++ c = a ++ b ++ c.
Proof. induction a as [|x a IH]; [reflexivity|]. cbn [append]. rewrite IH. reflexivity. Qed.

Lemma around_here (after : string) : around (fun x => x ++ after).
Proof. exists "", after. reflexivity. Qed.

Lemma around_cons (a : string) (g : string -> string) :
  around g -> around (fun x => a ++ g x).
Proof.
  intros (before & after & H). exists (a ++ before), after.
  intros x. rewrite H, text_assoc. reflexivity.
Qed.

Ltac frame :=
  lazymatch goal with
  | |- around (fun x => x ++ ?after) => apply around_here
  | |- around (fun x => ?a ++ @?g x) => apply (around_cons a g); frame
  end.

Lemma shows_around {A} (g : string -> string) (payload : A -> result string)
    (text : A -> string) :
  around g -> (forall a, payload a = Ok (g (text a))) -> shows payload text.
Proof.
  intros (before & after & Hg) H. right. exists before, after.
  intros a. rewrite H, Hg. reflexivity.
Qed.

Lemma around_prompts (name about experience skills jd q : pyval)
    (exp_line skl_line edu_line context : string) :
  (forall h, h <> CareerCoach ->
     around (fun x =>
               match h with
               | ProfileAnalyzer =>
                   ProfileAnalyzerAgent.user_prompt name about experience skills x q
               | JobFit => JobFitAgent.user_prompt name about experience skills jd x q
               | _ => ContentEnhancerAgent.user_prompt name about experience skills x q
               end) /\
     around (fun x =>
               match h with
               | ProfileAnalyzer =>
                   ProfileAnalyzerAgent.user_prompt name about (PStr x) skills context q
               | JobFit =>
                   JobFitAgent.user_prompt name about (PStr x) skills jd context q
               | _ =>
                   ContentEnhancerAgent.user_prompt name about (PStr x) skills context q
               end)) /\
  around (fun x =>
            CareerCoachAgent.user_prompt name about exp_line skl_line edu_line jd x q) /\
  around (fun x =>
            CareerCoachAgent.user_prompt name about x skl_line edu_line jd context q) /\
  around (fun x =>
            CareerCoachAgent.user_prompt name about exp_line skl_line x jd context q).
Proof.
  split; [|split; [|split]].
  - intros h Hh.
    destruct h; try contradiction; split;
      unfold ProfileAnalyzerAgent.user_prompt, JobFitAgent.user_prompt,
        ContentEnhancerAgent.user_prompt;
      cbn [py_str]; frame.
  - unfold CareerCoachAgent.user_prompt. frame.
  - unfold CareerCoachAgent.user_prompt. frame.
  - unfold CareerCoachAgent.user_prompt. frame.
Qed.

(** *** The digest *)

Lemma take_substring (n : nat) (s : string) : take n s = substring 0 n s.
Proof.
  revert s. induction n as [|n IH]; intros [|c r]; cbn [take substring];
    try reflexivity.
  rewrite IH. reflexivity.
Qed.

Lemma context_parts_lines (h : handler) (l : list (string * string)) :
  context_parts (assistant_label h) (map chat_message l)
  = Ok (flat_map (digest_line h) l).
Proof.
  induction l as [|[role content] l IH]; [reflexivity|].
  cbn [map context_parts flat_map]. rewrite IH.
  unfold context_part, chat_message, digest_line. cbn [fst snd].
  unfold get_or. cbn [lookup String.eqb Ascii.eqb Bool.eqb obj_take bind py_str py_eq].
  rewrite take_substring.
  destruct (String.eqb role "user"); [reflexivity|].
  destruct (String.eqb role "assistant"); reflexivity.
Qed.

(** The digest the four agents build is the claim's. *)
Lemma context_digest (h : handler) (history : list (string * string)) :
  build_conversation_context (assistant_label h) (messages history)
  = Ok (digest h history).
Proof.
  unfold build_conversation_context, messages, digest.
  destruct history as [|m history]; [reflexivity|].
  cbn [map truthy negb obj_last bind obj_iter].
  change (chat_message m :: map chat_message history)
    with (map chat_message (m :: history)).
  rewrite list_last_map, context_parts_lines. cbn [bind].
  unfold list_last, join.
  destruct (flat_map (digest_line h) _); reflexivity.
Qed.

Lemma payload_context (h : handler) (profile jd q : pyval)
    (history : list (string * string)) :
  payload_of h profile jd q (messages history)
  = match h with
    | CareerCoach =>
        about <- obj_get_or profile "about" (PStr "Not provided") ;;
        experience <- obj_get_or profile "experience" (PList []) ;;
        skills <- obj_get_or profile "skills" (PList []) ;;
        education <- obj_get_or profile "education" (PList []) ;;
        name <- obj_get_or profile "name" (PStr "User") ;;
        exp_line <- CareerCoachAgent._format_experience experience ;;
        skl_line <- CareerCoachAgent.skills_line skills ;;
        edu_line <- CareerCoachAgent._format_education education ;;
        Ok (CareerCoachAgent.user_prompt name about exp_line skl_line edu_line jd
              (digest h history) q)
    | _ =>
        about <- obj_get_or profile "about" (PStr "") ;;
        experience <- obj_get_or profile "experience" (PList []) ;;
        skills <- obj_get_or profile "skills" (PList []) ;;
        name <- obj_get_or profile "name" (PStr "User") ;;
        Ok (match h with
            | ProfileAnalyzer =>
                ProfileAnalyzerAgent.user_prompt name about experience skills
                  (digest h history) q
            | JobFit =>
                JobFitAgent.user_prompt name about experience skills jd
                  (digest h history) q
            | _ =>
                ContentEnhancerAgent.user_prompt name about experience skills
                  (digest h history) q
            end)
    end.
Proof.
  pose proof (context_digest h history) as Hd.
  destruct h; cbn [payload_of assistant_label] in *;
    unfold ProfileAnalyzerAgent.chat_payload, JobFitAgent.chat_payload,
      ContentEnhancerAgent.chat_payload, CareerCoachAgent.chat_payload,
      ProfileAnalyzerAgent._build_conversation_context,
      JobFitAgent._build_conversation_context,
      ContentEnhancerAgent._build_conversation_context,
      CareerCoachAgent._build_conversation_context;
    destruct profile; try reflexivity; cbn [obj_get_or bind];
    unfold messages in *; rewrite ?py_or_list, Hd; reflexivity.
Qed.

Lemma digest_shown (h : handler) (profile jd q : pyval) :
  shows (fun history => payload_of h profile jd q (messages history)) (digest h).
Proof.
  destruct profile as [| | | | | |d];
    try (left; eexists; intros history; rewrite payload_context;
         destruct h; reflexivity).
  destruct (around_prompts (get_or d "name" (PStr "User"))
              (get_or d "about" (PStr (match h with CareerCoach => "Not provided" | _ => "" end)))
              (get_or d "experience" (PList [])) (get_or d "skills" (PList []))
              jd q "" "" "" "") as (Hothers & _).
  destruct h.
  - eapply shows_around; [exact (proj1 (Hothers ProfileAnalyzer ltac:(discriminate)))|].
    intros history. rewrite payload_context. reflexivity.
  - eapply shows_around; [exact (proj1 (Hothers JobFit ltac:(discriminate)))|].
    intros history. rewrite payload_context. reflexivity.
  - eapply shows_around; [exact (proj1 (Hothers ContentEnhancer ltac:(discriminate)))|].
    intros history. rewrite payload_context. reflexivity.
  - destruct (CareerCoachAgent._format_experience (get_or d "experience" (PList [])))
      as [exp_line|e] eqn:Hexp;
      [|left; exists e; intros history; rewrite payload_context;
        cbn [obj_get_or bind]; rewrite Hexp; reflexivity].
    destruct (CareerCoachAgent.skills_line (get_or d "skills" (PList [])))
      as [skl_line|e] eqn:Hskl;
      [|left; exists e; intros history; rewrite payload_context;
        cbn [obj_get_or bind]; rewrite Hexp; cbn [bind]; rewrite Hskl; reflexivity].
    destruct (CareerCoachAgent._format_education (get_or d "education" (PList [])))
      as [edu_line|e] eqn:Hedu;
      [|left; exists e; intros history; rewrite payload_context;
        cbn [obj_get_or bind]; rewrite Hexp; cbn [bind]; rewrite Hskl; cbn [bind];
        rewrite Hedu; reflexivity].
    destruct (around_prompts (get_or d "name" (PStr "User"))
                (get_or d "about" (PStr "Not provided")) PNone PNone jd q
                exp_line skl_line edu_line "") as (_ & Hcoach & _).
    eapply shows_around; [exact Hcoach|].
    intros history. rewrite payload_context.
    cbn [obj_get_or bind]. rewrite Hexp. cbn [bind]. rewrite Hskl. cbn [bind].
    rewrite Hedu. reflexivity.
Qed.

(** *** The profile in the career coach's payload *)

Lemma format_experience_line (positions : list (string * string)) :
  CareerCoachAgent._format_experience
    (PList (map (fun p => position (fst p) (snd p)) positions))
  = Ok (experience_line positions).
Proof.
  destruct positions as [|p ps]; [reflexivity|].
  rewrite format_experience_positions. reflexivity.
Qed.

Lemma collect_school_entries (entries : list (string * string)) :
  CareerCoachAgent.collect CareerCoachAgent.education_entry (map school_entry entries)
  = flat_map
      (fun e =>
         if String.eqb (fst e) "" && String.eqb (snd e) "" then []
         else [strip (fst e ++ " from " ++ snd e)])
      entries.
Proof.
  induction entries as [|[degree school] entries IH]; [reflexivity|].
  cbn [map CareerCoachAgent.collect flat_map fst snd].
  unfold CareerCoachAgent.education_entry at 1, school_entry at 1. cbn [fst snd].
  unfold get_or. cbn [lookup String.eqb Ascii.eqb Bool.eqb truthy py_str].
  rewrite IH. rewrite <- negb_andb.
  destruct (String.eqb degree "" && String.eqb school ""); reflexivity.
Qed.

Lemma format_education_line (entries : list (string * string)) :
  CareerCoachAgent._format_education (PList (map school_entry entries))
  = Ok (education_line entries).
Proof.
  destruct entries as [|e entries]; [reflexivity|].
  unfold CareerCoachAgent._format_education, education_line.
  cbn [map truthy negb obj_iter bind].
  change (school_entry e :: map school_entry entries)
    with (map school_entry (e :: entries)).
  rewrite collect_school_entries. reflexivity.
Qed.

Lemma get_or_setitem_other (d : dict) (k k' : string) (v default : pyval) :
  String.eqb k' k = false ->
  get_or (setitem d k v) k' default = get_or d k' default.
Proof. intros H. unfold get_or. rewrite lookup_setitem_other by exact H. reflexivity. Qed.

Lemma get_or_setitem_same (d : dict) (k : string) (v default : pyval) :
  get_or (setitem d k v) k default = v.
Proof. unfold get_or. rewrite lookup_setitem_same. reflexivity. Qed.

Lemma coach_experience_shown (profile : dict) (jd q hist : pyval) :
  shows (fun positions =>
           payload_of CareerCoach
             (PDict (setitem profile "experience"
                       (PList (map (fun p => position (fst p) (snd p)) positions))))
             jd q hist)
    experience_line.
Proof.
  cbn [payload_of]. unfold CareerCoachAgent.chat_payload. cbn [obj_get_or bind].
  assert (Hrun : forall positions,
            (context <- CareerCoachAgent._build_conversation_context hist ;;
             exp_line <- CareerCoachAgent._format_experience
                           (get_or (setitem profile "experience"
                                      (PList (map (fun p => position (fst p) (snd p))
                                                positions)))
                              "experience" (PList [])) ;;
             skl_line <- CareerCoachAgent.skills_line
                           (get_or (setitem profile "experience"
                                      (PList (map (fun p => position (fst p) (snd p))
                                                positions)))
                              "skills" (PList [])) ;;
             edu_line <- CareerCoachAgent._format_education
                           (get_or (setitem profile "experience"
                                      (PList (map (fun p => position (fst p) (snd p))
                                                positions)))
                              "education" (PList [])) ;;
             Ok (CareerCoachAgent.user_prompt
                   (get_or (setitem profile "experience"
                              (PList (map (fun p => position (fst p) (snd p))
                                        positions)))
                      "name" (PStr "User"))
                   (get_or (setitem profile "experience"
                              (PList (map (fun p => position (fst p) (snd p))
                                        positions)))
                      "about" (PStr "Not provided"))
                   exp_line skl_line edu_line jd context q))
            = (context <- CareerCoachAgent._build_conversation_context hist ;;
               skl_line <- CareerCoachAgent.skills_line
                             (get_or profile "skills" (PList [])) ;;
               edu_line <- CareerCoachAgent._format_education
                             (get_or profile "education" (PList [])) ;;
               Ok (CareerCoachAgent.user_prompt
                     (get_or profile "name" (PStr "User"))
                     (get_or profile "about" (PStr "Not provided"))
                     (experience_line positions) skl_line edu_line jd context q))).
  { intros positions.
    rewrite get_or_setitem_same, !get_or_setitem_other by reflexivity.
    rewrite format_experience_line. reflexivity. }
  destruct (CareerCoachAgent._build_conversation_context hist) as [context|e];
    [|left; exists e; intros positions; rewrite Hrun; reflexivity].
  destruct (CareerCoachAgent.skills_line (get_or profile "skills" (PList [])))
    as [skl_line|e];
    [|left; exists e; intros positions; rewrite Hrun; reflexivity].
  destruct (CareerCoachAgent._format_education (get_or profile "education" (PList [])))
    as [edu_line|e];
    [|left; exists e; intros positions; rewrite Hrun; reflexivity].
  destruct (around_prompts (get_or profile "name" (PStr "User"))
              (get_or profile "about" (PStr "Not provided")) PNone PNone jd q
              "" skl_line edu_line context) as (_ & _ & Hexp & _).
  eapply shows_around; [exact Hexp|].
  intros positions. rewrite Hrun. reflexivity.
Qed.

Lemma coach_education_shown (profile : dict) (jd q hist : pyval) :
  shows (fun entries =>
           payload_of CareerCoach
             (PDict (setitem profile "education" (PList (map school_entry entries))))
             jd q hist)
    education_line.
Proof.
  cbn [payload_of]. unfold CareerCoachAgent.chat_payload. cbn [obj_get_or bind].
  assert (Hrun : forall entries,
            (context <- CareerCoachAgent._build_conversation_context hist ;;
             exp_line <- CareerCoachAgent._format_experience
                           (get_or (setitem profile "education"
                                      (PList (map school_entry entries)))
                              "experience" (PList [])) ;;
             skl_line <- CareerCoachAgent.skills_line
                           (get_or (setitem profile "education"
                                      (PList (map school_entry entries)))
                              "skills" (PList [])) ;;
             edu_line <- CareerCoachAgent._format_education
                           (get_or (setitem profile "education"
                                      (PList (map school_entry entries)))
                              "education" (PList [])) ;;
             Ok (CareerCoachAgent.user_prompt
                   (get_or (setitem profile "education"
                              (PList (map school_entry entries)))
                      "name" (PStr "User"))
                   (get_or (setitem profile "education"
                              (PList (map school_entry entries)))
                      "about" (PStr "Not provided"))
                   exp_line skl_line edu_line jd context q))
            = (context <- CareerCoachAgent._build_conversation_context hist ;;
               exp_line <- CareerCoachAgent._format_experience
                             (get_or profile "experience" (PList [])) ;;
               skl_line <- CareerCoachAgent.skills_line
                             (get_or profile "skills" (PList [])) ;;
               Ok (CareerCoachAgent.user_prompt
                     (get_or profile "name" (PStr "User"))
                     (get_or profile "about" (PStr "Not provided"))
                     exp_line skl_line (education_line entries) jd context q))).
  { intros entries.
    rewrite get_or_setitem_same, !get_or_setitem_other by reflexivity.
    rewrite format_education_line.
    destruct (CareerCoachAgent._build_conversation_context hist); cbn [bind];
      [|reflexivity].
    destruct (CareerCoachAgent._format_experience _); cbn [bind]; [|reflexivity].
    destruct (CareerCoachAgent.skills_line _); reflexivity. }
  destruct (CareerCoachAgent._build_conversation_context hist) as [context|e];
    [|left; exists e; intros entries; rewrite Hrun; reflexivity].
  destruct (CareerCoachAgent._format_experience (get_or profile "experience" (PList [])))
    as [exp_line|e];
    [|left; exists e; intros entries; rewrite Hrun; reflexivity].
  destruct (CareerCoachAgent.skills_line (get_or profile "skills" (PList [])))
    as [skl_line|e];
    [|left; exists e; intros entries; rewrite Hrun; reflexivity].
  destruct (around_prompts (get_or profile "name" (PStr "User"))
              (get_or profile "about" (PStr "Not provided")) PNone PNone jd q
              exp_line skl_line "" context) as (_ & _ & _ & Hedu).
  eapply shows_around; [exact Hedu|].
  intros entries. rewrite Hrun. reflexivity.
Qed.

(** *** The profile in the other three payloads *)

Lemma others_experience_shown (h : handler) (profile : dict) (jd q hist : pyval) :
  h <> CareerCoach ->
  shows (fun experience =>
           payload_of h (PDict (setitem profile "experience" experience)) jd q hist)
    py_str.
Proof.
  intros Hh.
  destruct (around_prompts (get_or profile "name" (PStr "User"))
              (get_or profile "about" (PStr "")) PNone
              (get_or profile "skills" (PList [])) jd q "" "" ""
              (match build_conversation_context "Assistant"
                       (py_or hist (PList [])) with
               | Ok context => context
               | Raise _ => ""
               end)) as (Hothers & _).
  destruct (build_conversation_context "Assistant" (py_or hist (PList [])))
    as [context|e] eqn:Hcontext.
  - eapply shows_around; [exact (proj2 (Hothers h Hh))|].
    intros experience.
    destruct h; try contradiction; cbn [payload_of];
      unfold ProfileAnalyzerAgent.chat_payload, JobFitAgent.chat_payload,
        ContentEnhancerAgent.chat_payload,
        ProfileAnalyzerAgent._build_conversation_context,
        JobFitAgent._build_conversation_context,
        ContentEnhancerAgent._build_conversation_context;
      cbn [obj_get_or bind]; rewrite Hcontext; cbn [bind];
      rewrite get_or_setitem_same, !get_or_setitem_other by reflexivity;
      reflexivity.
  - left. exists e. intros experience.
    destruct h; try contradiction; cbn [payload_of];
      unfold ProfileAnalyzerAgent.chat_payload, JobFitAgent.chat_payload,
        ContentEnhancerAgent.chat_payload,
        ProfileAnalyzerAgent._build_conversation_context,
        JobFitAgent._build_conversation_context,
        ContentEnhancerAgent._build_conversation_context;
      cbn [obj_get_or bind]; rewrite Hcontext; reflexivity.
Qed.

Lemma others_ignore_education (h : handler) (profile : dict)
    (jd q hist education : pyval) :
  h <> CareerCoach ->
  payload_of h (PDict (setitem profile "education" education)) jd q hist
  = payload_of h (PDict profile) jd q hist.
Proof.
  intros Hh.
  destruct h; try contradiction; cbn [payload_of];
    unfold ProfileAnalyzerAgent.chat_payload, JobFitAgent.chat_payload,
      ContentEnhancerAgent.chat_payload;
    cbn [obj_get_or bind];
    rewrite !get_or_setitem_other by reflexivity; reflexivity.
Qed.

End HandlerFacts.

Module HandlerClaims.
Import Py Agents HandlerSpec HandlerFacts Stubs.

(** C5. When the payload is built and the completion call returns a text,
    the chat handler returns a result with [success] true, [type] the
    handler's category, and [user_question] the very question it was
    called with. *)
Theorem chat_answer_carries_question (h : handler)
    (llm : string -> string -> result pyval)
    (profile jd q sid hist : pyval) (payload text : string) :
  payload_of h profile jd q hist = Ok payload ->
  llm (system_prompt_of h) payload = Ok (PStr text) ->
  exists r,
    handle_chat h llm profile jd q sid hist = Ok (PDict r) /\
    lookup r "success" = Some (PBool true) /\
    lookup r "type" = Some (PStr (category h)) /\
    lookup r "user_question" = Some q /\
    lookup r "message" = Some (PStr (strip text)).
Proof.
  intros Hp Hllm. rewrite handle_chat_unfold, Hp. cbn [bind].
  rewrite Hllm. cbn [bind obj_strip try_except].
  destruct h; eexists; (split; [reflexivity|]); repeat split; reflexivity.
Qed.

(** The fit-score question of the spec's end-to-end example. *)
Lemma chat_answer_carries_question_witness :
  exists r,
    handle_chat JobFit (llm_answers "  Match score: 40/100  ")
      sample_profile sample_job sample_question (PStr "s1") (PList [])
    = Ok (PDict r) /\
    lookup r "success" = Some (PBool true) /\
    lookup r "type" = Some (PStr "job_fit_analysis") /\
    lookup r "user_question" = Some sample_question /\
    lookup r "message" = Some (PStr "Match score: 40/100").
Proof.
  destruct (payload_of JobFit sample_profile sample_job sample_question (PList []))
    as [payload|e] eqn:Hp; [|discriminate Hp].
  exact (chat_answer_carries_question JobFit (llm_answers "  Match score: 40/100  ")
           sample_profile sample_job sample_question (PStr "s1") (PList [])
           payload "  Match score: 40/100  " Hp eq_refl).
Defined.

(** C8, as stated, fails for the job-fit handler (and likewise for the
    profile analyzer and the content enhancer, which build the same
    lines): its payload prints the whole experience list as Python prints
    it, so the fourth position is there and no "title at company" is. *)
Lemma job_fit_payload_shows_every_position :
  ~ experience_window JobFit /\
  (exists payload,
     payload_of JobFit sample_profile sample_job sample_question (PList [])
     = Ok payload /\
     contains payload "'title': 'Intern', 'company': 'Hooli'" = true /\
     contains payload "Engineer at Acme" = false).
Proof.
  split.
  - intros H.
    specialize (H sample_profile_fields sample_positions sample_job
                  sample_question (PList [])).
    apply (f_equal (fun r => match r with
                             | Ok p => contains p "Hooli"
                             | Raise _ => false
                             end)) in H.
    vm_compute in H. discriminate H.
  - eexists. split; [reflexivity|]. split; vm_compute; reflexivity.
Qed.

(** C8, amended. The payload of each of the four handlers contains the
    digest of the chat history, built from its last six messages with
    each content cut at 150 characters, and nothing else of the history:
    whatever the history, the payload is one text around its digest, and
    a history and its last six messages, cut, give the same payload.
    The career-coach handler alone limits the profile: its payload
    contains the first three positions, as "title at company", and the
    first two education entries that have a degree or a school, as
    "degree from school", and stays the same when the experience is cut
    to its first three entries.  The payloads of the profile analyzer,
    job fit and content enhancer contain the whole experience value as
    [str] prints it, and do not change with the education. *)
Theorem payload_windows :
  (forall h profile jd q,
     shows (fun history => payload_of h profile jd q (messages history))
       (digest h)) /\
  (forall h, history_window h) /\
  (forall history,
     List.length (digest_window history) <= 6 /\
     Forall (fun m => String.length (snd m) <= 150) (digest_window history)) /\
  (forall profile jd q hist,
     shows (fun positions =>
              payload_of CareerCoach
                (PDict (setitem profile "experience"
                          (PList (map (fun p => position (fst p) (snd p)) positions))))
                jd q hist)
       experience_line) /\
  experience_window CareerCoach /\
  (forall profile jd q hist,
     shows (fun entries =>
              payload_of CareerCoach
                (PDict (setitem profile "education"
                          (PList (map school_entry entries))))
                jd q hist)
       education_line) /\
  (forall h, h <> CareerCoach ->
   forall profile jd q hist,
     shows (fun experience =>
              payload_of h (PDict (setitem profile "experience" experience)) jd q hist)
       py_str /\
     (forall education,
        payload_of h (PDict (setitem profile "education" education)) jd q hist
        = payload_of h (PDict profile) jd q hist)).
Proof.
  split; [exact digest_shown|].
  split; [exact history_window_all|].
  split; [exact digest_window_bounds|].
  split; [exact coach_experience_shown|].
  split; [exact experience_window_coach|].
  split; [exact coach_education_shown|].
  intros h Hh profile jd q hist. split.
  - exact (others_experience_shown h profile jd q hist Hh).
  - intros education. exact (others_ignore_education h profile jd q hist education Hh).
Qed.

(** Ten earlier messages: the job-fit payload has the last six, the long
    one cut at 150 characters, and none of the first four.  The sample
    profile: the coach's payload has three of the four positions and two
    of the three schools; of entries without a degree, or without
    anything, it has "from MIT" and nothing; the job-fit payload has the
    four positions as Python prints the list. *)
Lemma payload_windows_witness :
  (exists before after,
     payload_of JobFit sample_profile sample_job sample_question
       (messages ten_messages)
     = Ok (before
           ++ ("User: m5 | Assistant: m6 | User: "
               ++ String.concat "" (repeat "0123456789" 15)
               ++ " | Assistant: m8 | User: m9 | Assistant: m10")
           ++ after)) /\
  (exists payload,
     payload_of JobFit sample_profile sample_job sample_question
       (messages ten_messages) = Ok payload /\
     contains payload "**Conversation History:** User: m5 | Assistant: m6 | User: 0123"
     = true /\
     contains payload "m4" = false) /\
  (exists before after,
     payload_of CareerCoach sample_profile sample_job sample_question (PList [])
     = Ok (before ++ "Engineer at Acme; Developer at Initech; Analyst at Globex"
           ++ after)) /\
  (exists before after,
     payload_of CareerCoach sample_profile sample_job sample_question (PList [])
     = Ok (before ++ "MSc from MIT; BSc from ETH" ++ after)) /\
  (exists before after,
     payload_of CareerCoach
       (PDict (setitem sample_profile_fields "education"
                 (PList (map school_entry
                           [("", "MIT"); ("", ""); ("BSc", "ETH"); ("PhD", "Yale")]))))
       sample_job sample_question (PList [])
     = Ok (before ++ "from MIT; BSc from ETH" ++ after)) /\
  (exists before after,
     payload_of JobFit sample_profile sample_job sample_question (PList [])
     = Ok (before
           ++ "[{'title': 'Engineer', 'company': 'Acme'}, {'title': 'Developer', 'company': 'Initech'}, {'title': 'Analyst', 'company': 'Globex'}, {'title': 'Intern', 'company': 'Hooli'}]"
           ++ after)).
Proof.
  destruct payload_windows as (Hdigest & _ & _ & Hexp & _ & Hedu & Hothers).
  split; [|split; [|split; [|split; [|split]]]].
  - destruct (Hdigest JobFit sample_profile sample_job sample_question)
      as [(e & He) | (before & after & H)].
    + specialize (He []). discriminate He.
    + exists before, after. exact (H ten_messages).
  - eexists. split; [reflexivity|]. split; vm_compute; reflexivity.
  - destruct (Hexp sample_profile_fields sample_job sample_question (PList []))
      as [(e & He) | (before & after & H)].
    + specialize (He []). discriminate He.
    + exists before, after.
      exact (H [("Engineer", "Acme"); ("Developer", "Initech");
                ("Analyst", "Globex"); ("Intern", "Hooli")]).
  - destruct (Hedu (setitem sample_profile_fields "experience" (PList sample_positions))
                sample_job sample_question (PList []))
      as [(e & He) | (before & after & H)].
    + specialize (He []). discriminate He.
    + exists before, after.
      exact (H [("MSc", "MIT"); ("BSc", "ETH"); ("Diploma", "Lycee")]).
  - destruct (Hedu sample_profile_fields sample_job sample_question (PList []))
      as [(e & He) | (before & after & H)].
    + specialize (He []). discriminate He.
    + exists before, after.
      exact (H [("", "MIT"); ("", ""); ("BSc", "ETH"); ("PhD", "Yale")]).
  - destruct (proj1 (Hothers JobFit ltac:(discriminate) sample_profile_fields
                       sample_job sample_question (PList [])))
      as [(e & He) | (before & after & H)].
    + specialize (He PNone). discriminate He.
    + exists before, after. exact (H (PList sample_positions)).
Defined.

End HandlerClaims.

(** ** The turn engine *)

Module EngineFacts.
Import Py Engine.

Lemma py_eq_END (target : pyval) :
  py_eq target Routing.END = true -> target = Routing.END.
Proof.
  destruct target; simpl; intros H; try discriminate H.
  apply String.eqb_eq in H. subst. reflexivity.
Qed.

Section Run.

Variable cap : nat.
Variable route : dict -> result pyval.
Variable component : pyval -> dict -> result dict.

(** The router never says TERMINATE. *)
Hypothesis never_terminates : forall state, route state <> Ok Routing.END.

Lemma run_hits_the_cap (budget : nat) :
  forall (next : pyval) (state : dict) (invoked : list pyval),
  exists e trace,
    run route component budget next state invoked = (Fatal e, trace) /\
    List.length trace <= List.length invoked + budget /\
    ((forall n s, exists u, component n s = Ok u) ->
     (forall s, exists t, route s = Ok t) ->
     e = EngineLoopError /\ List.length trace = List.length invoked + budget).
Proof.
  induction budget as [|budget IH]; intros next state invoked.
  - exists EngineLoopError, invoked. simpl. repeat split; lia.
  - cbn [run].
    destruct (component next state) as [update|e] eqn:Hc.
    + destruct (route (merge state update)) as [target|e] eqn:Hr.
      * destruct (py_eq target Routing.END) eqn:Hend.
        -- apply py_eq_END in Hend. subst target.
           exfalso. exact (never_terminates _ Hr).
        -- destruct (IH target (merge state update) (invoked ++ [next])%list)
             as (e & trace & Hrun & Hle & Hexact).
           exists e, trace. rewrite length_app in Hle. simpl in Hle.
           split; [exact Hrun|]. split; [lia|].
           intros Hct Hrt. destruct (Hexact Hct Hrt) as (-> & Hlen).
           rewrite length_app in Hlen. simpl in Hlen. split; [reflexivity|lia].
      * exists e, (invoked ++ [next])%list. rewrite length_app. simpl.
        split; [reflexivity|]. split; [lia|].
        intros _ Hrt. destruct (Hrt (merge state update)) as (t & Ht). congruence.
    + exists e, (invoked ++ [next])%list. rewrite length_app. simpl.
      split; [reflexivity|]. split; [lia|].
      intros Hct _. destruct (Hct next state) as (u & Hu). congruence.
Qed.

End Run.

End EngineFacts.

Module EngineClaims.
Import Py Engine EngineSpec EngineFacts.

(** C7. With a router that never returns TERMINATE the turn does not
    finish and does not loop: it ends in a fatal error after at most [cap]
    component invocations; when neither a component nor the router raises,
    the error is the engine's own and the invocations are exactly [cap]. *)
Theorem engine_enforces_cap (cap : nat)
    (route : dict -> result pyval) (component : pyval -> dict -> result dict)
    (entry : pyval) (initial : dict) :
  (forall state, route state <> Ok Routing.END) ->
  exists e trace,
    run_turn cap route component entry initial = (Fatal e, trace) /\
    List.length trace <= cap /\
    ((forall n s, exists u, component n s = Ok u) ->
     (forall s, exists t, route s = Ok t) ->
     e = EngineLoopError /\ List.length trace = cap).
Proof.
  intros Hnever. unfold run_turn.
  destruct (run_hits_the_cap route component Hnever cap entry initial [])
    as (e & trace & Hrun & Hle & Hexact).
  exists e, trace. simpl in Hle, Hexact. auto.
Qed.

Lemma stubborn_router_never_terminates :
  forall state, stubborn_router state <> Ok Routing.END.
Proof. intros state H. discriminate H. Qed.

(** With a cap of ten the stubborn router costs ten invocations, then the
    turn is fatal. *)
Lemma engine_enforces_cap_witness :
  exists e trace,
    run_turn 10 stubborn_router idle_component
      (PStr "intent_classifier_agent") [("command", PStr "chat")]
    = (Fatal e, trace) /\ List.length trace <= 10.
Proof.
  destruct (engine_enforces_cap 10 stubborn_router idle_component
              (PStr "intent_classifier_agent") [("command", PStr "chat")]
              stubborn_router_never_terminates)
    as (e & trace & Hrun & Hle & _).
  exists e, trace. split; assumption.
Defined.

End EngineClaims.

(** ** A turn whose completion service is down *)

Module TurnClaims.
Import Py Agents Routing Graph Engine HandlerSpec TurnSpec.

(** C2 at the failing input.  The job-fit handler catches the exception
    and stores a failed result, which has no [user_question] and is not
    under the state's [error] key; so the router, on the merged state, names
    the job-fit handler again instead of END, and the turn only stops at
    the engine's cap. *)
Theorem failed_handler_is_routed_again :
  router after_classifier = Ok (PStr "job_fit_agent") /\
  failing_job_fit_node after_classifier
  = [("job_fit",
      chat_failure JobFitAgent.apology
        (mkExn "ConnectionError" "service unavailable") (PStr "s1"))] /\
  has_key after_handler "error" = false /\
  router after_handler = Ok (PStr "job_fit_agent") /\
  router after_handler <> Ok END /\
  run_turn 10 router (dispatch failing_nodes) entry_point turn_start
  = (Fatal EngineLoopError,
     PStr "intent_classifier_agent" :: repeat (PStr "job_fit_agent") 9).
Proof.
  assert (H : router after_handler = Ok (PStr "job_fit_agent")) by (vm_compute; reflexivity).
  repeat split; try (vm_compute; reflexivity); try exact H.
  rewrite H. discriminate.
Qed.

End TurnClaims.

(** ** The profile sanitizer *)

Module ScraperFacts.
Import Py Scraper ScraperSpec.

Lemma first_truthy_none (profile : dict) (possible_keys : list string) :
  (forall key, In key possible_keys ->
     has_key profile key && truthy (get profile key) = false) ->
  first_truthy profile possible_keys = None.
Proof.
  induction possible_keys as [|key rest IH]; intros H; [reflexivity|].
  simpl. rewrite (H key) by (left; reflexivity).
  apply IH. intros k Hk. apply H. right. exact Hk.
Qed.

Lemma lookup_sanitize_fields (profile : dict) (k : string) :
  In k sanitized_keys ->
  lookup (sanitize_fields profile) k
  = Some (sanitized_value profile k (sources k)).
Proof.
  intros Hk. simpl in Hk.
  repeat (destruct Hk as [<- | Hk]; [reflexivity|]). contradiction.
Qed.

Lemma sanitized_value_unmatched (profile : dict) (k : string) :
  unmatched profile k ->
  sanitized_value profile k (sources k)
  = if existsb (String.eqb k) list_fields then PList [] else PStr "".
Proof.
  intros H. unfold sanitized_value.
  rewrite (first_truthy_none profile (sources k) H). reflexivity.
Qed.

Lemma strip_zeros_zero (e : nat) : strip_zeros 0 e = (0%Z, 0).
Proof. induction e as [|e IH]; [reflexivity|]. cbn [strip_zeros]. exact IH. Qed.

Lemma py_str_false (v : pyval) : truthy v = false -> py_str v = shown_false v.
Proof.
  destruct v as [|b|z|m e|s|l|d]; cbn [truthy]; intros H.
  - reflexivity.
  - subst b. reflexivity.
  - apply negb_false_iff, Z.eqb_eq in H. subst z. reflexivity.
  - apply negb_false_iff, Z.eqb_eq in H. subst m.
    cbn [py_str py_repr shown_false]. unfold repr_float.
    rewrite strip_zeros_zero. reflexivity.
  - apply negb_false_iff, String.eqb_eq in H. subst s. reflexivity.
  - destruct l; [reflexivity | discriminate H].
  - destruct d; [reflexivity | discriminate H].
Qed.

(** The recombined name, for two names that are false. *)
Lemma combined_name_spaced (first last : pyval) :
  truthy first = false -> truthy last = false ->
  strip (py_str first ++ " " ++ py_str last)
  = spaced (shown_false first) (shown_false last).
Proof.
  intros Hf Hl. rewrite (py_str_false first Hf), (py_str_false last Hl).
  destruct first, last; reflexivity.
Qed.

Lemma unmatched_name_false (profile : dict) :
  unmatched profile "name" ->
  has_key profile "firstName" = true ->
  truthy (get_or profile "firstName" (PStr "")) = false /\
  truthy (get_or profile "lastName" (PStr "")) = false.
Proof.
  intros Hu Hfirst. split.
  - pose proof (Hu "firstName" (or_intror (or_introl eq_refl))) as H.
    rewrite Hfirst in H. cbn [andb] in H.
    unfold has_key in Hfirst. unfold get, get_or in *.
    destruct (lookup profile "firstName"); [exact H | discriminate Hfirst].
  - pose proof (Hu "lastName" (or_intror (or_intror (or_introl eq_refl)))) as H.
    unfold has_key, get, get_or in *.
    destruct (lookup profile "lastName"); [exact H | reflexivity].
Qed.

End ScraperFacts.

Module ScraperClaims.
Import Py Scraper ScraperSpec ScraperFacts.

(** C10. For every input dictionary [sanitize_profile] returns a
    dictionary with exactly the ten keys; a list field none of whose source
    keys holds a true value is the empty list, any other such field but
    [name] the empty text, and [name], when [firstName] is a key of the
    profile, the two names as [str] shows them (both are false there),
    with one space between them and none around, and the empty text
    otherwise. *)
Theorem sanitize_profile_shape (profile : dict) :
  exists sanitized,
    sanitize_profile profile = Ok sanitized /\
    keys sanitized = sanitized_keys /\
    (forall k, In k list_keys -> unmatched profile k ->
       lookup sanitized k = Some (PList [])) /\
    (forall k, In k sanitized_keys -> ~ In k list_keys -> k <> "name" ->
       unmatched profile k -> lookup sanitized k = Some (PStr "")) /\
    (unmatched profile "name" ->
       lookup sanitized "name"
       = Some (PStr (if has_key profile "firstName"
                     then spaced (shown_false (get_or profile "firstName" (PStr "")))
                            (shown_false (get_or profile "lastName" (PStr "")))
                     else ""))).
Proof.
  unfold sanitize_profile, getitem.
  rewrite (lookup_sanitize_fields profile "name") by (simpl; auto).
  cbn [bind].
  set (name := sanitized_value profile "name" (sources "name")).
  assert (Hlist : forall k, In k list_fields -> unmatched profile k ->
            lookup (sanitize_fields profile) k = Some (PList [])).
  { intros k Hk Hu. rewrite lookup_sanitize_fields.
    - rewrite (sanitized_value_unmatched profile k Hu).
      simpl in Hk. repeat (destruct Hk as [<- | Hk]; [reflexivity|]). contradiction.
    - simpl in Hk. simpl.
      repeat (destruct Hk as [<- | Hk]; [tauto|]). contradiction. }
  assert (Htext : forall k, In k sanitized_keys -> ~ In k list_fields ->
            unmatched profile k ->
            lookup (sanitize_fields profile) k = Some (PStr "")).
  { intros k Hk Hn Hu. rewrite (lookup_sanitize_fields profile k Hk).
    rewrite (sanitized_value_unmatched profile k Hu).
    simpl in Hk.
    repeat (destruct Hk as [<- | Hk];
            [first [reflexivity | exfalso; apply Hn; simpl; tauto]|]).
    contradiction. }
  assert (Hother : forall k v, k <> "name" ->
            lookup (setitem (sanitize_fields profile) "name" v) k
            = lookup (sanitize_fields profile) k).
  { intros k v Hk. apply PyFacts.lookup_setitem_other.
    apply String.eqb_neq. exact Hk. }
  destruct (negb (truthy name) && has_key profile "firstName") eqn:Hcond.
  - eexists. split; [reflexivity|]. split; [reflexivity|].
    apply andb_true_iff in Hcond. destruct Hcond as (_ & Hfirst).
    split; [|split].
    + intros k Hk Hu. rewrite Hother; [apply Hlist; assumption|].
      intros ->. simpl in Hk. repeat (destruct Hk as [Hk | Hk]; [discriminate Hk|]).
      contradiction.
    + intros k Hk Hn Hname Hu. rewrite Hother by exact Hname.
      apply Htext; assumption.
    + intros Hu. rewrite PyFacts.lookup_setitem_same, Hfirst.
      destruct (unmatched_name_false profile Hu Hfirst) as (Hf & Hl).
      unfold combined_name. rewrite (combined_name_spaced _ _ Hf Hl). reflexivity.
  - eexists. split; [reflexivity|]. split; [reflexivity|].
    split; [exact Hlist|]. split.
    + intros k Hk Hn _ Hu. apply Htext; assumption.
    + intros Hu. rewrite (lookup_sanitize_fields profile "name") by (simpl; auto).
      fold name. pose proof (sanitized_value_unmatched profile "name" Hu) as Hv.
      fold name in Hv. cbn [existsb list_fields String.eqb Ascii.eqb Bool.eqb orb] in Hv.
      rewrite Hv in Hcond |- *. cbn [truthy String.eqb negb andb] in Hcond.
      rewrite Hcond. reflexivity.
Qed.

(** On a record whose first name is 0 and whose last name is None: ten
    keys, the skills an empty list, the location empty, and the name
    "0 None"; and on one with an empty first name and an empty list as
    last name, the name "[]". *)
Lemma sanitize_profile_shape_witness :
  (exists sanitized,
     sanitize_profile zero_profile = Ok sanitized /\
     keys sanitized = sanitized_keys /\
     lookup sanitized "skills" = Some (PList []) /\
     lookup sanitized "location" = Some (PStr "") /\
     lookup sanitized "name" = Some (PStr "0 None")) /\
  (exists sanitized,
     sanitize_profile blank_profile = Ok sanitized /\
     lookup sanitized "name" = Some (PStr "[]")).
Proof.
  split.
  - destruct (sanitize_profile_shape zero_profile)
      as (sanitized & Hs & Hk & Hlist & Htext & Hname).
    exists sanitized. split; [exact Hs|]. split; [exact Hk|].
    split; [|split].
    + apply Hlist; [simpl; tauto|].
      intros key Hin. simpl in Hin.
      repeat (destruct Hin as [<- | Hin]; [reflexivity|]). contradiction.
    + apply Htext; [simpl; tauto| |discriminate|].
      * simpl. intros H. repeat (destruct H as [H | H]; [discriminate H|]). exact H.
      * intros key Hin. simpl in Hin.
        repeat (destruct Hin as [<- | Hin]; [reflexivity|]). contradiction.
    + rewrite Hname; [reflexivity|].
      intros key Hin. simpl in Hin.
      repeat (destruct Hin as [<- | Hin]; [reflexivity|]). contradiction.
  - destruct (sanitize_profile_shape blank_profile)
      as (sanitized & Hs & _ & _ & _ & Hname).
    exists sanitized. split; [exact Hs|].
    rewrite Hname; [reflexivity|].
    intros key Hin. simpl in Hin.
    repeat (destruct Hin as [<- | Hin]; [reflexivity|]). contradiction.
Defined.

End ScraperClaims.

(** ** The profile URL *)

Module StringFacts.

Lemma app_nil_r (s : string) : s ++ "" = s.
Proof. induction s as [|c s IH]; simpl; [reflexivity | rewrite IH; reflexivity]. Qed.

Lemma app_assoc (a b c : string) : (a ++ b) ++ c = a ++ (b ++ c).
Proof. induction a as [|x a IH]; simpl; [reflexivity | rewrite IH; reflexivity]. Qed.

Lemma app_length (a b : string) :
  String.length (a ++ b) = String.length a + String.length b.
Proof. induction a as [|x a IH]; simpl; [reflexivity | rewrite IH; reflexivity]. Qed.

Lemma app_eq_nil (a b : string) : a ++ b = "" -> a = "" /\ b = "".
Proof. destruct a; simpl; [auto | discriminate]. Qed.

Lemma app_inv_head (a b c : string) : a ++ b = a ++ c -> b = c.
Proof. induction a as [|x a IH]; simpl; intros H; [exact H | inversion H; auto]. Qed.

End StringFacts.

Module RegexFacts.
Import Py Regex UrlSpec StringFacts.

Ltac inv H := inversion H; subst; clear H.

Lemma nullable_lang (r : regex) : nullable r = true <-> lang r "".
Proof.
  induction r as [| | c | f | r1 IH1 r2 IH2 | r1 IH1 r2 IH2 | r IH]; simpl.
  - split; [discriminate | intros H; inversion H].
  - split; [constructor | reflexivity].
  - split; [discriminate | intros H; inversion H].
  - split; [discriminate | intros H; inversion H].
  - rewrite andb_true_iff, IH1, IH2. split.
    + intros [H1 H2]. exact (lang_seq _ _ _ _ H1 H2).
    + intros H. inversion H as [| | | ? ? s1 s2 H1 H2 | | | |]; subst.
      match goal with
      | E : _ ++ _ = "" |- _ => apply app_eq_nil in E; destruct E; subst
      end. auto.
  - rewrite orb_true_iff, IH1, IH2. split.
    + intros [H | H]; [apply lang_alt_l | apply lang_alt_r]; exact H.
    + intros H. inv H; auto.
  - split; [constructor | reflexivity].
Qed.

Lemma lang_deriv (c : ascii) (r : regex) (s : string) :
  lang (deriv c r) s -> lang r (String c s).
Proof.
  revert s.
  induction r as [| | c' | f | r1 IH1 r2 IH2 | r1 IH1 r2 IH2 | r IH];
    simpl; intros s H.
  - inversion H.
  - inversion H.
  - destruct (Ascii.eqb c c') eqn:E; [|inversion H].
    apply Ascii.eqb_eq in E. subst. inv H. constructor.
  - destruct (f c) eqn:E; [|inversion H]. inv H. constructor. exact E.
  - destruct (nullable r1) eqn:N.
    + inv H.
      * match goal with H' : lang (Seq _ _) _ |- _ => inv H' end.
        match goal with
        | |- lang _ (String c (?a ++ ?b)) => change (String c (a ++ b)) with (String c a ++ b)
        end.
        constructor; auto.
      * change (String c s) with ("" ++ String c s).
        constructor; [apply nullable_lang; exact N | auto].
    + inv H.
      match goal with
      | |- lang _ (String c (?a ++ ?b)) => change (String c (a ++ b)) with (String c a ++ b)
      end.
      constructor; auto.
  - inv H; [apply lang_alt_l | apply lang_alt_r]; auto.
  - inv H.
    match goal with
    | |- lang _ (String c (?a ++ ?b)) => change (String c (a ++ b)) with (String c a ++ b)
    end.
    constructor; auto.
Qed.

Lemma deriv_lang (r : regex) (t : string) :
  lang r t -> forall c s, t = String c s -> lang (deriv c r) s.
Proof.
  induction 1 as [| c' | f c' Hf | r1 r2 s1 s2 H1 IH1 H2 IH2
                  | r1 r2 s0 H0 IH0 | r1 r2 s0 H0 IH0
                  | r | r s1 s2 H1 IH1 H2 IH2];
    intros c s Heq; simpl.
  - discriminate.
  - inversion Heq; subst. rewrite Ascii.eqb_refl. constructor.
  - inversion Heq; subst. rewrite Hf. constructor.
  - destruct s1 as [|x s1].
    + simpl in Heq. subst s2.
      assert (N : nullable r1 = true) by (apply nullable_lang; exact H1).
      rewrite N. apply lang_alt_r. apply IH2. reflexivity.
    + simpl in Heq. inversion Heq; subst.
      destruct (nullable r1); [apply lang_alt_l|];
        constructor; auto.
  - apply lang_alt_l. auto.
  - apply lang_alt_r. auto.
  - discriminate.
  - destruct s1 as [|x s1].
    + simpl in Heq. apply IH2. exact Heq.
    + simpl in Heq. inversion Heq; subst. constructor; auto.
Qed.

(** The matcher decides membership. *)
Lemma matches_lang (r : regex) (s : string) : matches r s = true <-> lang r s.
Proof.
  revert r. induction s as [|c s IH]; intros r; simpl.
  - apply nullable_lang.
  - rewrite IH. split.
    + apply lang_deriv.
    + intros H. exact (deriv_lang r _ H c s eq_refl).
Qed.

End RegexFacts.

Module UrlFacts.
Import Py Regex ProfileUrl UrlSpec StringFacts RegexFacts.

Lemma lang_seq_iff (r1 r2 : regex) (s : string) :
  lang (Seq r1 r2) s <-> exists s1 s2, s = s1 ++ s2 /\ lang r1 s1 /\ lang r2 s2.
Proof.
  split.
  - intros H. inv H. eauto.
  - intros (s1 & s2 & -> & H1 & H2). constructor; assumption.
Qed.

Lemma lang_literal (x s : string) : lang (literal x) s <-> s = x.
Proof.
  revert s. induction x as [|c x IH]; intros s; simpl.
  - split; [intros H; inv H; reflexivity | intros ->; constructor].
  - rewrite lang_seq_iff. split.
    + intros (s1 & s2 & -> & H1 & H2). inv H1. apply IH in H2. subst. reflexivity.
    + intros ->. exists (String c ""), x. repeat split; [constructor | apply IH; reflexivity].
Qed.

Lemma lang_opt (r : regex) (s : string) : lang (opt r) s <-> lang r s \/ s = "".
Proof.
  unfold opt. split.
  - intros H. inv H; [left; assumption | right].
    match goal with H' : lang Eps _ |- _ => inv H' end. reflexivity.
  - intros [H | ->]; [apply lang_alt_l; exact H | apply lang_alt_r; constructor].
Qed.

Lemma lang_chr (c : ascii) (s : string) : lang (Chr c) s <-> s = String c "".
Proof. split; [intros H; inv H; reflexivity | intros ->; constructor]. Qed.

Lemma lang_star_class (f : ascii -> bool) (s : string) :
  lang (Star (Class f)) s <-> all_chars f s = true.
Proof.
  split.
  - intros H. remember (Star (Class f)) as r eqn:Hr.
    induction H as [| | | | | | r' | r' s1 s2 H1 _ H2 IH2]; try discriminate.
    + reflexivity.
    + inversion Hr; subst. inv H1. simpl.
      match goal with E : f _ = true |- _ => rewrite E end.
      apply IH2. reflexivity.
  - induction s as [|c s IH]; simpl; intros H.
    + constructor.
    + apply andb_true_iff in H. destruct H as [Hc Hs].
      change (String c s) with (String c "" ++ s).
      constructor; [constructor; exact Hc | apply IH; exact Hs].
Qed.

Lemma lang_plus_class (f : ascii -> bool) (s : string) :
  lang (plus (Class f)) s <-> s <> "" /\ all_chars f s = true.
Proof.
  unfold plus. rewrite lang_seq_iff. split.
  - intros (s1 & s2 & -> & H1 & H2). inv H1. apply lang_star_class in H2.
    simpl. split; [discriminate|].
    match goal with E : f _ = true |- _ => rewrite E end. exact H2.
  - intros [Hne H]. destruct s as [|c s]; [contradiction|].
    simpl in H. apply andb_true_iff in H. destruct H as [Hc Hs].
    exists (String c ""), s. repeat split; [constructor; exact Hc|].
    apply lang_star_class. exact Hs.
Qed.

(** What [strip] returns neither starts nor ends with a space. *)
Lemma rstrip_last (s a : string) (c : ascii) :
  rstrip s = a ++ String c "" -> is_space c = false.
Proof.
  revert a. induction s as [|x s IH]; simpl; intros a H.
  - destruct a; discriminate.
  - destruct (rstrip s) as [|y r] eqn:E.
    + destruct (is_space x) eqn:Hx.
      * destruct a; discriminate.
      * destruct a as [|z a]; simpl in H; inversion H; subst; [exact Hx|].
        destruct a; discriminate.
    + destruct a as [|z a]; simpl in H; inversion H; subst.
      eapply IH. eassumption.
Qed.

Lemma strip_last (u a : string) (c : ascii) :
  strip u = a ++ String c "" -> is_space c = false.
Proof. unfold strip. apply rstrip_last. Qed.

Lemma lstrip_first (s r : string) (c : ascii) :
  lstrip s = String c r -> is_space c = false.
Proof.
  induction s as [|x s IH]; simpl; [discriminate|].
  destruct (is_space x) eqn:Hx; [exact IH|].
  intros H; inversion H; subst. exact Hx.
Qed.

Lemma rstrip_first (s r : string) (c : ascii) :
  rstrip s = String c r -> exists r', s = String c r'.
Proof.
  destruct s as [|x s]; simpl; [discriminate|].
  destruct (rstrip s); [destruct (is_space x)|]; intros H; inversion H; subst; eauto.
Qed.

Lemma strip_first (u r : string) (c : ascii) :
  strip u = String c r -> is_space c = false.
Proof.
  unfold strip. intros H. apply rstrip_first in H. destruct H as (r' & H).
  eapply lstrip_first. eassumption.
Qed.

Tactic Notation "split_seq" hyp(H) "as" ident(a) ident(b) ident(Ha) ident(Hb) :=
  apply lang_seq_iff in H; destruct H as (a & b & -> & Ha & Hb).

Lemma id_shape (id : string) :
  lang (plus (Class id_char)) id -> id <> "" /\ all_chars id_char id = true.
Proof. apply lang_plus_class. Qed.

Lemma lang_pattern_profile (s : string) :
  lang pattern_profile s ->
  exists www id tail,
    s = "https://" ++ www ++ "linkedin.com/in/" ++ id ++ tail /\
    (www = "" \/ www = "www.") /\ id <> "" /\ all_chars id_char id = true /\
    (tail = "" \/ tail = "/").
Proof.
  unfold pattern_profile. intros H.
  split_seq H as scheme r1 Lscheme H1.
  split_seq H1 as www r2 Lwww H2.
  split_seq H2 as host r3 Lhost H3.
  split_seq H3 as id tail Lid Ltail.
  apply lang_literal in Lscheme. apply lang_literal in Lhost. subst.
  apply id_shape in Lid. destruct Lid as [Hne Hid].
  apply lang_opt in Lwww. apply lang_opt in Ltail.
  exists www, id, tail. split; [reflexivity|].
  split; [|split; [exact Hne | split; [exact Hid|]]].
  - destruct Lwww as [L | ->]; [apply lang_literal in L; auto | auto].
  - destruct Ltail as [L | ->]; [apply lang_chr in L; auto | auto].
Qed.

Lemma lang_pattern_profile_path (s : string) :
  lang pattern_profile_path s ->
  exists www id path,
    s = "https://" ++ www ++ "linkedin.com/in/" ++ id ++ "/" ++ path /\
    (www = "" \/ www = "www.") /\ id <> "" /\ all_chars id_char id = true /\
    all_chars (fun c => negb (Ascii.eqb c newline_char)) path = true.
Proof.
  unfold pattern_profile_path. intros H.
  split_seq H as scheme r1 Lscheme H1.
  split_seq H1 as www r2 Lwww H2.
  split_seq H2 as host r3 Lhost H3.
  split_seq H3 as id r4 Lid H4.
  split_seq H4 as slash path Lslash Lpath.
  apply lang_literal in Lscheme. apply lang_literal in Lhost.
  apply lang_chr in Lslash. subst.
  apply id_shape in Lid. destruct Lid as [Hne Hid].
  apply lang_opt in Lwww. apply lang_star_class in Lpath.
  exists www, id, path. split; [reflexivity|].
  split; [|split; [exact Hne | split; [exact Hid | exact Lpath]]].
  destruct Lwww as [L | ->]; [apply lang_literal in L; auto | auto].
Qed.

Lemma lang_pattern_bare (s : string) :
  lang pattern_bare s ->
  exists id tail,
    s = "https://linkedin.com/in/" ++ id ++ tail /\
    id <> "" /\ all_chars id_char id = true /\ (tail = "" \/ tail = "/").
Proof.
  unfold pattern_bare. intros H.
  split_seq H as host r1 Lhost H1.
  split_seq H1 as id tail Lid Ltail.
  apply lang_literal in Lhost. subst.
  apply id_shape in Lid. destruct Lid as [Hne Hid].
  apply lang_opt in Ltail.
  exists id, tail. split; [reflexivity|]. split; [exact Hne | split; [exact Hid|]].
  destruct Ltail as [L | ->]; [apply lang_chr in L; auto | auto].
Qed.

(** On a text without a space at its end, [$] is the end of the text. *)
Lemma re_match_stripped (body : regex) (u : string) :
  re_match body (strip u) = true <-> lang body (strip u).
Proof.
  unfold re_match. rewrite matches_lang, lang_seq_iff. split.
  - intros (s1 & s2 & Heq & H1 & H2). apply lang_opt in H2.
    destruct H2 as [H2 | ->].
    + apply lang_chr in H2. subst s2. apply strip_last in Heq. discriminate Heq.
    + rewrite app_nil_r in Heq. rewrite Heq. exact H1.
  - intros H. exists (strip u), "". rewrite app_nil_r.
    repeat split; [exact H | apply lang_opt; right; reflexivity].
Qed.

Lemma shape_in_patterns (s : string) :
  profile_url_shape s -> lang pattern_profile s \/ lang pattern_profile_path s.
Proof.
  intros (www & id & rest & -> & Hwww & Hne & Hid & Hrest).
  assert (Lw : lang (opt (literal "www.")) www).
  { apply lang_opt. destruct Hwww as [-> | ->]; [right; reflexivity|].
    left. apply lang_literal. reflexivity. }
  assert (Li : lang (plus (Class id_char)) id) by (apply lang_plus_class; auto).
  destruct Hrest as [-> | (path & -> & Hpath)].
  - left. unfold pattern_profile.
    constructor; [apply lang_literal; reflexivity|].
    constructor; [exact Lw|].
    constructor; [apply lang_literal; reflexivity|].
    constructor; [exact Li | apply lang_opt; right; reflexivity].
  - right. unfold pattern_profile_path.
    constructor; [apply lang_literal; reflexivity|].
    constructor; [exact Lw|].
    constructor; [apply lang_literal; reflexivity|].
    constructor; [exact Li|].
    constructor; [constructor | apply lang_star_class; exact Hpath].
Qed.

End UrlFacts.

Module SplitFacts.
Import Py Regex ProfileUrl UrlSpec StringFacts.

Lemma prefix_app (sep s : string) :
  prefix sep s = true -> exists t, s = sep ++ t.
Proof.
  revert s. induction sep as [|c sep IH]; intros s H.
  - exists s. reflexivity.
  - destruct s as [|x s]; simpl in H; [discriminate|].
    destruct (ascii_dec c x) as [->|]; [|discriminate].
    destruct (IH s H) as (t & ->). exists t. reflexivity.
Qed.

Lemma prefix_of_app (sep t : string) : prefix sep (sep ++ t) = true.
Proof.
  induction sep as [|c sep IH]; simpl; [destruct t; reflexivity|].
  destruct (ascii_dec c c); [exact IH | contradiction].
Qed.

(** [prefix sep] reads no further than [sep] is long. *)
Lemma prefix_agree (sep x y z : string) :
  String.length sep <= String.length x ->
  prefix sep (x ++ y) = prefix sep (x ++ z).
Proof.
  revert x. induction sep as [|c sep IH]; intros x Hlen.
  - destruct (x ++ y), (x ++ z); reflexivity.
  - destruct x as [|a x]; simpl in Hlen; [lia|]. simpl.
    destruct (ascii_dec c a); [apply IH; lia | reflexivity].
Qed.

Lemma split_from_nonempty (sep s : string) (k : nat) :
  exists p ps, split_from sep s k = p :: ps.
Proof.
  revert k. induction s as [|c s IH]; intros k; cbn [split_from]; [eauto|].
  destruct k as [|k]; [|apply IH].
  destruct (prefix sep (String c s)); [eauto|].
  destruct (IH 0) as (p & ps & ->). eauto.
Qed.

(** The characters of an occurrence are passed over. *)
Lemma split_from_skip (sep x t : string) :
  split_from sep (x ++ t) (String.length x) = split_from sep t 0.
Proof. induction x as [|c x IH]; simpl; [reflexivity | exact IH]. Qed.

Lemma split_at_sep (sep t : string) :
  sep <> "" -> split sep (sep ++ t) = "" :: split sep t.
Proof.
  intros Hne. unfold split. destruct sep as [|c sep]; [contradiction|].
  change (String c sep ++ t) with (String c (sep ++ t)).
  cbn [split_from].
  change (String c (sep ++ t)) with (String c sep ++ t).
  rewrite prefix_of_app.
  replace (String.length (String c sep) - 1) with (String.length sep)
    by (cbn [String.length]; lia).
  rewrite split_from_skip. reflexivity.
Qed.

(** A text without the first character of [sep] goes whole into the
    piece being read. *)
Lemma split_through (f : ascii) (sep' a t : string) :
  all_chars (fun c => negb (Ascii.eqb c f)) a = true ->
  exists p ps,
    split (String f sep') t = p :: ps /\
    split (String f sep') (a ++ t) = (a ++ p) :: ps.
Proof.
  intros H. unfold split.
  destruct (split_from_nonempty (String f sep') t 0) as (p & ps & Ht).
  exists p, ps. split; [exact Ht|].
  induction a as [|c a IH]; [exact Ht|].
  cbn [all_chars] in H. apply andb_true_iff in H. destruct H as [Hc Ha].
  change (String c a ++ t) with (String c (a ++ t)).
  cbn [split_from prefix].
  destruct (ascii_dec f c) as [->|Hne].
  - rewrite Ascii.eqb_refl in Hc. discriminate.
  - rewrite (IH Ha). reflexivity.
Qed.

(** Where [sep] occurs, the first piece is what stands before the first
    occurrence, and the same piece is cut from any text that starts the
    same way. *)
Lemma split_first_piece (sep s : string) :
  sep <> "" -> contains s sep = true ->
  exists a b,
    s = a ++ sep ++ b /\ split sep s = a :: split sep b /\
    (forall t, split sep (a ++ sep ++ t) = a :: split sep t).
Proof.
  intros Hne. induction s as [|c s IH]; intros Hc.
  - simpl in Hc. rewrite orb_false_r in Hc.
    destruct sep; [contradiction | discriminate].
  - destruct (prefix sep (String c s)) eqn:Hp.
    + destruct (prefix_app _ _ Hp) as (b & Hb).
      exists "", b. cbn [append]. rewrite Hb.
      split; [reflexivity|]. split; [apply split_at_sep; exact Hne|].
      intros t. apply split_at_sep. exact Hne.
    + cbn [contains] in Hc. rewrite Hp in Hc. cbn [orb] in Hc.
      destruct (IH Hc) as (a & b & Hs & Hsplit & Hall).
      exists (String c a), b. split; [rewrite Hs; reflexivity|].
      assert (Hstep : forall t, prefix sep (String c (a ++ sep ++ t)) = false).
      { intros t. rewrite <- Hp, Hs.
        change (String c (a ++ sep ++ t)) with (String c a ++ sep ++ t).
        change (String c (a ++ sep ++ b)) with (String c a ++ sep ++ b).
        rewrite <- !app_assoc. apply prefix_agree.
        rewrite app_length. lia. }
      split.
      * unfold split in *. cbn [split_from]. rewrite Hp, Hsplit. reflexivity.
      * intros t. unfold split in *.
        change (String c a ++ sep ++ t) with (String c (a ++ sep ++ t)).
        cbn [split_from]. rewrite Hstep, Hall. reflexivity.
Qed.

Lemma contains_app (a sep t : string) : contains (a ++ sep ++ t) sep = true.
Proof.
  induction a as [|c a IH].
  - cbn [append]. destruct (sep ++ t) eqn:E; cbn [contains];
      rewrite <- E, prefix_of_app; reflexivity.
  - change (String c a ++ sep ++ t) with (String c (a ++ sep ++ t)).
    cbn [contains]. rewrite IH. apply orb_true_r.
Qed.

(** The first piece of a split at a single character has none of it. *)
Lemma first_piece_clean (f : ascii) (s : string) :
  exists seg ps,
    split (String f "") s = seg :: ps /\
    all_chars (fun c => negb (Ascii.eqb c f)) seg = true /\
    (s = seg \/ exists t, s = seg ++ String f t).
Proof.
  unfold split. induction s as [|c s IH].
  - exists "", []. repeat split; auto.
  - cbn [split_from prefix].
    destruct (ascii_dec f c) as [->|Hne].
    + destruct s; cbn [prefix String.length Nat.sub];
        eexists "", _; (split; [reflexivity|]); split; auto; right; eexists; reflexivity.
    + destruct IH as (seg & ps & -> & Hseg & Hs).
      exists (String c seg), ps. split; [reflexivity|]. split.
      * cbn [all_chars]. rewrite Hseg, andb_true_r.
        apply negb_true_iff, Ascii.eqb_neq. auto.
      * destruct Hs as [-> | (t & ->)]; [left; reflexivity|].
        right. exists t. reflexivity.
Qed.

Lemma ends_with_clean (f : ascii) (seg : string) :
  seg <> "" -> all_chars (fun c => negb (Ascii.eqb c f)) seg = true ->
  forall a, ends_with (a ++ seg) (String f "") = false.
Proof.
  intros Hne Hseg.
  assert (Hbase : ends_with seg (String f "") = false).
  { clear Hne. induction seg as [|c seg IH]; [reflexivity|].
    cbn [all_chars] in Hseg. apply andb_true_iff in Hseg. destruct Hseg as [Hc Hs].
    cbn [ends_with]. rewrite (IH Hs), orb_false_r.
    apply String.eqb_neq. intros E. inversion E; subst.
    rewrite Ascii.eqb_refl in Hc. discriminate. }
  induction a as [|x a IH]; [exact Hbase|].
  change (String x a ++ seg) with (String x (a ++ seg)).
  cbn [ends_with]. rewrite IH, orb_false_r.
  apply String.eqb_neq. intros E. inversion E as [[Hx Happ]].
  apply app_eq_nil in Happ. destruct Happ as [_ Hseg']. contradiction.
Qed.

Lemma ends_with_suffix (a suffix : string) : ends_with (a ++ suffix) suffix = true.
Proof.
  induction a as [|x a IH].
  - cbn [append]. destruct suffix; cbn [ends_with]; rewrite String.eqb_refl; reflexivity.
  - change (String x a ++ suffix) with (String x (a ++ suffix)).
    cbn [ends_with]. rewrite IH. apply orb_true_r.
Qed.

(** Texts [strip] leaves alone. *)
Lemma rstrip_fixed (a : string) (c : ascii) :
  is_space c = false -> rstrip (a ++ String c "") = a ++ String c "".
Proof.
  intros Hc. induction a as [|x a IH]; simpl.
  - rewrite Hc. reflexivity.
  - rewrite IH. destruct (a ++ String c "") eqn:E; [|reflexivity].
    apply app_eq_nil in E. destruct E as [_ E]. discriminate.
Qed.

Lemma strip_fixed (x c : ascii) (a : string) :
  is_space x = false -> is_space c = false ->
  strip (String x (a ++ String c "")) = String x (a ++ String c "").
Proof.
  intros Hx Hc. unfold strip. cbn [lstrip]. rewrite Hx.
  change (String x (a ++ String c "")) with (String x a ++ String c "").
  apply rstrip_fixed. exact Hc.
Qed.

Lemma rstrip_idem (s : string) : rstrip (rstrip s) = rstrip s.
Proof.
  induction s as [|c s IH]; [reflexivity|]. simpl.
  destruct (rstrip s) as [|y r] eqn:E.
  - destruct (is_space c) eqn:Hc; [reflexivity|]. simpl. rewrite Hc. reflexivity.
  - simpl. simpl in IH. rewrite IH. reflexivity.
Qed.

Lemma lstrip_rstrip (s : string) : lstrip (rstrip (lstrip s)) = rstrip (lstrip s).
Proof.
  destruct (rstrip (lstrip s)) as [|c r] eqn:E; [reflexivity|].
  apply UrlFacts.rstrip_first in E. destruct E as (r' & E).
  apply UrlFacts.lstrip_first in E. simpl. rewrite E. reflexivity.
Qed.

Lemma strip_idem (s : string) : strip (strip s) = strip s.
Proof. unfold strip. rewrite lstrip_rstrip. apply rstrip_idem. Qed.

Lemma split_no_sep (sep s : string) :
  contains s sep = false -> split sep s = [s].
Proof.
  unfold split. induction s as [|c s IH]; intros H; [reflexivity|].
  cbn [contains] in H. apply orb_false_iff in H. destruct H as [Hp Hc].
  cbn [split_from]. rewrite Hp, (IH Hc). reflexivity.
Qed.

(** The first piece is the text itself, or what stands before a
    separator. *)
Lemma split_head (sep s : string) :
  sep <> "" ->
  exists p ps, split sep s = p :: ps /\ (s = p \/ exists t, s = p ++ sep ++ t).
Proof.
  intros Hne. destruct (contains s sep) eqn:Hc.
  - destruct (split_first_piece sep s Hne Hc) as (a & b & Hs & Hsplit & _).
    exists a, (split sep b). split; [exact Hsplit|]. right. exists b. exact Hs.
  - exists s, []. split; [apply split_no_sep; exact Hc | left; reflexivity].
Qed.

(** A text has one longest start without [f]. *)
Lemma clean_start_unique (f : ascii) (x y tx ty : string) :
  all_chars (fun c => negb (Ascii.eqb c f)) x = true ->
  all_chars (fun c => negb (Ascii.eqb c f)) y = true ->
  (tx = "" \/ exists t, tx = String f t) ->
  (ty = "" \/ exists t, ty = String f t) ->
  x ++ tx = y ++ ty -> x = y.
Proof.
  revert y. induction x as [|c x IH]; intros y Hx Hy Htx Hty Heq.
  - destruct y as [|d y]; [reflexivity|]. exfalso.
    cbn [all_chars] in Hy. apply andb_true_iff in Hy. destruct Hy as [Hd _].
    cbn [append] in Heq. destruct Htx as [-> | (t & ->)]; [discriminate|].
    inversion Heq; subst. rewrite Ascii.eqb_refl in Hd. discriminate.
  - cbn [all_chars] in Hx. apply andb_true_iff in Hx. destruct Hx as [Hc Hx].
    destruct y as [|d y].
    + exfalso. cbn [append] in Heq.
      destruct Hty as [-> | (t & ->)]; [discriminate|].
      inversion Heq; subst. rewrite Ascii.eqb_refl in Hc. discriminate.
    + cbn [all_chars] in Hy. apply andb_true_iff in Hy. destruct Hy as [_ Hy].
      cbn [append] in Heq. inversion Heq; subst. f_equal.
      eapply IH; eauto.
Qed.

End SplitFacts.

Module CleanFacts.
Import Py Regex ProfileUrl UrlSpec StringFacts SplitFacts.

Definition no_slash : ascii -> bool := fun c => negb (Ascii.eqb c "/").

(** What [clean_linkedin_url] returns for a text that has [/in/]: the text
    up to the first [/in/], and the profile id, the longest start without a
    slash of what follows. *)
Lemma clean_at_first_in (u a b : string) :
  strip u = a ++ "/in/" ++ b ->
  (forall t, split "/in/" (a ++ "/in/" ++ t) = a :: split "/in/" t) ->
  exists seg t,
    b = seg ++ t /\ all_chars no_slash seg = true /\
    (t = "" \/ exists t', t = String "/" t') /\
    clean_linkedin_url (PStr u)
    = Ok (a ++ "/in/" ++ seg ++ (if String.eqb seg "" then "" else "/")).
Proof.
  intros Hs Hcut.
  assert (Hin : "/in/" <> "") by discriminate.
  assert (Hsl : "/" <> "") by discriminate.
  destruct (split_head "/in/" b Hin) as (after & ps & Hafter & Hb).
  destruct (first_piece_clean "/" after) as (seg & ps' & Hseg & Hclean & Hrest).
  assert (Htail : exists t, b = seg ++ t /\ (t = "" \/ exists t', t = String "/" t')).
  { destruct Hrest as [-> | (t1 & ->)].
    - destruct Hb as [-> | (t2 & ->)].
      + exists "". split; [rewrite app_nil_r; reflexivity | left; reflexivity].
      + exists ("/in/" ++ t2). split; [reflexivity | right; eexists; reflexivity].
    - destruct Hb as [-> | (t2 & ->)].
      + exists (String "/" t1). split; [reflexivity | right; eexists; reflexivity].
      + exists (String "/" t1 ++ "/in/" ++ t2). split.
        * rewrite app_assoc. reflexivity.
        * right. eexists. reflexivity. }
  destruct Htail as (t & Hbt & Ht).
  exists seg, t. split; [exact Hbt|]. split; [exact Hclean|]. split; [exact Ht|].
  unfold clean_linkedin_url. cbn [obj_strip bind]. rewrite Hs, contains_app.
  rewrite Hcut, Hafter. cbn [item nth_error bind]. rewrite Hseg.
  cbn [item nth_error bind]. f_equal.
  destruct seg as [|c seg].
  - cbn [String.eqb]. rewrite !app_nil_r.
    replace (a ++ "/in/") with ((a ++ "/in") ++ "/")
      by (rewrite app_assoc; reflexivity).
    rewrite ends_with_suffix. reflexivity.
  - cbn [String.eqb].
    replace (a ++ "/in/" ++ String c seg) with ((a ++ "/in/") ++ String c seg)
      by (rewrite app_assoc; reflexivity).
    rewrite (ends_with_clean "/" (String c seg)); [|discriminate | exact Hclean].
    cbn [negb]. rewrite !app_assoc. reflexivity.
Qed.


Lemma prefix_mono (sep x y : string) :
  prefix sep x = true -> prefix sep (x ++ y) = true.
Proof.
  intros H. destruct (prefix_app _ _ H) as (t & ->).
  rewrite app_assoc. apply prefix_of_app.
Qed.

(** The first piece of a split has no separator in it. *)
Lemma split_head_no_sep (sep s a : string) (ps : list string) :
  sep <> "" -> split sep s = a :: ps -> contains a sep = false.
Proof.
  intros Hne. unfold split. revert a ps.
  induction s as [|c s IH]; intros a ps H.
  - cbn [split_from] in H. inversion H; subst.
    destruct sep; [contradiction | reflexivity].
  - cbn [split_from] in H. destruct (prefix sep (String c s)) eqn:Hp.
    + inversion H; subst. destruct sep; [contradiction | reflexivity].
    + destruct (split_head sep s Hne) as (p & ps' & Hsplit & Hs).
      unfold split in Hsplit. rewrite Hsplit in H. inversion H; subst.
      cbn [contains]. rewrite (IH p _ Hsplit), orb_false_r.
      destruct (prefix sep (String c p)) eqn:Hp'; [|reflexivity].
      destruct Hs as [-> | (t & ->)]; [congruence|].
      apply (prefix_mono _ _ (sep ++ t)) in Hp'.
      change (String c p ++ sep ++ t) with (String c (p ++ sep ++ t)) in Hp'.
      congruence.
Qed.

(** What [clean_linkedin_url] returns is left alone by [strip]. *)
Lemma strip_cleaned (u a b m : string) :
  strip u = a ++ "/in/" ++ b ->
  strip ((a ++ "/in" ++ m) ++ "/") = (a ++ "/in" ++ m) ++ "/".
Proof.
  intros Hs. destruct a as [|x a].
  - cbn [append]. apply (strip_fixed "/" "/" ("in" ++ m)); reflexivity.
  - cbn [append] in *. apply strip_fixed; [|reflexivity].
    eapply UrlFacts.strip_first. exact Hs.
Qed.


End CleanFacts.

Module ValidateFacts.
Import Py Regex ProfileUrl UrlSpec StringFacts RegexFacts UrlFacts.

Lemma validate_shape (u : string) :
  validate_linkedin_url (PStr u) = Ok true <-> profile_url_shape (strip u).
Proof.
  unfold validate_linkedin_url, patterns. cbn [obj_strip bind existsb].
  rewrite orb_false_r. split.
  - intros H. injection H as H.
    apply orb_true_iff in H. destruct H as [H | H];
      [|apply orb_true_iff in H; destruct H as [H | H]];
      apply re_match_stripped in H.
    + apply lang_pattern_profile in H.
      destruct H as (www & id & tail & Heq & Hwww & Hne & Hid & Htail).
      exists www, id, tail. rewrite Heq. repeat split; auto.
      destruct Htail as [-> | ->]; [left; reflexivity|].
      right. exists "". split; reflexivity.
    + apply lang_pattern_profile_path in H.
      destruct H as (www & id & path & Heq & Hwww & Hne & Hid & Hpath).
      exists www, id, ("/" ++ path). rewrite Heq. repeat split; auto.
      right. exists path. split; [reflexivity | exact Hpath].
    + apply lang_pattern_bare in H.
      destruct H as (id & tail & Heq & Hne & Hid & Htail).
      exists "", id, tail. rewrite Heq. repeat split; auto.
      destruct Htail as [-> | ->]; [left; reflexivity|].
      right. exists "". split; reflexivity.
  - intros H. f_equal. apply shape_in_patterns in H.
    destruct H as [H | H]; apply re_match_stripped in H; rewrite H;
      [reflexivity | rewrite orb_true_r; reflexivity].
Qed.

Lemma validate_total (u : string) :
  validate_linkedin_url (PStr u) = Ok true \/ validate_linkedin_url (PStr u) = Ok false.
Proof.
  unfold validate_linkedin_url. cbn [obj_strip bind].
  destruct (existsb _ _); auto.
Qed.

End ValidateFacts.

Module UrlProps.
Import Py Regex ProfileUrl UrlSpec StringFacts RegexFacts UrlFacts.

(** X1. [validate_linkedin_url] accepts a text exactly when, once stripped, it
    is https, the host linkedin.com with or without www., /in/, a profile
    id of letters, digits, hyphen, underscore and percent, and then
    nothing, or a slash and one line of anything. *)
Theorem validate_accepts_profile_urls (u : string) :
  validate_linkedin_url (PStr u) = Ok true <-> profile_url_shape (strip u).
Proof. exact (ValidateFacts.validate_shape u). Qed.

(** X2. [clean_linkedin_url] never fails on a text.  Without [/in/] the text
    comes back stripped; with it, the result is the stripped text up to
    the first [/in/] (what stands before has none), then the profile id,
    which is what follows up to the next slash, then one closing slash
    (none is added after an empty id). *)
Theorem clean_keeps_host_and_id (u : string) :
  (contains (strip u) "/in/" = false /\
   clean_linkedin_url (PStr u) = Ok (strip u)) \/
  (exists a id t,
     strip u = a ++ "/in/" ++ id ++ t /\
     contains a "/in/" = false /\
     all_chars CleanFacts.no_slash id = true /\
     (t = "" \/ exists t', t = String "/" t') /\
     clean_linkedin_url (PStr u)
     = Ok (a ++ "/in/" ++ id ++ (if String.eqb id "" then "" else "/"))).
Proof.
  destruct (contains (strip u) "/in/") eqn:Hc.
  - right.
    destruct (SplitFacts.split_first_piece "/in/" (strip u)) as (a & b & Hs & Hsplit & Hcut);
      [discriminate | exact Hc |].
    destruct (CleanFacts.clean_at_first_in u a b Hs Hcut) as (id & t & Hb & Hid & Ht & Hclean).
    exists a, id, t. subst b. split; [exact Hs|].
    split; [|split; [exact Hid | split; [exact Ht | exact Hclean]]].
    eapply CleanFacts.split_head_no_sep; [|exact Hsplit]. discriminate.
  - left. split; [reflexivity|].
    unfold clean_linkedin_url. cbn [obj_strip bind]. rewrite Hc. reflexivity.
Qed.

(** X3. Cleaning a cleaned URL changes nothing. *)
Theorem clean_is_idempotent (u v : string) :
  clean_linkedin_url (PStr u) = Ok v -> clean_linkedin_url (PStr v) = Ok v.
Proof.
  intros Hu. destruct (contains (strip u) "/in/") eqn:Hc.
  - destruct (SplitFacts.split_first_piece "/in/" (strip u)) as (a & b & Hs & _ & Hcut);
      [discriminate | exact Hc |].
    destruct (CleanFacts.clean_at_first_in u a b Hs Hcut) as (id & t & Hb & Hid & Ht & Hclean).
    rewrite Hclean in Hu. injection Hu as <-.
    set (tail := id ++ (if String.eqb id "" then "" else "/")).
    assert (Hstrip : strip (a ++ "/in/" ++ tail) = a ++ "/in/" ++ tail).
    { unfold tail. destruct id as [|c id].
      - cbn [String.eqb append].
        replace (a ++ "/in/") with ((a ++ "/in" ++ "") ++ "/")
          by (rewrite app_assoc; reflexivity).
        eapply CleanFacts.strip_cleaned. exact Hs.
      - cbn [String.eqb].
        replace (a ++ "/in/" ++ String c id ++ "/")
          with ((a ++ "/in" ++ String "/" (String c id)) ++ "/")
          by (rewrite !app_assoc; reflexivity).
        eapply CleanFacts.strip_cleaned. exact Hs. }
    destruct (CleanFacts.clean_at_first_in (a ++ "/in/" ++ tail) a tail Hstrip Hcut)
      as (id2 & t2 & Htail & Hid2 & Ht2 & Hclean2).
    change (clean_linkedin_url (PStr (a ++ "/in/" ++ tail)) = Ok (a ++ "/in/" ++ tail)).
    rewrite Hclean2. f_equal. f_equal. f_equal.
    assert (Hsame : id2 = id).
    { unfold tail in Htail. destruct (String.eqb id "") eqn:E.
      - apply String.eqb_eq in E. subst id. cbn [append] in Htail.
        symmetry in Htail. apply app_eq_nil in Htail. tauto.
      - eapply (SplitFacts.clean_start_unique "/" id2 id t2 "/");
          [exact Hid2 | exact Hid | exact Ht2 | | symmetry; exact Htail].
        right. exists "". reflexivity. }
    subst id2. reflexivity.
  - unfold clean_linkedin_url in Hu. cbn [obj_strip bind] in Hu.
    rewrite Hc in Hu. injection Hu as <-.
    unfold clean_linkedin_url. cbn [obj_strip bind].
    rewrite SplitFacts.strip_idem, Hc. reflexivity.
Qed.

Lemma clean_is_idempotent_witness :
  clean_linkedin_url (PStr "https://www.linkedin.com/in/ada/")
  = Ok "https://www.linkedin.com/in/ada/".
Proof.
  apply (clean_is_idempotent "  https://www.linkedin.com/in/ada/details/skills  ").
  reflexivity.
Defined.




End UrlProps.

(** ** What the classifier hands to the router *)

Module FlowFacts.
Import Py Routing IntentClassifier ClassifierSpec ClassifierFacts RouterSpec RouterFacts
  HandlerSpec FlowSpec PyFacts.

Lemma py_eq_text (v : pyval) (s : string) : py_eq v (PStr s) = true -> v = PStr s.
Proof.
  destruct v; simpl; intros H; try discriminate H.
  apply String.eqb_eq in H. subst. reflexivity.
Qed.

Lemma py_in_handler_names (v : pyval) :
  py_in v valid_intents = true -> In v handler_names.
Proof.
  unfold py_in, valid_intents, handler_names. cbn [existsb].
  rewrite !orb_true_iff. intros [H | [H | [H | [H | H]]]]; try discriminate H;
    apply py_eq_text in H; subst; simpl; auto.
Qed.

Lemma handler_names_not_end (v : pyval) : In v handler_names -> v <> END.
Proof.
  intros H Hend. subst v. simpl in H.
  repeat (destruct H as [H | H]; [discriminate H|]). exact H.
Qed.

Lemma expected_intent_valid (q : string) :
  py_in (PStr (expected_intent q)) valid_intents = true.
Proof.
  unfold expected_intent, first_group, keyword_groups.
  cbn [find snd fst option_map].
  destruct (any_in (lower q) profile_keywords); [reflexivity|].
  destruct (any_in (lower q) job_fit_keywords); [reflexivity|].
  destruct (any_in (lower q) content_keywords); reflexivity.
Qed.

Section Agent.

Variable llm : string -> string -> result pyval.
Variable json_loads : string -> result pyval.

(** What the inner [try] returns names one of the four handlers. *)
Lemma parse_and_validate_valid (content sid v : pyval) :
  parse_and_validate json_loads content sid = Ok v ->
  exists i c r,
    v = PDict [("intent", i); ("confidence", c); ("reasoning", r);
               ("session_id", sid); ("success", PBool true)] /\
    py_in i valid_intents = true.
Proof.
  unfold parse_and_validate.
  destruct (re_search_braces content) as [m|e]; cbn [bind]; [|discriminate].
  destruct (match m with Some s => json_loads s | None => json_loads (py_str content) end)
    as [p|e]; cbn [bind]; [|discriminate].
  destruct p; cbn [obj_get obj_get_or bind]; try discriminate.
  destruct (py_in (get_or d "intent" PNone) valid_intents) eqn:Hv; cbn [negb bind].
  - unfold getitem, get_or in *.
    destruct (lookup d "intent") as [x|]; cbn [bind]; [|discriminate].
    intros H. injection H as <-. eauto.
  - unfold getitem, get_or.
    rewrite !(lookup_setitem_other _ "reasoning") by reflexivity.
    rewrite !(lookup_setitem_other _ "confidence") by reflexivity.
    rewrite lookup_setitem_same. cbn [bind].
    intros H. injection H as <-. eexists _, _, _. split; reflexivity.
Qed.

Lemma classify_intent_valid (q : string) (sid : pyval) :
  exists i c r,
    classify_intent llm json_loads (PStr q) sid
    = Ok (PDict [("intent", i); ("confidence", c); ("reasoning", r);
                 ("session_id", sid); ("success", PBool true)]) /\
    py_in i valid_intents = true.
Proof.
  destruct (fallback_total q sid) as (r & Hf).
  assert (Hfb : exists i c r0,
            _fallback_classification (PStr q) sid
            = Ok (PDict [("intent", i); ("confidence", c); ("reasoning", r0);
                         ("session_id", sid); ("success", PBool true)]) /\
            py_in i valid_intents = true).
  { rewrite Hf. eexists _, _, _. split; [reflexivity | apply expected_intent_valid]. }
  unfold classify_intent.
  destruct (llm system_prompt (user_prompt (PStr q))) as [content|e];
    cbn [bind try_except]; [|exact Hfb].
  destruct (parse_and_validate json_loads content sid) as [v|e] eqn:Hpv;
    cbn [except_json_decode try_except].
  - destruct (parse_and_validate_valid _ _ _ Hpv) as (i & c & r' & -> & Hi). eauto.
  - destruct (String.eqb (exn_class e) "JSONDecodeError");
      destruct Hfb as (i & c & r0 & Hfb & Hi); rewrite Hfb; cbn [try_except]; eauto.
Qed.

End Agent.

Lemma classified_intent_valid (state : dict) :
  classification_valid state = true ->
  exists o, classified_intent state = Ok o /\
            (o = None \/ exists i, o = Some i /\ In i handler_names).
Proof.
  unfold classification_valid, classified_intent.
  destruct (lookup state "intent_classification") as [v|]; [|eauto].
  destruct v; cbn [truthy]; intros H;
    try (apply negb_true_iff in H; rewrite H; eauto; fail); try (eauto; fail).
  destruct d as [|p d']; [eauto|]. cbn [obj_get obj_get_or bind].
  change (get_or (p :: d') "intent" PNone) with (get (p :: d') "intent").
  destruct (truthy (get (p :: d') "intent")) eqn:Ht; cbn [negb orb] in H.
  - eexists. split; [reflexivity|]. right. eexists. split; [reflexivity|].
    apply py_in_handler_names. exact H.
  - eauto.
Qed.

Lemma handler_name_truthy (i : pyval) : In i handler_names -> truthy i = true.
Proof.
  intros H. simpl in H.
  repeat (destruct H as [<- | H]; [reflexivity|]). contradiction.
Qed.

(** Storing the classification changes nothing the termination test reads. *)
Lemma answered_after_classification (state : dict) (v : pyval) :
  answered (setitem state "intent_classification" v) = answered state.
Proof.
  unfold answered, slot_answers, get, get_or.
  rewrite !(lookup_setitem_other _ "intent_classification") by reflexivity.
  reflexivity.
Qed.

End FlowFacts.

Module FlowProps.
Import Py Routing IntentClassifier RouterSpec RouterFacts HandlerSpec FlowSpec FlowFacts Stubs.

(** X5. Whatever the completion service and the JSON parser do, the
    classification of a question text has the five fields intent,
    confidence, reasoning, session_id and success, carries the caller's
    session id, and its intent is one of the four handler names. *)
Theorem classification_names_a_handler
    (llm : string -> string -> result pyval) (json_loads : string -> result pyval)
    (q : string) (sid : pyval) :
  exists d,
    classify_intent llm json_loads (PStr q) sid = Ok (PDict d) /\
    keys d = ["intent"; "confidence"; "reasoning"; "session_id"; "success"] /\
    lookup d "session_id" = Some sid /\
    In (get d "intent") handler_names.
Proof.
  destruct (classify_intent_valid llm json_loads q sid) as (i & c & r & H & Hi).
  eexists. split; [exact H|]. split; [reflexivity|]. split; [reflexivity|].
  apply py_in_handler_names. exact Hi.
Qed.



(** X7. On a state whose result slots are dicts (or empty) and whose
    classification names a handler, the router does not raise and returns
    END or one of the four handler names: never the classifier, never an
    unknown node. *)
Theorem router_names_a_handler_or_end (state : dict) :
  results_typed state = true ->
  classification_valid state = true ->
  exists next, router state = Ok next /\ (next = END \/ In next handler_names).
Proof.
  intros Hres Hcls. unfold router.
  destruct (has_key state "error" || truthy (get state "force_end")); [eauto|].
  destruct (answered_spec state Hres) as (b & Hans & _).
  assert (Hdone : exists done,
            (if py_eq (get state "command") (PStr "chat")
             then answered state else Ok false) = Ok done).
  { destruct (py_eq (get state "command") (PStr "chat")); eauto. }
  destruct Hdone as (done & ->). cbn [bind].
  destruct done; [eauto|].
  destruct (classified_intent_valid state Hcls) as (o & -> & Ho). cbn [bind].
  destruct Ho as [-> | (i & -> & Hi)].
  - eexists. split; [reflexivity|]. right. simpl. auto.
  - eauto.
Qed.

Lemma router_names_a_handler_or_end_witness :
  exists next,
    router stale_state = Ok next /\ (next = END \/ In next handler_names).
Proof. apply router_names_a_handler_or_end; reflexivity. Defined.

(** X8. The result a chat handler returns after a completion that went
    through ends the turn: in any chat state that asks the same question
    and holds that result under the handler's key, the router returns
    END. *)
Theorem answered_turn_terminates (h : handler)
    (llm : string -> string -> result pyval)
    (profile jd sid hist : pyval) (q payload text : string)
    (r : pyval) (state : dict) :
  payload_of h profile jd (PStr q) hist = Ok payload ->
  llm (system_prompt_of h) payload = Ok (PStr text) ->
  handle_chat h llm profile jd (PStr q) sid hist = Ok r ->
  has_key state "error" = false ->
  truthy (get state "force_end") = false ->
  get state "command" = PStr "chat" ->
  get state "user_question" = PStr q ->
  results_typed state = true ->
  lookup state (slot_of h) = Some r ->
  router state = Ok END.
Proof.
  intros Hp Hllm Hr Herr Hforce Hcmd Hq Hres Hslot.
  rewrite HandlerFacts.handle_chat_unfold, Hp in Hr. cbn [bind] in Hr.
  rewrite Hllm in Hr. cbn [bind obj_strip try_except] in Hr. injection Hr as <-.
  destruct (answered_spec state Hres) as (b & Hans & Hb).
  assert (Hb' : b = true).
  { apply Hb. exists (slot_of h). split; [destruct h; simpl; auto|].
    destruct h; eexists; (split; [exact Hslot|]); (split; [discriminate|]);
      rewrite Hq; cbn; apply String.eqb_refl. }
  unfold router. rewrite Herr, Hforce, Hcmd. cbn [orb py_eq String.eqb Ascii.eqb Bool.eqb].
  rewrite Hans, Hb'. reflexivity.
Qed.

Lemma answered_turn_terminates_witness :
  router
    (setitem fresh_chat_state "coaching"
       (CareerCoachAgent.coach_success "Learn SQL." (PStr "s1")
          (PStr "What skills should I develop?")))
  = Ok END.
Proof.
  destruct (payload_of CareerCoach (PDict [("name", PStr "Ada")]) (PStr "Data engineer")
              (PStr "What skills should I develop?") (PList []))
    as [payload|e] eqn:Hp; [|discriminate Hp].
  apply (answered_turn_terminates CareerCoach (llm_answers " Learn SQL. ")
           (PDict [("name", PStr "Ada")]) (PStr "Data engineer") (PStr "s1") (PList [])
           "What skills should I develop?" payload " Learn SQL. "
           (CareerCoachAgent.coach_success "Learn SQL." (PStr "s1")
              (PStr "What skills should I develop?"))
           (setitem fresh_chat_state "coaching"
              (CareerCoachAgent.coach_success "Learn SQL." (PStr "s1")
                 (PStr "What skills should I develop?")))
           Hp);
    reflexivity.
Defined.

(** X9. After the classifier node, on a state without error whose slots hold
    no answer to the question, the router names the handler the
    classification names, one of the four: the turn goes from the
    classifier to exactly that handler. *)
Theorem classifier_hands_over_to_a_handler
    (llm : string -> string -> result pyval) (json_loads : string -> result pyval)
    (state : dict) (q : string) :
  get_or state "user_question" (PStr "") = PStr q ->
  has_key state "error" = false ->
  truthy (get state "force_end") = false ->
  results_typed state = true ->
  ~ (exists k, In k result_slots /\ holds_answer state k) ->
  exists c,
    Graph.intent_classifier_node llm json_loads state
    = [("intent_classification", PDict c)] /\
    In (get c "intent") handler_names /\
    router (setitem state "intent_classification" (PDict c))
    = Ok (get c "intent").
Proof.
  intros Hq Herr Hforce Hres Hno.
  destruct (classify_intent_valid llm json_loads q (get_or state "session_id" (PStr "")))
    as (i & c & r & Hcls & Hi).
  eexists. split; [|split].
  - unfold Graph.intent_classifier_node. rewrite Hq, Hcls. reflexivity.
  - apply py_in_handler_names. exact Hi.
  - unfold router, has_key, get, get_or.
    rewrite !(PyFacts.lookup_setitem_other _ "intent_classification") by reflexivity.
    unfold has_key, get, get_or in Herr, Hforce. rewrite Herr, Hforce.
    cbn [orb]. rewrite answered_after_classification.
    destruct (answered_spec state Hres) as (b & Hans & Hb).
    assert (Hb' : b = false).
    { destruct b; [|reflexivity]. exfalso. apply Hno, Hb. reflexivity. }
    rewrite Hans, Hb'.
    assert (Hdone : (if py_eq
                          match lookup state "command" with
                          | Some v => v
                          | None => PNone
                          end (PStr "chat")
                     then Ok false else Ok false) = @Ok bool false)
      by (destruct (py_eq _ _); reflexivity).
    rewrite Hdone. cbn [bind].
    unfold classified_intent. rewrite PyFacts.lookup_setitem_same.
    cbn [truthy obj_get obj_get_or bind get_or lookup String.eqb Ascii.eqb Bool.eqb].
    rewrite (handler_name_truthy i (py_in_handler_names i Hi)). reflexivity.
Qed.

Lemma classifier_hands_over_to_a_handler_witness :
  exists c,
    Graph.intent_classifier_node llm_down (fun _ => Ok PNone) fresh_chat_state
    = [("intent_classification", PDict c)] /\
    In (get c "intent") handler_names /\
    router (setitem fresh_chat_state "intent_classification" (PDict c))
    = Ok (get c "intent").
Proof.
  apply (classifier_hands_over_to_a_handler llm_down (fun _ => Ok PNone)
           fresh_chat_state "What skills should I develop?");
    try reflexivity.
  intros (k & Hin & r & Hr & _). simpl in Hin.
  repeat (destruct Hin as [<- | Hin]; [discriminate Hr|]). exact Hin.
Defined.

End FlowProps.

(** ** The chat history *)

Module HistoryProps.
Import Py History HistorySpec.

(** X10. [chat_history_reducer] only appends: the old history is a prefix of
    the result, which has one more element for each new message; and the
    dicts [normalize_chat_history] makes of the result are those of the
    old history followed by those of the new one. *)
Theorem reducer_appends (old_history new_history : list entry) :
  (exists added,
     chat_history_reducer old_history new_history = (old_history ++ added)%list /\
     List.length added = List.length new_history) /\
  normalize_chat_history (chat_history_reducer old_history new_history)
  = (normalize_chat_history old_history ++ normalize_chat_history new_history)%list.
Proof.
  unfold chat_history_reducer, normalize_chat_history.
  destruct old_history as [|o old]; [|destruct new_history as [|n new]].
  - split; [exists new_history; split; reflexivity | reflexivity].
  - split; [exists []; split; [rewrite app_nil_r; reflexivity | reflexivity]|].
    rewrite app_nil_r. reflexivity.
  - split.
    + eexists. split; [reflexivity|]. rewrite length_map. reflexivity.
    + rewrite map_app, map_map. reflexivity.
Qed.

(** X11. With a non-empty old history the reducer adds dicts only, so a
    history of dicts stays one; with an empty old history it returns the
    new messages as they are, objects included. *)
Theorem reducer_converts_unless_old_is_empty (old_history new_history : list entry) :
  (old_history <> [] -> Forall is_message old_history ->
   Forall is_message (chat_history_reducer old_history new_history)) /\
  chat_history_reducer [] new_history = new_history.
Proof.
  split; [|reflexivity].
  intros Hne Hold. unfold chat_history_reducer.
  destruct old_history as [|o old]; [contradiction|].
  destruct new_history as [|n new]; [exact Hold|].
  apply Forall_app. split; [exact Hold|].
  apply Forall_map. apply Forall_forall. intros x _. exact I.
Qed.

Lemma reducer_converts_unless_old_is_empty_witness :
  Forall is_message
    (chat_history_reducer [Message [("role", PStr "assistant"); ("content", PStr "Hi")]]
       [human_message "Hello"]) /\
  chat_history_reducer [] [human_message "Hello"] = [human_message "Hello"].
Proof.
  split.
  - apply (proj1 (reducer_converts_unless_old_is_empty
                    [Message [("role", PStr "assistant"); ("content", PStr "Hi")]]
                    [human_message "Hello"])).
    + discriminate.
    + repeat constructor.
  - reflexivity.
Defined.

(** X12. [normalize_chat_history] keeps the length and the dicts of a history
    and changes nothing when run again; each object becomes a dict with
    exactly a role, user or assistant, and a content. *)
Theorem normalize_is_stable (history : list entry) :
  List.length (normalize_chat_history history) = List.length history /\
  normalize_chat_history (map Message (normalize_chat_history history))
  = normalize_chat_history history /\
  (forall attrs text, In (Object attrs text) history ->
     exists role content,
       as_dict (Object attrs text) = [("role", PStr role); ("content", content)] /\
       (role = "user" \/ role = "assistant")).
Proof.
  unfold normalize_chat_history. split; [apply length_map|]. split.
  - rewrite !map_map. reflexivity.
  - intros attrs text _. unfold as_dict.
    destruct (has_key attrs "content"); [|eauto].
    destruct (has_key attrs "type" && py_eq (get attrs "type") (PStr "human")); eauto.
Qed.

End HistoryProps.

(** ** A chat turn, from the prepared state to the response shown *)

Module TurnFacts.
Import Py Routing IntentClassifier RouterSpec RouterFacts Agents HandlerSpec
  HandlerFacts FlowSpec FlowFacts PyFacts.

Lemma handler_of_name (i : pyval) :
  In i handler_names -> exists h, i = PStr (node_name h).
Proof.
  intros H. simpl in H.
  destruct H as [<- | [<- | [<- | [<- | []]]]];
    [exists ProfileAnalyzer | exists JobFit | exists ContentEnhancer | exists CareerCoach];
    reflexivity.
Qed.

Section Nodes.

Variables profile_llm job_fit_llm content_llm coach_llm : Graph.llm_t.
Variable profile_batch : pyval -> pyval -> result pyval.
Variable job_fit_batch : pyval -> pyval -> pyval -> result pyval.
Variable content_batch : pyval -> pyval -> result pyval.
Variable coach_batch : pyval -> pyval -> pyval -> pyval -> result pyval.

Local Abbreviation node :=
  (node_of profile_llm job_fit_llm content_llm coach_llm
              profile_batch job_fit_batch content_batch coach_batch).
Local Abbreviation client :=
  (llm_of profile_llm job_fit_llm content_llm coach_llm).

(** With a question and a profile that is a dict, a handler's node stores
    what its chat handler returns. *)
Lemma node_of_chat (h : handler) (state profile : dict) :
  get_or state "profile" (PDict []) = PDict profile ->
  truthy (get_or state "user_question" (PStr "")) = true ->
  node h state
  = Graph.node_update (slot_of h)
      (handle_chat h (client h) (PDict profile)
         (get_or state "job_description" (PStr ""))
         (get_or state "user_question" (PStr ""))
         (get_or state "session_id" (PStr ""))
         (history_read h (get_or state "chat_history" (PList [])))).
Proof.
  intros Hp Hq.
  destruct (entries_run_chat_handler (client h) profile
              (get_or state "job_description" (PStr ""))
              (get_or state "user_question" (PStr ""))
              (get_or state "session_id" (PStr ""))
              (get_or state "chat_history" (PList []))
              (match h with ContentEnhancer => content_batch | _ => profile_batch end)
              job_fit_batch coach_batch Hq)
    as (H1 & H2 & H3 & H4).
  destruct h;
    cbn [node_of llm_of slot_of history_read] in *;
    unfold Graph.profile_analyzer_node, Graph.job_fit_node,
      Graph.content_enhancer_node, Graph.career_coach_node;
    rewrite Hp.
  - rewrite H1. reflexivity.
  - rewrite H2. reflexivity.
  - rewrite H3. reflexivity.
  - rewrite H4. reflexivity.
Qed.

End Nodes.

End TurnFacts.

Module TurnProps.
Import Py Routing IntentClassifier RouterSpec RouterFacts Agents HandlerSpec
  HandlerFacts FlowSpec FlowFacts TurnFacts PyFacts Stubs.

Section Nodes.

Variables profile_llm job_fit_llm content_llm coach_llm classifier_llm : Graph.llm_t.
Variable json_loads : string -> result pyval.
Variable profile_batch : pyval -> pyval -> result pyval.
Variable job_fit_batch : pyval -> pyval -> pyval -> result pyval.
Variable content_batch : pyval -> pyval -> result pyval.
Variable coach_batch : pyval -> pyval -> pyval -> pyval -> result pyval.

Local Abbreviation node :=
  (node_of profile_llm job_fit_llm content_llm coach_llm
              profile_batch job_fit_batch content_batch coach_batch).
Local Abbreviation client :=
  (llm_of profile_llm job_fit_llm content_llm coach_llm).

(** X13. The three tables agree.  The graph has each handler's node under the
    name the classifier uses for it; whatever the state, the node returns
    one key, the handler's own or [error]; and that key is one the router
    looks at and the one the application reads for that name. *)
Theorem handler_writes_its_own_slot (h : handler) (state : dict) :
  node_named
    (Graph.nodes profile_llm job_fit_llm content_llm coach_llm classifier_llm
       json_loads profile_batch job_fit_batch content_batch coach_batch)
    (node_name h)
  = Some (node h) /\
  ((exists v, node h state = [(slot_of h, v)]) \/
   (exists text, node h state = [("error", PStr text)])) /\
  In (slot_of h) result_slots /\
  App.assoc App.agent_output_map (node_name h) = Some (slot_of h).
Proof.
  split; [destruct h; reflexivity|]. split.
  - destruct h; cbn [node_of slot_of];
      unfold Graph.profile_analyzer_node, Graph.job_fit_node,
        Graph.content_enhancer_node, Graph.career_coach_node, Graph.node_update;
      match goal with
      | |- context [match ?r with Ok _ => _ | Raise _ => _ end] => destruct r
      end; eauto.
  - split; destruct h; simpl; auto.
Qed.

(** X14. In a chat turn with a profile that is a dict, a handler's node
    reports an error only when the prompt cannot be built.  Once it is
    built the node stores a result with a message under the handler's
    key: the stripped completion, with the question, when the completion
    call returns a text; the handler's apology, without the question,
    when the call raises or returns something else. *)
Theorem failed_completion_is_not_an_error (h : handler) (state profile : dict) :
  get_or state "profile" (PDict []) = PDict profile ->
  truthy (get_or state "user_question" (PStr "")) = true ->
  match
    payload_of h (PDict profile)
      (get_or state "job_description" (PStr ""))
      (get_or state "user_question" (PStr ""))
      (history_read h (get_or state "chat_history" (PList [])))
  with
  | Raise e => node h state = [("error", PStr (exn_str e))]
  | Ok payload =>
      exists r,
        node h state = [(slot_of h, PDict r)] /\
        lookup r "session_id" = Some (get_or state "session_id" (PStr "")) /\
        ((exists text,
            client h (system_prompt_of h) payload = Ok (PStr text) /\
            lookup r "message" = Some (PStr (strip text)) /\
            lookup r "success" = Some (PBool true) /\
            lookup r "user_question"
            = Some (get_or state "user_question" (PStr ""))) \/
         ((forall text, client h (system_prompt_of h) payload <> Ok (PStr text)) /\
          lookup r "message" = Some (PStr (apology_of h)) /\
          lookup r "success" = Some (PBool false) /\
          lookup r "user_question" = None))
  end.
Proof.
  intros Hp Hq.
  rewrite (node_of_chat _ _ _ _ _ _ _ _ h state profile Hp Hq).
  rewrite handle_chat_unfold.
  destruct (payload_of h (PDict profile) _ _ _) as [payload|e]; [|reflexivity].
  cbn [bind].
  destruct (llm_of profile_llm job_fit_llm content_llm coach_llm h
              (system_prompt_of h) payload) as [content|e] eqn:Hllm.
  - destruct content;
      try (cbn [bind obj_strip try_except];
           destruct h; eexists; (split; [reflexivity|]); (split; [reflexivity|]);
           right; (split; [intros text; discriminate|]);
           repeat split; reflexivity).
    cbn [bind obj_strip try_except].
    destruct h; eexists; (split; [reflexivity|]); (split; [reflexivity|]);
      left; eexists; (split; [reflexivity|]); repeat split; reflexivity.
  - cbn [bind try_except].
    destruct h; eexists; (split; [reflexivity|]); (split; [reflexivity|]);
      right; (split; [intros text; discriminate|]); repeat split; reflexivity.
Qed.

End Nodes.

(** With the completion service down, the coach's node stores its apology
    under [coaching] and no [error]. *)
Lemma failed_completion_is_not_an_error_witness :
  exists r,
    Graph.career_coach_node llm_down (fun _ _ _ _ => Ok PNone) fresh_chat_state
    = [("coaching", PDict r)] /\
    lookup r "message" = Some (PStr CareerCoachAgent.apology) /\
    lookup r "success" = Some (PBool false).
Proof.
  pose proof (failed_completion_is_not_an_error llm_down llm_down llm_down llm_down
                (fun _ _ => Ok PNone) (fun _ _ _ => Ok PNone) (fun _ _ => Ok PNone)
                (fun _ _ _ _ => Ok PNone)
                CareerCoach fresh_chat_state [("name", PStr "Ada")] eq_refl eq_refl)
    as H.
  destruct (payload_of CareerCoach (PDict [("name", PStr "Ada")])
              (get_or fresh_chat_state "job_description" (PStr ""))
              (get_or fresh_chat_state "user_question" (PStr ""))
              (history_read CareerCoach (get_or fresh_chat_state "chat_history" (PList []))))
    as [payload|e] eqn:Hp; [|discriminate Hp].
  destruct H as (r & Hnode & _ & [(text & Hllm & _) | (_ & Hmsg & Hok & _)]);
    [discriminate Hllm|].
  exists r. split; [exact Hnode|]. split; assumption.
Defined.

End TurnProps.

(** ** The response shown *)

Module ResponseFacts.
Import Py App.


Lemma text_truthy (s : string) : s <> "" -> truthy (PStr s) = true.
Proof.
  intros H. cbn [truthy]. apply negb_true_iff, String.eqb_neq. exact H.
Qed.

End ResponseFacts.

Module ResponseProps.
Import Py Routing IntentClassifier RouterSpec Agents HandlerSpec HandlerFacts
  FlowSpec FlowFacts TurnFacts ResponseFacts PyFacts Stubs.



Section Turn.

Variables classifier_llm handler_llm : Graph.llm_t.
Variable json_loads : string -> result pyval.
Variable profile_batch content_batch : pyval -> pyval -> result pyval.
Variable job_fit_batch : pyval -> pyval -> pyval -> result pyval.
Variable coach_batch : pyval -> pyval -> pyval -> pyval -> result pyval.

Local Abbreviation node :=
  (node_of handler_llm handler_llm handler_llm handler_llm
              profile_batch job_fit_batch content_batch coach_batch).

(** X16. A chat turn, end to end.  The application prepares the state for a
    non-empty prompt and a profile that is a dict; the classifier node
    stores a classification, the router names the handler [h] it names,
    the node of [h] stores a result under its own key, the router then
    returns END, and the response the application extracts from that
    state is the stripped completion: provided the prompt of each handler
    can be built and the completion call returns a text that is not
    blank. *)
Theorem chat_turn_shows_the_answer (q text : string) (session_id job_desc : pyval)
    (chat_history : list History.entry) (profile : dict) :
  q <> "" ->
  strip text <> "" ->
  (forall h, exists payload,
     payload_of h (PDict profile) job_desc (PStr q)
       (history_read h
          (PList (map PDict (History.normalize_chat_history chat_history))))
     = Ok payload) ->
  (forall system payload, handler_llm system payload = Ok (PStr text)) ->
  exists h c r,
    let s0 := App.chat_state (PStr q) session_id chat_history job_desc (PDict profile) in
    let s1 := setitem s0 "intent_classification" (PDict c) in
    let s2 := setitem s1 (slot_of h) r in
    Graph.intent_classifier_node classifier_llm json_loads s0
    = [("intent_classification", PDict c)] /\
    router s1 = Ok (PStr (node_name h)) /\
    node h s1 = [(slot_of h, r)] /\
    router s2 = Ok END /\
    has_key s2 "error" = false /\
    App.response_for s2 (PStr q) = Ok (PStr (strip text)).
Proof.
  intros Hq Htext Hpay Hllm.
  destruct (classify_intent_valid classifier_llm json_loads q session_id)
    as (i & conf & reason & Hcls & Hi).
  destruct (handler_of_name i (py_in_handler_names i Hi)) as (h & ->).
  destruct (Hpay h) as (payload & Hp).
  assert (Hqt : truthy (PStr q) = true) by (apply text_truthy; exact Hq).
  assert (Hm : String.eqb (strip text) "" = false) by (apply String.eqb_neq; exact Htext).
  exists h. eexists. 
  exists (match h with
          | CareerCoach => CareerCoachAgent.coach_success (strip text) session_id (PStr q)
          | _ => chat_success (strip text) (category h) session_id (PStr q)
          end).
  cbv zeta. split; [|split; [|split; [|split; [|split]]]].
  - unfold Graph.intent_classifier_node.
    change (get_or (App.chat_state (PStr q) session_id chat_history job_desc (PDict profile))
              "user_question" (PStr "")) with (PStr q).
    change (get_or (App.chat_state (PStr q) session_id chat_history job_desc (PDict profile))
              "session_id" (PStr "")) with session_id.
    rewrite Hcls. reflexivity.
  - destruct h; reflexivity.
  - rewrite (node_of_chat _ _ _ _ _ _ _ _ h _ profile);
      [|destruct h; reflexivity|destruct h; exact Hqt].
    rewrite handle_chat_unfold.
    match goal with
    | |- context [payload_of h ?a ?b ?c ?d] =>
        replace (payload_of h a b c d) with (@Ok string payload)
          by (rewrite <- Hp; destruct h; reflexivity)
    end.
    replace (llm_of handler_llm handler_llm handler_llm handler_llm h)
      with handler_llm by (destruct h; reflexivity).
    cbn [bind]. rewrite Hllm. cbn [bind obj_strip try_except Graph.node_update].
    destruct h; reflexivity.
  - remember (strip text) as m.
    destruct h; unfold router, answered, slot_answers, Routing.or_else;
      cbn; rewrite String.eqb_refl; reflexivity.
  - destruct h; reflexivity.
  - remember (strip text) as m.
    destruct h; unfold App.response_for, App.classified_response, App.fallback_response,
      App.or_else, App.field_of;
      cbn; rewrite String.eqb_refl; cbn; rewrite Hm; cbn; rewrite ?Hm; reflexivity.
Qed.

End Turn.

(** The question "What skills should I develop?" with the classifier's
    service down and a handler service that answers " Learn SQL. ". *)
Lemma chat_turn_shows_the_answer_witness :
  exists h c r,
    let s0 := App.chat_state (PStr "What skills should I develop?") (PStr "s1") []
                (PStr "Data engineer") (PDict [("name", PStr "Ada")]) in
    let s1 := setitem s0 "intent_classification" (PDict c) in
    let s2 := setitem s1 (slot_of h) r in
    Graph.intent_classifier_node llm_down (fun _ => Ok PNone) s0
    = [("intent_classification", PDict c)] /\
    router s1 = Ok (PStr (node_name h)) /\
    node_of (llm_answers " Learn SQL. ") (llm_answers " Learn SQL. ")
      (llm_answers " Learn SQL. ") (llm_answers " Learn SQL. ")
      (fun _ _ => Ok PNone) (fun _ _ _ => Ok PNone) (fun _ _ => Ok PNone)
      (fun _ _ _ _ => Ok PNone) h s1
    = [(slot_of h, r)] /\
    router s2 = Ok END /\
    has_key s2 "error" = false /\
    App.response_for s2 (PStr "What skills should I develop?")
    = Ok (PStr "Learn SQL.").
Proof.
  apply (chat_turn_shows_the_answer llm_down (llm_answers " Learn SQL. ")
           (fun _ => Ok PNone) (fun _ _ => Ok PNone) (fun _ _ => Ok PNone)
           (fun _ _ _ => Ok PNone) (fun _ _ _ _ => Ok PNone)
           "What skills should I develop?" " Learn SQL. " (PStr "s1")
           (PStr "Data engineer") [] [("name", PStr "Ada")]).
  - discriminate.
  - discriminate.
  - intros h. destruct h; eexists; reflexivity.
  - reflexivity.
Defined.

End ResponseProps.

(** ** The scraped profile, once more *)

Module SanitizeFacts.
Import Py Scraper ScraperSpec SanitizeSpec ScraperFacts PyFacts.

Lemma first_truthy_true (profile : dict) (possible_keys : list string) (v : pyval) :
  first_truthy profile possible_keys = Some v -> truthy v = true.
Proof.
  induction possible_keys as [|key rest IH]; [discriminate|].
  cbn [first_truthy].
  destruct (has_key profile key && truthy (get profile key)) eqn:Hk; [|exact IH].
  intros H. injection H as <-. apply andb_true_iff in Hk. apply Hk.
Qed.

Lemma sanitized_value_settled (profile : dict) (k : string) (keys : list string) :
  settled k (sanitized_value profile k keys).
Proof.
  unfold settled, sanitized_value.
  destruct (first_truthy profile keys) as [v|] eqn:Hv.
  - left. exact (first_truthy_true _ _ _ Hv).
  - right. reflexivity.
Qed.

Lemma text_settled (s : string) : settled "name" (PStr s).
Proof.
  unfold settled. cbn [truthy].
  destruct (String.eqb s "") eqn:Hs.
  - right. apply String.eqb_eq in Hs. subst s. reflexivity.
  - left. reflexivity.
Qed.

(** On a dict that has the ten keys, in order, with settled values,
    [sanitize_profile] changes nothing. *)
Lemma sanitize_settled (v1 v2 v3 v4 v5 v6 v7 v8 v9 v10 : pyval) :
  settled "name" v1 -> settled "headline" v2 -> settled "about" v3 ->
  settled "experience" v4 -> settled "education" v5 -> settled "skills" v6 ->
  settled "certifications" v7 -> settled "languages" v8 ->
  settled "location" v9 -> settled "profileUrl" v10 ->
  let d := [("name", v1); ("headline", v2); ("about", v3); ("experience", v4);
            ("education", v5); ("skills", v6); ("certifications", v7);
            ("languages", v8); ("location", v9); ("profileUrl", v10)] in
  sanitize_profile d = Ok d.
Proof.
  intros H1 H2 H3 H4 H5 H6 H7 H8 H9 H10 d.
  assert (Hf : sanitize_fields d = d).
  { unfold sanitize_fields, d.
    cbn [fold_left field_mappings fst snd setitem String.eqb Ascii.eqb Bool.eqb].
    unfold sanitized_value, settled in *.
    cbn [first_truthy has_key get get_or lookup String.eqb Ascii.eqb Bool.eqb andb
         existsb list_fields orb] in *.
    repeat f_equal;
      match goal with
      | |- context [truthy ?v] =>
          match goal with
          | H : truthy v = true \/ v = _ |- _ =>
              destruct H as [H | H]; [rewrite H; reflexivity | subst v; reflexivity]
          end
      end. }
  unfold sanitize_profile. rewrite Hf.
  change (getitem d "name") with (@Ok pyval v1). cbn [bind].
  change (has_key d "firstName") with false.
  rewrite andb_false_r. reflexivity.
Qed.

End SanitizeFacts.

Module SanitizeProps.
Import Py Scraper ScraperSpec SanitizeSpec ScraperFacts SanitizeFacts PyFacts.

(** X17. Each of the ten fields is the value of the first of its source
    keys, in the order they are listed, that the profile holds with a
    true value: when the source keys before [source] are absent from the
    profile or false in it, and [source] holds the true value [v], the
    field is [v], whatever the later source keys hold.  So a record with
    a first and a last name and no full name gets the first name alone as
    its name. *)
Theorem sanitized_field_is_first_true_source (profile : dict) (k source : string)
    (earlier later : list string) (v : pyval) :
  In k sanitized_keys ->
  sources k = (earlier ++ source :: later)%list ->
  (forall key, In key earlier -> truthy (get profile key) = false) ->
  lookup profile source = Some v ->
  truthy v = true ->
  exists sanitized,
    sanitize_profile profile = Ok sanitized /\
    lookup sanitized k = Some v.
Proof.
  intros Hk Hsources Hearlier Hsource Ht.
  assert (Hv : first_truthy profile (sources k) = Some v).
  { rewrite Hsources. clear Hsources.
    induction earlier as [|key earlier IH]; cbn [app first_truthy].
    - unfold has_key, get, get_or. rewrite Hsource. cbn [andb]. rewrite Ht. reflexivity.
    - rewrite (Hearlier key (or_introl eq_refl)), andb_false_r.
      apply IH. intros key' Hin. apply Hearlier. right. exact Hin. }
  assert (Hl : lookup (sanitize_fields profile) k = Some v).
  { rewrite (lookup_sanitize_fields profile k Hk).
    unfold sanitized_value. rewrite Hv. reflexivity. }
  unfold sanitize_profile, getitem.
  rewrite (lookup_sanitize_fields profile "name") by (simpl; auto).
  cbn [bind].
  destruct (negb (truthy (sanitized_value profile "name" (sources "name")))
            && has_key profile "firstName") eqn:Hc.
  - eexists. split; [reflexivity|].
    destruct (String.eqb k "name") eqn:Hkn.
    + apply String.eqb_eq in Hkn. subst k. exfalso.
      unfold sanitized_value in Hc. rewrite Hv, Ht in Hc. discriminate Hc.
    + rewrite lookup_setitem_other by exact Hkn. exact Hl.
  - eexists. split; [reflexivity | exact Hl].
Qed.

(** Ada's record: the full name is empty, so the name is the first name,
    though the last name and the name are there too, and stored before
    it. *)
Lemma sanitized_field_is_first_true_source_witness :
  exists sanitized,
    sanitize_profile ada = Ok sanitized /\
    lookup sanitized "name" = Some (PStr "Ada").
Proof.
  apply (sanitized_field_is_first_true_source ada "name" "firstName"
           ["fullName"] ["lastName"; "name"] (PStr "Ada")).
  - simpl. auto.
  - reflexivity.
  - intros key [<- | []]. reflexivity.
  - reflexivity.
  - reflexivity.
Defined.

(** X18. Sanitizing is idempotent: what [sanitize_profile] returns it returns
    unchanged when given it again. *)
Theorem sanitize_is_idempotent (profile : dict) :
  exists sanitized,
    sanitize_profile profile = Ok sanitized /\
    sanitize_profile sanitized = Ok sanitized.
Proof.
  unfold sanitize_profile at 1. unfold getitem.
  rewrite (lookup_sanitize_fields profile "name") by (simpl; auto).
  cbn [bind].
  destruct (negb (truthy (sanitized_value profile "name" (sources "name")))
            && has_key profile "firstName").
  - eexists. split; [reflexivity|].
    unfold sanitize_fields.
    cbn [fold_left field_mappings fst snd setitem String.eqb Ascii.eqb Bool.eqb].
    apply sanitize_settled;
      first [apply text_settled | apply sanitized_value_settled].
  - eexists. split; [reflexivity|].
    unfold sanitize_fields.
    cbn [fold_left field_mappings fst snd setitem String.eqb Ascii.eqb Bool.eqb].
    apply sanitize_settled; apply sanitized_value_settled.
Qed.

End SanitizeProps.

(** ** The scraping run *)

Module RunFacts.
Import Py ScraperRun RunSpec.

Lemma emits_weaken {A} (P Q : event -> Prop) (c : io A) :
  (forall e, P e -> Q e) -> emits P c -> emits Q c.
Proof.
  intros HPQ Hc w. destruct (Hc w) as (new & E & F).
  exists new. split; [exact E|]. eapply Forall_impl; [exact HPQ | exact F].
Qed.

Lemma emits_ret {A} (P : event -> Prop) (a : A) : emits P (ret a).
Proof. intros w. exists []. split; [reflexivity | constructor]. Qed.

Lemma emits_raise {A} (P : event -> Prop) (e : exn) : emits P (@raise A e).
Proof. intros w. exists []. split; [reflexivity | constructor]. Qed.

Lemma emits_lift {A} (P : event -> Prop) (r : result A) : emits P (lift r).
Proof. intros w. exists []. split; [reflexivity | constructor]. Qed.

Lemma emits_bind {A B} (P : event -> Prop) (c : io A) (k : A -> io B) :
  emits P c -> (forall a, returned c a -> emits P (k a)) ->
  emits P (io_bind c k).
Proof.
  intros Hc Hk w. unfold io_bind.
  destruct (Hc w) as (n1 & E1 & F1).
  destruct (c w) as [[a|e] w1] eqn:Hcw; cbn [snd] in E1.
  - destruct (Hk a (ex_intro _ w (ex_intro _ w1 Hcw)) w1) as (n2 & E2 & F2).
    exists (n2 ++ n1)%list. split.
    + rewrite E2, E1, app_assoc. reflexivity.
    + apply Forall_app. split; assumption.
  - exists n1. split; assumption.
Qed.

Lemma emits_try {A} (P : event -> Prop) (body : io A) (handler : exn -> io A) :
  emits P body -> (forall e, emits P (handler e)) -> emits P (io_try body handler).
Proof.
  intros Hb Hh w. unfold io_try.
  destruct (Hb w) as (n1 & E1 & F1).
  destruct (body w) as [[a|e] w1]; cbn [snd] in E1.
  - exists n1. split; assumption.
  - destruct (Hh e w1) as (n2 & E2 & F2).
    exists (n2 ++ n1)%list. split.
    + rewrite E2, E1, app_assoc. reflexivity.
    + apply Forall_app. split; assumption.
Qed.

Lemma emits_if {A} (P : event -> Prop) (b : bool) (c1 c2 : io A) :
  emits P c1 -> emits P c2 -> emits P (if b then c1 else c2).
Proof. destruct b; auto. Qed.

Lemma returned_ret {A} (a b : A) : returned (ret a) b -> a = b.
Proof. intros (w & w' & H). injection H as <- _. reflexivity. Qed.

Lemma returned_raise {A} (e : exn) (b : A) : returned (raise e) b -> False.
Proof. intros (w & w' & H). discriminate H. Qed.

Lemma returned_lift {A} (r : result A) (b : A) : returned (lift r) b -> r = Ok b.
Proof. intros (w & w' & H). injection H as -> _. reflexivity. Qed.

Lemma returned_bind {A B} (c : io A) (k : A -> io B) (b : B) :
  returned (io_bind c k) b -> exists a, returned c a /\ returned (k a) b.
Proof.
  intros (w & w' & H). unfold io_bind in H.
  destruct (c w) as [[a|e] w1] eqn:Hc; [|discriminate H].
  exists a. split; [exists w, w1; exact Hc | exists w1, w'; exact H].
Qed.

Lemma returned_try {A} (body : io A) (handler : exn -> io A) (a : A) :
  returned (io_try body handler) a ->
  returned body a \/ exists e, returned (handler e) a.
Proof.
  intros (w & w' & H). unfold io_try in H.
  destruct (body w) as [[x|e] w1] eqn:Hb.
  - left. injection H as <- <-. exists w, w1. exact Hb.
  - right. exists e, w1, w'. exact H.
Qed.

Ltac returned_inv H :=
  repeat first
    [ apply returned_ret in H
    | apply returned_raise in H; contradiction
    | apply returned_lift in H
    | let a := fresh "a" in
      let Ha := fresh "Ha" in
      apply returned_bind in H; destruct H as (a & Ha & H) ].

Section Environment.

Variable secret : result pyval.
Variable getenv : pyval.
Variable network : list event -> event -> result response.

Lemma emits_token (P : event -> Prop) : emits P (_get_apify_token secret getenv).
Proof.
  intros w. exists []. split; [|constructor].
  unfold _get_apify_token.
  destruct (is_none (_APIFY_API_TOKEN w)); [|reflexivity].
  destruct (negb (truthy _)); reflexivity.
Qed.

Lemma emits_request (P : event -> Prop) (e : event) :
  P e -> emits P (request network e).
Proof.
  intros He w. exists [e]. split; [reflexivity|]. constructor; [exact He | constructor].
Qed.

Lemma emits_sleep (P : event -> Prop) (seconds : Z) :
  P (Slept seconds) -> emits P (sleep seconds).
Proof.
  intros He w. exists [Slept seconds]. split; [reflexivity|].
  constructor; [exact He | constructor].
Qed.

Lemma returned_request (e : event) (r : response) :
  returned (request network e) r -> exists past, network past e = Ok r.
Proof.
  intros (w & w' & H). unfold request in H. injection H as H _.
  exists (events w). exact H.
Qed.

Ltac emits_go :=
  repeat first
    [ apply emits_ret | apply emits_raise | apply emits_lift | apply emits_token
    | apply emits_try; [|intros ?]
    | apply emits_bind; [|intros ? ?]
    | apply emits_if
    | apply emits_request | apply emits_sleep
    | match goal with
      | |- emits _ (match ?x with _ => _ end) => destruct x
      end ].

Lemma emits_get_actor_input_schema (P : event -> Prop) (actor_id : string) :
  (forall url, P (Got url)) ->
  emits P (get_actor_input_schema secret getenv network actor_id).
Proof.
  intros Hget. unfold get_actor_input_schema, actor_url, requests_get.
  emits_go. apply Hget.
Qed.

Lemma emits_create_actor_payload (P : event -> Prop) (actor_id linkedin_url : string) :
  (forall url, P (Got url)) ->
  emits P (create_actor_payload secret getenv network actor_id linkedin_url).
Proof.
  intros Hget. unfold create_actor_payload.
  apply emits_bind; [apply emits_get_actor_input_schema; exact Hget|].
  intros schema _. emits_go.
Qed.

Lemma create_actor_payload_carries (actor_id linkedin_url : string) (payload : pyval) :
  returned (create_actor_payload secret getenv network actor_id linkedin_url) payload ->
  carries payload linkedin_url.
Proof.
  intros H. unfold create_actor_payload, carries in *.
  apply returned_bind in H. destruct H as (schema & _ & H).
  apply returned_bind in H. destruct H as (properties & _ & H).
  apply returned_bind in H. destruct H as (ks & _ & H).
  apply returned_bind in H. destruct H as ([|] & _ & H);
    [apply returned_ret in H; auto|].
  apply returned_bind in H. destruct H as ([|] & _ & H);
    [apply returned_ret in H; auto|].
  apply returned_bind in H. destruct H as ([|] & _ & H);
    [apply returned_ret in H; auto|].
  apply returned_bind in H. destruct H as ([|] & _ & H);
    apply returned_ret in H; auto.
Qed.

Lemma emits_test_actor_with_payload (P : event -> Prop) (actor_id : string)
    (payload : pyval) :
  (forall url, P (Posted url payload)) ->
  emits P (test_actor_with_payload secret getenv network actor_id payload).
Proof.
  intros Hpost. unfold test_actor_with_payload, runs_url, requests_post.
  emits_go. apply Hpost.
Qed.

(** A result of [test_actor_with_payload] that says success is the
    four-key dict, after a POST of the payload that was answered 201. *)
Lemma test_actor_success (actor_id : string) (payload result success : pyval) :
  returned (test_actor_with_payload secret getenv network actor_id payload) result ->
  obj_get result "success" = Ok success ->
  truthy success = true ->
  exists run_id url past response,
    result = PDict [("success", PBool true); ("actor_id", PStr actor_id);
                    ("run_id", run_id); ("payload", payload)] /\
    network past (Posted url payload) = Ok response /\
    status_code response = 201%Z.
Proof.
  intros H Hs Ht. unfold test_actor_with_payload in H.
  apply returned_try in H. destruct H as [H | (e & H)].
  - apply returned_bind in H. destruct H as (url & _ & H).
    apply returned_bind in H. destruct H as (response & Hreq & H).
    apply returned_request in Hreq. destruct Hreq as (past & Hreq).
    destruct (status_code response =? 201)%Z eqn:Hcode.
    + returned_inv H. subst result.
      eexists _, url, past, response. split; [reflexivity|].
      split; [exact Hreq | apply Z.eqb_eq; exact Hcode].
    + returned_inv H. subst result.
      cbn in Hs. injection Hs as <-. discriminate Ht.
  - apply returned_ret in H. subst result.
    cbn in Hs. injection Hs as <-. discriminate Ht.
Qed.

Lemma emits_try_actors (actor_ids : list string) (linkedin_url : string) :
  emits (sends linkedin_url)
    (try_actors secret getenv network actor_ids linkedin_url).
Proof.
  induction actor_ids as [|actor_id rest IH]; cbn [try_actors].
  - apply emits_raise.
  - apply emits_bind.
    + unfold actor_url, requests_get. emits_go. exact I.
    + intros accessible _. apply emits_if; [|exact IH].
      apply emits_bind;
        [apply emits_create_actor_payload; intros url; exact I|].
      intros payload Hpayload.
      apply emits_bind;
        [apply emits_test_actor_with_payload; intros url;
         exact (create_actor_payload_carries _ _ _ Hpayload)|].
      intros result _. emits_go. exact IH.
Qed.

Lemma try_actors_returns (actor_ids : list string) (linkedin_url : string)
    (config : pyval) :
  returned (try_actors secret getenv network actor_ids linkedin_url) config ->
  exists actor_id run_id payload url past response,
    config = PDict [("success", PBool true); ("actor_id", PStr actor_id);
                    ("run_id", run_id); ("payload", payload)] /\
    In actor_id actor_ids /\
    carries payload linkedin_url /\
    network past (Posted url payload) = Ok response /\
    status_code response = 201%Z.
Proof.
  induction actor_ids as [|actor_id rest IH]; cbn [try_actors]; intros H.
  - apply returned_raise in H. contradiction.
  - assert (Hrest : returned (try_actors secret getenv network rest linkedin_url) config ->
                    exists actor_id0 run_id payload url past response,
                      config = PDict [("success", PBool true);
                                      ("actor_id", PStr actor_id0);
                                      ("run_id", run_id); ("payload", payload)] /\
                      In actor_id0 (actor_id :: rest) /\
                      carries payload linkedin_url /\
                      network past (Posted url payload) = Ok response /\
                      status_code response = 201%Z).
    { intros Hr. destruct (IH Hr) as (i & r & p0 & u & past & resp & E & Hin & Hrem).
      exists i, r, p0, u, past, resp. split; [exact E|]. split; [right; exact Hin | exact Hrem]. }
    apply returned_bind in H. destruct H as (accessible & _ & H).
    destruct accessible; [|exact (Hrest H)].
    apply returned_bind in H. destruct H as (payload & Hpayload & H).
    apply returned_bind in H. destruct H as (result & Hresult & H).
    apply returned_bind in H. destruct H as (success & Hsuccess & H).
    apply returned_lift in Hsuccess.
    destruct (truthy success) eqn:Ht; [|exact (Hrest H)].
    apply returned_ret in H. subst config.
    destruct (test_actor_success _ _ _ _ Hresult Hsuccess Ht)
      as (run_id & url & past & response & E & Hnet & Hcode).
    exists actor_id, run_id, payload, url, past, response.
    split; [exact E|]. split; [left; reflexivity|].
    split; [exact (create_actor_payload_carries _ _ _ Hpayload)|].
    split; assumption.
Qed.

Lemma emits_find_working_actor_and_payload (linkedin_url : string) :
  emits (sends linkedin_url)
    (find_working_actor_and_payload secret getenv network linkedin_url).
Proof.
  unfold find_working_actor_and_payload.
  apply emits_bind; [apply emits_token|]. intros token _.
  apply emits_if; [apply emits_raise | apply emits_try_actors].
Qed.

Lemma emits_fetch_results (P : event -> Prop) (dataset_urls : list string) :
  (forall url, P (Got url)) -> emits P (fetch_results network dataset_urls).
Proof.
  intros Hget. induction dataset_urls as [|url rest IH]; cbn [fetch_results].
  - apply emits_ret.
  - apply emits_bind.
    + unfold requests_get. emits_go. apply Hget.
    + intros [result|] _; [apply emits_ret | exact IH].
Qed.

Lemma fetch_results_returns (dataset_urls : list string) (result : pyval) :
  returned (fetch_results network dataset_urls) result ->
  dataset_item network result \/ failure result.
Proof.
  induction dataset_urls as [|dataset_url rest IH]; cbn [fetch_results]; intros H.
  - apply returned_ret in H. subst result. right. eexists _, _. reflexivity.
  - apply returned_bind in H. destruct H as ([found|] & Hfound & H); [|exact (IH H)].
    apply returned_ret in H. subst found. left.
    apply returned_try in Hfound. destruct Hfound as [Hf | (e & Hf)];
      [|apply returned_ret in Hf; discriminate Hf].
    apply returned_bind in Hf. destruct Hf as (response & Hreq & Hf).
    apply returned_request in Hreq. destruct Hreq as (past & Hreq).
    destruct (status_code response =? 200)%Z eqn:Hcode;
      [|apply returned_ret in Hf; discriminate Hf].
    apply returned_bind in Hf. destruct Hf as (data & Hjson & Hf).
    apply returned_lift in Hjson.
    destruct data as [| | | | |[|first others]|];
      try (apply returned_ret in Hf; discriminate Hf).
    apply returned_ret in Hf. injection Hf as <-.
    exists first, others, dataset_url, past, response.
    split; [reflexivity|]. split; [exact Hreq|].
    split; [apply Z.eqb_eq; exact Hcode | exact Hjson].
Qed.

Lemma emits_poll (P : event -> Prop) (actor_id run_id : pyval) :
  (forall url, P (Got url)) -> emits P (poll secret getenv network actor_id run_id).
Proof.
  intros Hget. unfold poll, run_url, requests_get.
  apply emits_bind; [emits_go|]. intros url _.
  apply emits_bind; [emits_go; apply Hget|]. intros status_response _.
  apply emits_bind; [emits_go|]. intros u _.
  apply emits_bind; [emits_go|]. intros status_data _.
  apply emits_bind; [emits_go|]. intros data _.
  apply emits_bind; [emits_go|]. intros run_status _.
  apply emits_if; [|emits_go].
  apply emits_bind; [emits_go|]. intros dataset_id _.
  apply emits_if; [emits_go|].
  apply emits_bind; [emits_go|]. intros token1 _.
  apply emits_bind; [emits_go|]. intros token2 _.
  apply emits_bind; [apply emits_fetch_results; exact Hget|].
  intros result _. apply emits_ret.
Qed.

Lemma poll_returns (actor_id run_id result : pyval) :
  returned (poll secret getenv network actor_id run_id) (Some result) ->
  dataset_item network result \/ failure result.
Proof.
  intros H. unfold poll in H.
  apply returned_bind in H. destruct H as (url & _ & H).
  apply returned_bind in H. destruct H as (status_response & _ & H).
  apply returned_bind in H. destruct H as (u & _ & H).
  apply returned_bind in H. destruct H as (status_data & _ & H).
  apply returned_bind in H. destruct H as (data & _ & H).
  apply returned_bind in H. destruct H as (run_status & _ & H).
  destruct (py_eq run_status (PStr "SUCCEEDED")).
  - apply returned_bind in H. destruct H as (dataset_id & _ & H).
    destruct (negb (truthy dataset_id)).
    + apply returned_ret in H. injection H as <-. right. eexists _, _. reflexivity.
    + apply returned_bind in H. destruct H as (token1 & _ & H).
      apply returned_bind in H. destruct H as (token2 & _ & H).
      apply returned_bind in H. destruct H as (fetched & Hfetched & H).
      apply returned_ret in H. injection H as <-.
      exact (fetch_results_returns _ _ Hfetched).
  - destruct (py_in run_status _).
    + apply returned_ret in H. injection H as <-. right. eexists _, _. reflexivity.
    + apply returned_ret in H. discriminate H.
Qed.

Lemma try_none_returns {A} (body : io (option A)) (w : world) :
  exists outcome, fst (io_try body (fun _ => ret None) w) = Ok outcome.
Proof.
  unfold io_try. destruct (body w) as [[a|e] w1]; eexists; reflexivity.
Qed.

Lemma slept_app (l1 l2 : list event) : slept (l1 ++ l2) = (slept l1 + slept l2)%Z.
Proof.
  induction l1 as [|e l1 IH]; [reflexivity|].
  destruct e; cbn [slept app]; rewrite IH; lia.
Qed.

Lemma slept_gets (l : list event) : Forall is_get l -> slept l = 0%Z.
Proof.
  induction 1 as [|e l He _ IH]; [reflexivity|].
  destruct e; cbn [slept]; [destruct He | exact IH | exact IH].
Qed.

(** One round of the loop: the sleep, then the guarded poll. *)
Lemma round_spec (actor_id run_id : pyval) (w : world) :
  exists outcome w' polled,
    io_try (poll secret getenv network actor_id run_id) (fun _ => ret None)
      (mkWorld (_APIFY_API_TOKEN w) (Slept poll_interval :: events w))
    = (Ok outcome, w') /\
    events w' = (polled ++ Slept poll_interval :: events w)%list /\
    Forall is_get polled /\
    (forall result, outcome = Some result ->
       dataset_item network result \/ failure result).
Proof.
  set (w1 := mkWorld (_APIFY_API_TOKEN w) (Slept poll_interval :: events w)).
  destruct (emits_try is_get (poll secret getenv network actor_id run_id)
              (fun _ => ret None)
              (emits_poll is_get actor_id run_id (fun _ => I))
              (fun _ => emits_ret is_get None) w1)
    as (polled & Epolled & Fpolled).
  destruct (try_none_returns (poll secret getenv network actor_id run_id) w1)
    as (outcome & Houtcome).
  destruct (io_try (poll secret getenv network actor_id run_id)
              (fun _ => ret None) w1) as [r w2] eqn:Htry.
  cbn [fst snd] in *. subst r.
  exists outcome, w2, polled. split; [reflexivity|].
  split; [exact Epolled|]. split; [exact Fpolled|].
  intros result ->. apply (poll_returns actor_id run_id).
  assert (Hr : returned (io_try (poll secret getenv network actor_id run_id)
                           (fun _ => ret None)) (Some result))
    by (exists w1, w2; exact Htry).
  apply returned_try in Hr. destruct Hr as [Hb | (e & He)]; [exact Hb|].
  apply returned_ret in He. discriminate He.
Qed.

Lemma wait_loop_spec (fuel : nat) (actor_id run_id : pyval) (max_wait : Z) :
  forall (wait_time : Z) (w : world),
    (Z.to_nat ((max_wait - wait_time + 9) / 10) < fuel)%nat ->
    exists result w' new,
      wait_loop secret getenv network fuel actor_id run_id max_wait wait_time w
      = (Ok (Some result), w') /\
      events w' = (new ++ events w)%list /\
      Forall waits new /\
      (0 <= slept new)%Z /\
      (slept new = 0%Z \/ (wait_time + slept new < max_wait + 10)%Z) /\
      (dataset_item network result \/ failure result).
Proof.
  induction fuel as [|fuel IH]; intros wait_time w Hfuel; [lia|].
  cbn [wait_loop].
  destruct (wait_time <? max_wait)%Z eqn:Hlt.
  - apply Z.ltb_lt in Hlt.
    unfold io_bind at 1. unfold sleep at 1.
    unfold io_bind at 1.
    destruct (round_spec actor_id run_id w)
      as (outcome & w2 & polled & Htry & Epolled & Fpolled & Hshape).
    rewrite Htry.
    assert (Hwaits : Forall waits (polled ++ [Slept poll_interval])).
    { apply Forall_app. split.
      - eapply Forall_impl; [|exact Fpolled]. intros e He. right. exact He.
      - constructor; [left; reflexivity | constructor]. }
    assert (Hs : slept (polled ++ [Slept poll_interval]) = 10%Z).
    { rewrite slept_app, (slept_gets _ Fpolled). reflexivity. }
    assert (Hev : events w2 = ((polled ++ [Slept poll_interval]) ++ events w)%list).
    { rewrite Epolled, <- app_assoc. reflexivity. }
    destruct outcome as [result|].
    + exists result, w2, (polled ++ [Slept poll_interval])%list.
      split; [reflexivity|]. split; [exact Hev|]. split; [exact Hwaits|].
      rewrite Hs. split; [lia|]. split; [right; lia|].
      apply Hshape. reflexivity.
    + destruct (IH (wait_time + poll_interval)%Z w2)
        as (result & w' & new & Hrun & Enew & Fnew & H0 & Hbound & Hresult).
      { unfold poll_interval.
        replace (max_wait - (wait_time + 10) + 9)%Z
          with ((max_wait - wait_time + 9) + (-1) * 10)%Z by lia.
        rewrite Z.div_add by lia.
        assert (1 <= (max_wait - wait_time + 9) / 10)%Z
          by (apply Z.div_le_lower_bound; lia).
        lia. }
      exists result, w', (new ++ polled ++ [Slept poll_interval])%list.
      split; [exact Hrun|]. split.
      { rewrite Enew, Hev, !app_assoc. reflexivity. }
      split; [apply Forall_app; split; assumption|].
      rewrite slept_app, Hs. unfold poll_interval in Hbound.
      split; [lia|]. split; [right; lia | exact Hresult].
  - exists (timed_out max_wait), w, [].
    split; [reflexivity|]. split; [reflexivity|]. split; [constructor|].
    split; [cbn; lia|]. split; [left; reflexivity|].
    right. eexists _, _. reflexivity.
Qed.

Lemma emits_wait_loop (fuel : nat) (actor_id run_id : pyval) (max_wait : Z) :
  forall wait_time,
    emits waits
      (wait_loop secret getenv network fuel actor_id run_id max_wait wait_time).
Proof.
  induction fuel as [|fuel IH]; intros wait_time; cbn [wait_loop].
  - apply emits_ret.
  - apply emits_if; [|apply emits_ret].
    apply emits_bind; [apply emits_sleep; left; reflexivity|]. intros u _.
    apply emits_bind.
    + apply emits_try; [|intros e; apply emits_ret].
      apply emits_poll. intros url. right. exact I.
    + intros [result|] _; [apply emits_ret | apply IH].
Qed.

(** When no request gets through, a poll raises. *)
Lemma poll_down (actor_id run_id : pyval) (w : world) :
  (forall past e, exists x, network past e = Raise x) ->
  exists e w', poll secret getenv network actor_id run_id w = (Raise e, w').
Proof.
  intros Hdown. unfold poll. unfold io_bind at 1.
  destruct (run_url secret getenv actor_id run_id w) as [[url|e] w1]; [|eauto].
  unfold io_bind at 1. unfold requests_get, request.
  destruct (Hdown (events w1) (Got url)) as (x & ->). eauto.
Qed.

Lemma wait_loop_down (fuel : nat) (actor_id run_id : pyval) (max_wait : Z) :
  (forall past e, exists x, network past e = Raise x) ->
  forall (wait_time : Z) (w : world),
    (Z.to_nat ((max_wait - wait_time + 9) / 10) < fuel)%nat ->
    exists w' new,
      wait_loop secret getenv network fuel actor_id run_id max_wait wait_time w
      = (Ok (Some (timed_out max_wait)), w') /\
      events w' = (new ++ events w)%list /\
      slept new = (10 * Z.max 0 ((max_wait - wait_time + 9) / 10))%Z.
Proof.
  intros Hdown.
  induction fuel as [|fuel IH]; intros wait_time w Hfuel; [lia|].
  cbn [wait_loop].
  destruct (wait_time <? max_wait)%Z eqn:Hlt.
  - apply Z.ltb_lt in Hlt.
    unfold io_bind at 1. unfold sleep at 1.
    unfold io_bind at 1.
    destruct (round_spec actor_id run_id w)
      as (outcome & w2 & polled & Htry & Epolled & Fpolled & _).
    assert (Hnone : outcome = None).
    { unfold io_try in Htry.
      destruct (poll_down actor_id run_id
                  (mkWorld (_APIFY_API_TOKEN w) (Slept poll_interval :: events w))
                  Hdown) as (e & w'' & Hp).
      rewrite Hp in Htry. injection Htry as <- _. reflexivity. }
    rewrite Htry. subst outcome.
    assert (Hrounds : (1 <= (max_wait - wait_time + 9) / 10)%Z)
      by (apply Z.div_le_lower_bound; lia).
    assert (Hnext : ((max_wait - (wait_time + 10) + 9) / 10
                     = (max_wait - wait_time + 9) / 10 - 1)%Z).
    { replace (max_wait - (wait_time + 10) + 9)%Z
        with ((max_wait - wait_time + 9) + (-1) * 10)%Z by lia.
      rewrite Z.div_add by lia. lia. }
    destruct (IH (wait_time + poll_interval)%Z w2) as (w' & new & Hrun & Enew & Hs).
    { unfold poll_interval. rewrite Hnext. lia. }
    exists w', (new ++ polled ++ [Slept poll_interval])%list.
    split; [exact Hrun|]. split.
    { rewrite Enew, Epolled, <- !app_assoc. reflexivity. }
    rewrite !slept_app, Hs, (slept_gets _ Fpolled). unfold poll_interval. cbn [slept].
    rewrite Hnext. lia.
  - apply Z.ltb_ge in Hlt.
    exists w, []. split; [reflexivity|]. split; [reflexivity|].
    cbn [slept].
    assert ((max_wait - wait_time + 9) / 10 <= 0)%Z.
    { apply Z.lt_succ_r. apply Z.div_lt_upper_bound; lia. }
    lia.
Qed.

End Environment.

(** *** Sanitizing whatever the dataset holds *)

Lemma keys_setitem (d d' : dict) (k : string) (v v' : pyval) :
  keys d = keys d' -> keys (setitem d k v) = keys (setitem d' k v').
Proof.
  revert d'. induction d as [|[k1 v1] d IH]; intros [|[k2 v2] d'] H;
    try discriminate H; [reflexivity|].
  cbn [keys map fst] in H. injection H as -> H.
  cbn [setitem]. destruct (String.eqb k k2).
  - cbn [keys map fst]. f_equal. exact H.
  - cbn [keys map fst]. f_equal. apply IH. exact H.
Qed.

Lemma sanitize_fields_keys (profile : pyval) (mappings : list (string * list string)) :
  forall acc acc' sanitized,
    keys acc = keys acc' ->
    sanitize_fields profile mappings acc = Ok sanitized ->
    keys sanitized
    = keys (fold_left (fun a entry => setitem a (fst entry) PNone) mappings acc').
Proof.
  induction mappings as [|[target_key possible_keys] rest IH];
    intros acc acc' sanitized Hk H; cbn [sanitize_fields fold_left fst] in *.
  - injection H as <-. exact Hk.
  - destruct (first_truthy profile possible_keys) as [value|e]; cbn [bind] in H;
      [|discriminate H].
    eapply IH; [|exact H]. apply keys_setitem. exact Hk.
Qed.

Lemma sanitize_profile_keys (profile : pyval) (sanitized : dict) :
  sanitize_profile profile = Ok sanitized ->
  keys sanitized = ScraperSpec.sanitized_keys.
Proof.
  unfold sanitize_profile.
  destruct (sanitize_fields profile Scraper.field_mappings []) as [fields|e] eqn:Hf;
    cbn [bind]; [|discriminate].
  pose proof (sanitize_fields_keys profile _ [] [] fields eq_refl Hf) as Hk.
  destruct (getitem fields "name") as [name|e]; cbn [bind]; [|discriminate].
  destruct (if negb (truthy name) then obj_contains "firstName" profile else Ok false)
    as [[|]|e]; cbn [bind]; try discriminate.
  - destruct (obj_get_or profile "firstName" (PStr "")) as [first_name|e];
      cbn [bind]; [|discriminate].
    destruct (obj_get_or profile "lastName" (PStr "")) as [last_name|e];
      cbn [bind]; [|discriminate].
    intros H. injection H as <-.
    rewrite (keys_setitem fields
               (fold_left (fun a entry => setitem a (fst entry) PNone)
                  Scraper.field_mappings [])
               "name" _ PNone Hk).
    reflexivity.
  - intros H. injection H as <-. exact Hk.
Qed.

Lemma first_truthy_dict (profile : dict) (possible_keys : list string) :
  first_truthy (PDict profile) possible_keys
  = Ok (Scraper.first_truthy profile possible_keys).
Proof.
  induction possible_keys as [|key rest IH]; [reflexivity|].
  cbn [first_truthy Scraper.first_truthy obj_contains obj_getitem bind].
  unfold has_key, getitem, get, get_or.
  destruct (lookup profile key) as [v|]; cbn [bind andb]; [|exact IH].
  destruct (truthy v); [reflexivity | exact IH].
Qed.

Lemma sanitize_fields_dict (profile : dict) (mappings : list (string * list string)) :
  forall acc,
    sanitize_fields (PDict profile) mappings acc
    = Ok (fold_left
            (fun sanitized entry =>
               setitem sanitized (fst entry)
                 (Scraper.sanitized_value profile (fst entry) (snd entry)))
            mappings acc).
Proof.
  induction mappings as [|[target_key possible_keys] rest IH]; intros acc;
    cbn [sanitize_fields fold_left fst snd]; [reflexivity|].
  rewrite first_truthy_dict. cbn [bind]. rewrite IH. reflexivity.
Qed.

(** On a dict it is [Scraper.sanitize_profile]. *)
Lemma sanitize_profile_dict (profile : dict) :
  sanitize_profile (PDict profile) = Scraper.sanitize_profile profile.
Proof.
  unfold sanitize_profile, Scraper.sanitize_profile, Scraper.sanitize_fields.
  rewrite sanitize_fields_dict. cbn [bind].
  destruct (getitem _ "name") as [name|e]; cbn [bind]; [|reflexivity].
  destruct (negb (truthy name)); cbn [obj_contains bind andb]; [|reflexivity].
  destruct (has_key profile "firstName"); reflexivity.
Qed.

End RunFacts.

Module RunProps.
Import Py ScraperRun RunSpec RunFacts ScraperSpec.

Section Environment.

Variable secret : result pyval.
Variable getenv : pyval.
Variable network : list event -> event -> result response.

(** X19. A URL that is not of the accepted shape is refused before anything
    else is done: [fetch_linkedin_profile] raises LinkedInScraperError
    "Invalid LinkedIn profile URL" and leaves the world as it was, no
    request sent, no token read. *)
Theorem invalid_url_makes_no_request (fuel : nat) (u : string) (w : world) :
  ~ UrlSpec.profile_url_shape (strip u) ->
  fetch_linkedin_profile secret getenv network fuel (PStr u) w
  = (Raise (LinkedInScraperError "Invalid LinkedIn profile URL"), w).
Proof.
  intros Hshape. unfold fetch_linkedin_profile, io_bind, lift.
  destruct (ValidateFacts.validate_total u) as [Hv | Hv].
  - exfalso. apply Hshape. apply ValidateFacts.validate_shape. exact Hv.
  - rewrite Hv. reflexivity.
Qed.

(** X20. A profile [fetch_linkedin_profile] returns has exactly the ten keys
    of a sanitized profile, whatever the dataset held, and was asked for
    with a text of the accepted shape. *)
Theorem fetched_profile_is_sanitized (fuel : nat) (linkedin_url : pyval)
    (w w' : world) (profile : dict) :
  fetch_linkedin_profile secret getenv network fuel linkedin_url w
  = (Ok (Some profile), w') ->
  keys profile = sanitized_keys /\
  exists u, linkedin_url = PStr u /\ UrlSpec.profile_url_shape (strip u).
Proof.
  intros Hrun.
  assert (H : returned (fetch_linkedin_profile secret getenv network fuel linkedin_url)
                (Some profile)) by (exists w, w'; exact Hrun).
  clear Hrun. unfold fetch_linkedin_profile in H.
  apply returned_bind in H. destruct H as (valid & Hvalid & H).
  apply returned_lift in Hvalid.
  destruct valid; cbn [negb] in H; [|apply returned_raise in H; contradiction].
  split.
  - apply returned_bind in H. destruct H as (cleaned_url & _ & H).
    apply returned_bind in H. destruct H as (actor_config & _ & H).
    apply returned_bind in H. destruct H as (actor_id & _ & H).
    apply returned_bind in H. destruct H as (run_id & _ & H).
    apply returned_bind in H. destruct H as ([result|] & _ & H);
      [|apply returned_ret in H; discriminate H].
    apply returned_bind in H. destruct H as (success & _ & H).
    destruct (truthy success).
    + apply returned_bind in H. destruct H as (profile_data & _ & H).
      apply returned_bind in H. destruct H as (sanitized & Hsan & H).
      apply returned_lift in Hsan. apply returned_ret in H. injection H as <-.
      exact (sanitize_profile_keys _ _ Hsan).
    + apply returned_bind in H. destruct H as (error_msg & _ & H).
      apply returned_raise in H. contradiction.
  - destruct linkedin_url; try discriminate Hvalid.
    eexists. split; [reflexivity|].
    apply ValidateFacts.validate_shape. exact Hvalid.
Qed.

(** X21. Whatever happens during [fetch_linkedin_profile], every POST it sends
    carries the cleaned form of the URL it was given, in one of the four
    payload formats. *)
Theorem posts_carry_the_cleaned_url (fuel : nat) (u : string) (w : world) :
  exists new,
    events (snd (fetch_linkedin_profile secret getenv network fuel (PStr u) w))
    = (new ++ events w)%list /\
    forall url payload, In (Posted url payload) new ->
      exists cleaned,
        ProfileUrl.clean_linkedin_url (PStr u) = Ok cleaned /\
        carries payload cleaned.
Proof.
  assert (H : emits (posts_cleaned u)
                (fetch_linkedin_profile secret getenv network fuel (PStr u))).
  { unfold fetch_linkedin_profile.
    apply emits_bind; [apply emits_lift|]. intros valid _.
    apply emits_if; [apply emits_raise|].
    apply emits_bind; [apply emits_lift|]. intros cleaned Hcleaned.
    apply returned_lift in Hcleaned.
    apply emits_bind.
    { eapply emits_weaken; [|apply emits_find_working_actor_and_payload].
      intros [seconds|url|url payload]; cbn [sends posts_cleaned]; auto.
      intros Hc. exists cleaned. split; assumption. }
    intros actor_config _.
    apply emits_bind; [apply emits_lift|]. intros actor_id _.
    apply emits_bind; [apply emits_lift|]. intros run_id _.
    apply emits_bind.
    { eapply emits_weaken; [|apply emits_wait_loop].
      intros [seconds|url|url payload]; cbn [posts_cleaned]; auto.
      intros [He | He]; [discriminate He | destruct He]. }
    intros [result|] _; [|apply emits_ret].
    apply emits_bind; [apply emits_lift|]. intros success _.
    apply emits_if.
    - apply emits_bind; [apply emits_lift|]. intros profile_data _.
      apply emits_bind; [apply emits_lift|]. intros sanitized _. apply emits_ret.
    - apply emits_bind; [apply emits_lift|]. intros error_msg _. apply emits_raise. }
  destruct (H w) as (new & E & F). exists new. split; [exact E|].
  intros url payload Hin.
  exact (proj1 (Forall_forall _ _) F (Posted url payload) Hin).
Qed.

(** X22. What [find_working_actor_and_payload] returns is the record of an
    accepted run: success, one of the two known actors, the run id, and
    the payload, which carries the URL and was answered with status 201.
    So the caller finds [actor_id] and [run_id] in it. *)
Theorem working_actor_accepted_the_url (linkedin_url : string) (w w' : world)
    (config : pyval) :
  find_working_actor_and_payload secret getenv network linkedin_url w
  = (Ok config, w') ->
  exists actor_id run_id payload url past response,
    config = PDict [("success", PBool true); ("actor_id", PStr actor_id);
                    ("run_id", run_id); ("payload", payload)] /\
    In actor_id POSSIBLE_ACTOR_IDS /\
    carries payload linkedin_url /\
    network past (Posted url payload) = Ok response /\
    status_code response = 201%Z.
Proof.
  intros Hrun.
  assert (H : returned (find_working_actor_and_payload secret getenv network
                          linkedin_url) config) by (exists w, w'; exact Hrun).
  clear Hrun. unfold find_working_actor_and_payload in H.
  apply returned_bind in H. destruct H as (token & _ & H).
  destruct (negb (truthy token)); [apply returned_raise in H; contradiction|].
  exact (try_actors_returns secret getenv network _ _ _ H).
Qed.

(** X23. With fuel for its rounds, one for every started ten seconds of
    [max_wait], [wait_for_run_completion] returns, and never raises.  It only sleeps ten seconds at a time and sends GETs;
    the seconds it sleeps stay below [max_wait] + 10; and what it returns
    is the first record of a dataset served with status 200, marked as a
    success, or a failure with its text. *)
Theorem wait_ends_in_time (fuel : nat) (actor_id run_id : pyval) (max_wait : Z)
    (w : world) :
  (Z.to_nat ((max_wait + 9) / 10) < fuel)%nat ->
  exists result w' new,
    wait_for_run_completion secret getenv network fuel actor_id run_id max_wait w
    = (Ok (Some result), w') /\
    events w' = (new ++ events w)%list /\
    Forall waits new /\
    (0 <= slept new)%Z /\
    (slept new = 0%Z \/ (slept new < max_wait + 10)%Z) /\
    (dataset_item network result \/ failure result).
Proof.
  intros Hfuel. unfold wait_for_run_completion.
  destruct (wait_loop_spec secret getenv network fuel actor_id run_id max_wait 0%Z w)
    as (result & w' & new & Hrun & E & F & H0 & Hb & Hr).
  { rewrite Z.sub_0_r. exact Hfuel. }
  exists result, w', new.
  split; [exact Hrun|]. split; [exact E|]. split; [exact F|]. split; [exact H0|].
  split; [|exact Hr]. destruct Hb as [Hb | Hb]; [left; exact Hb | right; lia].
Qed.

(** X24. When no request gets through, [wait_for_run_completion] keeps
    polling to the end: it returns the time-out failure only after
    sleeping ten seconds for every started ten of [max_wait]. *)
Theorem unreachable_service_times_out (fuel : nat) (actor_id run_id : pyval)
    (max_wait : Z) (w : world) :
  (forall past e, exists x, network past e = Raise x) ->
  (Z.to_nat ((max_wait + 9) / 10) < fuel)%nat ->
  exists w' new,
    wait_for_run_completion secret getenv network fuel actor_id run_id max_wait w
    = (Ok (Some (timed_out max_wait)), w') /\
    events w' = (new ++ events w)%list /\
    slept new = (10 * Z.max 0 ((max_wait + 9) / 10))%Z.
Proof.
  intros Hdown Hfuel. unfold wait_for_run_completion.
  destruct (wait_loop_down secret getenv network fuel actor_id run_id max_wait Hdown 0%Z w)
    as (w' & new & Hrun & E & Hs).
  { rewrite Z.sub_0_r. exact Hfuel. }
  exists w', new. split; [exact Hrun|]. split; [exact E|].
  rewrite Hs, Z.sub_0_r. reflexivity.
Qed.

(** X25. A secret that is there but false (an empty text, say) makes the
    first [_get_apify_token] raise ValueError, and stays in the module's
    global: from then on the function returns that false token instead
    of raising, and [find_working_actor_and_payload] raises
    LinkedInScraperError without sending a request. *)
Theorem false_secret_raises_only_once (token : pyval) (w : world)
    (linkedin_url : string) :
  secret = Ok token ->
  truthy token = false ->
  is_none token = false ->
  is_none (_APIFY_API_TOKEN w) = true ->
  exists w1,
    _get_apify_token secret getenv w
    = (Raise (ValueError
                "APIFY_API_TOKEN not found in secrets or environment variables"),
       w1) /\
    events w1 = events w /\
    _get_apify_token secret getenv w1 = (Ok token, w1) /\
    find_working_actor_and_payload secret getenv network linkedin_url w1
    = (Raise (LinkedInScraperError "APIFY_API_TOKEN not set in environment"), w1).
Proof.
  intros Hsecret Htruthy Hnone Hcache.
  exists (mkWorld token (events w)).
  assert (Hcached : _get_apify_token secret getenv (mkWorld token (events w))
                    = (Ok token, mkWorld token (events w))).
  { unfold _get_apify_token. cbn [_APIFY_API_TOKEN]. rewrite Hnone. reflexivity. }
  split; [|split; [reflexivity|split; [exact Hcached|]]].
  - unfold _get_apify_token. rewrite Hcache, Hsecret, Htruthy. reflexivity.
  - unfold find_working_actor_and_payload, io_bind.
    rewrite Hcached, Htruthy. reflexivity.
Qed.

End Environment.

Lemma invalid_url_makes_no_request_witness :
  fetch_linkedin_profile (Ok (PStr "token")) PNone working_service 19
    (PStr "http://www.linkedin.com/in/ada") fresh
  = (Raise (LinkedInScraperError "Invalid LinkedIn profile URL"), fresh).
Proof.
  apply (invalid_url_makes_no_request (Ok (PStr "token")) PNone working_service 19
           "http://www.linkedin.com/in/ada" fresh).
  intros H. apply ValidateFacts.validate_shape in H. discriminate H.
Defined.

(** With a service that works, the record scraped for Ada comes back with
    the ten keys. *)
Lemma fetched_profile_is_sanitized_witness :
  exists profile w',
    fetch_linkedin_profile (Ok (PStr "token")) PNone working_service 19
      (PStr " https://www.linkedin.com/in/ada/details ") fresh
    = (Ok (Some profile), w') /\
    lookup profile "name" = Some (PStr "Ada") /\
    keys profile = sanitized_keys.
Proof.
  eexists. eexists. split; [vm_compute; reflexivity|].
  split; [reflexivity|].
  eapply (fetched_profile_is_sanitized (Ok (PStr "token")) PNone working_service 19
            (PStr " https://www.linkedin.com/in/ada/details ") fresh).
  vm_compute. reflexivity.
Defined.

Lemma working_actor_accepted_the_url_witness :
  exists actor_id run_id payload url past response,
    PDict [("success", PBool true); ("actor_id", PStr "2SyF0bVxmgGr8IVCZ");
           ("run_id", PStr "run1");
           ("payload",
            PDict [("startUrls",
                    PList [PDict [("url", PStr "https://www.linkedin.com/in/ada/")]])])]
    = PDict [("success", PBool true); ("actor_id", PStr actor_id);
             ("run_id", run_id); ("payload", payload)] /\
    In actor_id POSSIBLE_ACTOR_IDS /\
    carries payload "https://www.linkedin.com/in/ada/" /\
    working_service past (Posted url payload) = Ok response /\
    status_code response = 201%Z.
Proof.
  eapply (working_actor_accepted_the_url (Ok (PStr "token")) PNone working_service
            "https://www.linkedin.com/in/ada/" fresh).
  vm_compute. reflexivity.
Defined.

Lemma wait_ends_in_time_witness :
  exists result w' new,
    wait_for_run_completion (Ok (PStr "token")) PNone working_service 19
      (PStr "2SyF0bVxmgGr8IVCZ") (PStr "run1") 180 fresh
    = (Ok (Some result), w') /\
    events w' = (new ++ events fresh)%list /\
    Forall waits new /\
    (0 <= slept new)%Z /\
    (slept new = 0%Z \/ (slept new < 180 + 10)%Z) /\
    (dataset_item working_service result \/ failure result).
Proof.
  apply (wait_ends_in_time (Ok (PStr "token")) PNone working_service 19
           (PStr "2SyF0bVxmgGr8IVCZ") (PStr "run1") 180 fresh).
  vm_compute. lia.
Defined.

(** With the network down the default wait sleeps its full three
    minutes. *)
Lemma unreachable_service_times_out_witness :
  exists w' new,
    wait_for_run_completion (Ok (PStr "token")) PNone network_down 19
      (PStr "2SyF0bVxmgGr8IVCZ") (PStr "run1") 180 fresh
    = (Ok (Some (timed_out 180)), w') /\
    events w' = (new ++ events fresh)%list /\
    slept new = 180%Z.
Proof.
  apply (unreachable_service_times_out (Ok (PStr "token")) PNone network_down 19
           (PStr "2SyF0bVxmgGr8IVCZ") (PStr "run1") 180 fresh).
  - intros past e. eexists. reflexivity.
  - vm_compute. lia.
Defined.

Lemma false_secret_raises_only_once_witness :
  exists w1,
    _get_apify_token (Ok (PStr "")) (PStr "from the environment") fresh
    = (Raise (ValueError
                "APIFY_API_TOKEN not found in secrets or environment variables"),
       w1) /\
    events w1 = events fresh /\
    _get_apify_token (Ok (PStr "")) (PStr "from the environment") w1
    = (Ok (PStr ""), w1) /\
    find_working_actor_and_payload (Ok (PStr "")) (PStr "from the environment")
      working_service "https://www.linkedin.com/in/ada/" w1
    = (Raise (LinkedInScraperError "APIFY_API_TOKEN not set in environment"), w1).
Proof.
  apply (false_secret_raises_only_once (Ok (PStr "")) (PStr "from the environment")
           working_service (PStr "") fresh "https://www.linkedin.com/in/ada/");
    reflexivity.
Defined.

End RunProps.
